(** * Food delivery backend: order lifecycle and realtime registry

    A shallow embedding of [app/models.py], [app/utils.py],
    [app/consumers.py] and [app/main.py].

    - Python [float] is IEEE 754 binary64: prices and amounts are primitive
      floats, [*] and [+] are [PrimFloat.mul] and [PrimFloat.add].
    - Python [int] is unbounded: quantities are [Z].
    - [str | None] is [option string]; Python truthiness of such a value is
      [truthy].
    - The SQL tables are lists of rows in insertion order; the constraints
      declared in [models.py] (primary keys, [unique=True], foreign keys)
      are checked when a row is committed and raise [IntegrityError].
    - [ConnectionManager.active_connections], a dict of dicts of lists, is a
      [gmap string (gmap string (list WebSocket))].
    - Values that the source draws from the outside ([uuid.uuid4()],
      [datetime.now()], the password hash) are arguments of the handlers.
    - A websocket is an opaque handle.  [handle] and [run] take any list of
      requests; [serve] is the service as the framework drives it, where a
      socket is registered after its handshake [accept] and so once. *)

From Stdlib Require Import ZArith Floats.
From stdpp Require Import base option list gmap strings.

Local Open Scope string_scope.
Local Open Scope list_scope.
Local Open Scope Z_scope.

(** ** models.py *)

Module Models.

Inductive UserRole := ADMIN | RESTAURANT | CUSTOMER | DELIVERY_AGENT.

Inductive OrderStatus := PLACED | ACCEPTED | ASSIGNED | PICKED_UP | DELIVERED.

#[global] Instance UserRole_eq_dec : EqDecision UserRole.
Proof. solve_decision. Defined.

#[global] Instance OrderStatus_eq_dec : EqDecision OrderStatus.
Proof. solve_decision. Defined.

Record UserModel := {
  u_id : string;
  u_username : string;
  u_email : string;
  u_role : UserRole;
  u_hashed_password : string;
  u_disabled : bool
}.

Record MenuItemModel := {
  mi_id : string;
  mi_restaurant_id : string;
  mi_name : string;
  mi_description : string;
  mi_price : float;
  mi_is_available : bool
}.

Record OrderItemDict := {
  item_id : string;
  quantity : Z
}.

(** [items] is stored as the JSON dump of the line items and read back with
    [json.loads]; the embedding keeps the list itself. *)
Record OrderModel := {
  o_id : string;
  o_customer_id : string;
  o_restaurant_id : string;
  o_delivery_agent_id : option string;
  o_items : list OrderItemDict;
  o_total_amount : float;
  o_status : OrderStatus;
  o_created_at : Z;
  o_updated_at : Z
}.

Record PaymentModel := {
  p_id : string;
  p_order_id : string;
  p_amount : float;
  p_restaurant_share : float;
  p_delivery_fee : float;
  p_status : string;
  p_created_at : Z
}.

(** Request bodies. *)
Record UserCreate := {
  username : string;
  email : string;
  role : UserRole;
  password : string
}.

Record MenuItemBase := {
  name : string;
  description : string;
  price : float;
  is_available : bool
}.

Record OrderCreate := {
  restaurant_id : string;
  items : list OrderItemDict
}.

Record OrderUpdate := {
  status : OrderStatus;
  delivery_agent_id : option string
}.

(** The database: four tables, and the value [datetime.now()] had when
    [models.py] was imported (the column default of [created_at]). *)
Record DB := {
  users : list UserModel;
  menu_items : list MenuItemModel;
  orders : list OrderModel;
  payments : list PaymentModel;
  import_time : Z
}.

(** Truthiness of a [str | None]: [None] and the empty string are falsy. *)
Definition truthy (s : option string) : bool :=
  match s with
  | None => false
  | Some EmptyString => false
  | Some (String _ _) => true
  end.

(** [db.query(T).filter(T.id == x).first()] and its variants. *)
Definition query_user_by_id (d : DB) (x : string) : option UserModel :=
  find (λ u, bool_decide (u_id u = x)) (users d).

Definition query_user_by_username (d : DB) (x : string) : option UserModel :=
  find (λ u, bool_decide (u_username u = x)) (users d).

Definition query_menu_item (d : DB) (x : string) : option MenuItemModel :=
  find (λ m, bool_decide (mi_id m = x)) (menu_items d).

Definition query_order (d : DB) (x : string) : option OrderModel :=
  find (λ o, bool_decide (o_id o = x)) (orders d).

Definition query_payment_by_order (d : DB) (x : string) : option PaymentModel :=
  find (λ p, bool_decide (p_order_id p = x)) (payments d).

End Models.
Export Models.

(** ** Exceptions *)

(** The [detail] of an [HTTPException].  The message of the invalid
    transition is an f-string over the two statuses; it is kept as the pair. *)
Inductive detail :=
| Username_already_registered
| Could_not_validate_credentials
| Inactive_user
| Operation_requires_role (required : UserRole)
| Menu_item_not_found
| Not_authorized_to_update_this_menu_item
| Not_authorized_to_delete_this_menu_item
| Restaurant_not_found
| Menu_item_id_not_found (id : string)
| Menu_item_does_not_belong (id : string)
| Order_not_found
| Not_authorized_to_update_this_order_status
| Invalid_status_transition (from to : OrderStatus)
| Not_authorized_to_process_payment.

Inductive exn :=
| HTTPException (status_code : Z) (d : detail)
| IntegrityError
| OverflowError
| ValueError
| AttributeError.

(** ** consumers.py *)

Module ConnectionManager.

(** A websocket is an opaque handle. *)
Abbreviation WebSocket := nat (only parsing).

Inductive message :=
| New_order (order_id customer_id : string) (total_amount : float) (created_at : Z)
| Order_update (order_id : string) (status : OrderStatus) (updated_at : Z)
| Order_available (order_id restaurant_id : string) (created_at : Z).

Abbreviation scopes := (gmap string (list WebSocket)) (only parsing).
Abbreviation registry := (gmap string (gmap string (list WebSocket))) (only parsing).

(** One [await connection.send_json(message)]. *)
Abbreviation send := (WebSocket * message)%type (only parsing).

(** [__init__] *)
Definition init : registry := ∅.

(** [self.active_connections[user_id][key].append(websocket)], after the
    entry for [key] was created when absent. *)
Definition append_under (key : string) (websocket : WebSocket) (by_user : scopes) : scopes :=
  let by_user1 :=
    match by_user !! key with
    | None => <[key := []]> by_user
    | Some _ => by_user
    end in
  <[key := default [] (by_user1 !! key) ++ [websocket]]> by_user1.

(** [connect] after its first statement: the handshake
    [await websocket.accept()] leaves the registry alone and is modelled by
    [accept] below, with the service that runs it before every
    registration ([serve_request]). *)
Definition connect (conns : registry) (websocket : WebSocket)
    (user_id : string) (order_id : option string) : registry :=
  let conns1 :=
    match conns !! user_id with
    | None => <[user_id := ∅]> conns
    | Some _ => conns
    end in
  let by_user := default ∅ (conns1 !! user_id) in
  if truthy order_id
  then <[user_id := append_under (default EmptyString order_id) websocket by_user]> conns1
  else <[user_id := append_under "all" websocket by_user]> conns1.

(** [list.remove(x)]: drops the first occurrence, [ValueError] when there is
    none. *)
Fixpoint list_remove (x : WebSocket) (l : list WebSocket) : option (list WebSocket) :=
  match l with
  | [] => None
  | y :: l' => if bool_decide (y = x) then Some l'
               else match list_remove x l' with
                    | Some r => Some (y :: r)
                    | None => None
                    end
  end.

(** [self.active_connections[user_id][key].remove(websocket)] followed by
    the deletion of the entry when the list is left empty. *)
Definition remove_under (key : string) (websocket : WebSocket) (by_user : scopes)
    : exn + scopes :=
  match list_remove websocket (default [] (by_user !! key)) with
  | None => inl ValueError
  | Some [] => inr (delete key by_user)
  | Some l => inr (<[key := l]> by_user)
  end.

Definition disconnect (conns : registry) (websocket : WebSocket)
    (user_id : string) (order_id : option string) : exn + registry :=
  match conns !! user_id with
  | None => inr conns
  | Some by_user =>
      let removed :=
        if truthy order_id && bool_decide (is_Some (by_user !! default EmptyString order_id))
        then remove_under (default EmptyString order_id) websocket by_user
        else if bool_decide (is_Some (by_user !! "all"))
        then remove_under "all" websocket by_user
        else inr by_user in
      match removed with
      | inl e => inl e
      | inr by_user' =>
          if bool_decide (by_user' = ∅)
          then inr (delete user_id conns)
          else inr (<[user_id := by_user']> conns)
      end
  end.

(** The sends of [for connection in l: await connection.send_json(message)];
    a send that fails in the transport is outside the embedding. *)
Definition send_to (l : list WebSocket) (m : message) : list send :=
  map (λ c, (c, m)) l.

Definition send_order_update (conns : registry) (user_id order_id : string)
    (m : message) : list send :=
  match conns !! user_id with
  | None => []
  | Some by_user =>
      (match by_user !! order_id with Some l => send_to l m | None => [] end)
      ++ (match by_user !! "all" with Some l => send_to l m | None => [] end)
  end.

Definition broadcast_to_restaurant (conns : registry) (restaurant_id : string)
    (m : message) : list send :=
  match conns !! restaurant_id with
  | None => []
  | Some by_user =>
      match by_user !! "all" with Some l => send_to l m | None => [] end
  end.

(** The [db] argument of [get_user_by_id]: a session, or the default of the
    parameter, which is the object [Depends(get_db)] itself when the
    function is called directly rather than resolved by the framework. *)
Inductive db_arg :=
| Session (d : DB)
| Depends_get_db.

(** [db.query(UserModel)...]: the [Depends] object has no attribute [query]. *)
Definition get_user_by_id (user_id : string) (db : db_arg) : exn + option UserModel :=
  match db with
  | Session d => inr (query_user_by_id d user_id)
  | Depends_get_db => inl AttributeError
  end.

(** The loop of [broadcast_to_delivery_agents] over the items of the dict,
    for a given [db] argument of [get_user_by_id]: the sends made so far,
    and the exception that ended the loop if any. *)
Fixpoint broadcast_loop (db : db_arg) (entries : list (string * scopes))
    (m : message) : list send * option exn :=
  match entries with
  | [] => ([], None)
  | (user_id, connections) :: rest =>
      match get_user_by_id user_id db with
      | inl e => ([], Some e)
      | inr user =>
          let here :=
            match user with
            | Some u =>
                if bool_decide (u_role u = DELIVERY_AGENT)
                then match connections !! "all" with
                     | Some l => send_to l m
                     | None => []
                     end
                else []
            | None => []
            end in
          let '(later, e) := broadcast_loop db rest m in
          (here ++ later, e)
      end
  end.

(** The source calls [get_user_by_id(user_id)] with one argument, so [db]
    keeps its default.  The items come in the order of [map_to_list], not
    in the insertion order of the dict; no statement depends on the order. *)
Definition broadcast_to_delivery_agents (conns : registry) (m : message)
    : list send * option exn :=
  broadcast_loop Depends_get_db (map_to_list conns) m.

End ConnectionManager.

Export ConnectionManager.

(** ** The state of the running service, and handlers over it *)

Record World := {
  db : DB;
  manager : registry;
  sent : list send
}.

(** A handler runs on the world and returns a value or raises; what it
    committed or sent before raising stays. *)
Definition M (A : Type) : Type := World → (exn + A) * World.

#[global] Instance M_ret : MRet M := λ A a w, (inr a, w).

#[global] Instance M_bind : MBind M := λ A B f m w,
  match m w with
  | (inl e, w') => (inl e, w')
  | (inr a, w') => f a w'
  end.

Definition raise {A} (e : exn) : M A := λ w, (inl e, w).

Definition get_db : M DB := λ w, (inr (db w), w).

Definition get_manager : M registry := λ w, (inr (manager w), w).

(** [db.commit()] of a session whose pending changes lead to [d]. *)
Definition commit (d : DB) : M unit := λ w,
  (inr tt, {| db := d; manager := manager w; sent := sent w |}).

Definition set_manager (r : registry) : M unit := λ w,
  (inr tt, {| db := db w; manager := r; sent := sent w |}).

Definition emit (l : list send) : M unit := λ w,
  (inr tt, {| db := db w; manager := manager w; sent := sent w ++ l |}).

Definition with_users (d : DB) (l : list UserModel) : DB :=
  {| users := l; menu_items := menu_items d; orders := orders d;
     payments := payments d; import_time := import_time d |}.

Definition with_menu_items (d : DB) (l : list MenuItemModel) : DB :=
  {| users := users d; menu_items := l; orders := orders d;
     payments := payments d; import_time := import_time d |}.

Definition with_orders (d : DB) (l : list OrderModel) : DB :=
  {| users := users d; menu_items := menu_items d; orders := l;
     payments := payments d; import_time := import_time d |}.

Definition with_payments (d : DB) (l : list PaymentModel) : DB :=
  {| users := users d; menu_items := menu_items d; orders := orders d;
     payments := l; import_time := import_time d |}.

Definition has_user (d : DB) (x : string) : bool :=
  existsb (λ u, bool_decide (u_id u = x)) (users d).

(** [db.add(row); db.commit()] for each table, with the constraints of the
    schema. *)
Definition add_user (u : UserModel) : M unit :=
  d ← get_db;
  if existsb (λ v, bool_decide (u_id v = u_id u)
                   || bool_decide (u_username v = u_username u)
                   || bool_decide (u_email v = u_email u)) (users d)
  then raise IntegrityError
  else commit (with_users d (users d ++ [u])).

Definition add_menu_item (m : MenuItemModel) : M unit :=
  d ← get_db;
  if existsb (λ v, bool_decide (mi_id v = mi_id m)) (menu_items d)
     || negb (has_user d (mi_restaurant_id m))
  then raise IntegrityError
  else commit (with_menu_items d (menu_items d ++ [m])).

Definition fk_user_or_null (d : DB) (x : option string) : bool :=
  match x with
  | None => true
  | Some a => has_user d a
  end.

Definition add_order (o : OrderModel) : M unit :=
  d ← get_db;
  if existsb (λ v, bool_decide (o_id v = o_id o)) (orders d)
     || negb (has_user d (o_customer_id o))
     || negb (has_user d (o_restaurant_id o))
     || negb (fk_user_or_null d (o_delivery_agent_id o))
  then raise IntegrityError
  else commit (with_orders d (orders d ++ [o])).

Definition add_payment (p : PaymentModel) : M unit :=
  d ← get_db;
  if existsb (λ v, bool_decide (p_id v = p_id p)
                   || bool_decide (p_order_id v = p_order_id p)) (payments d)
     || negb (existsb (λ o, bool_decide (o_id o = p_order_id p)) (orders d))
  then raise IntegrityError
  else commit (with_payments d (payments d ++ [p])).

(** ** utils.py *)

Module Utils.

Definition get_current_user (token_sub : string) : M UserModel :=
  d ← get_db;
  match query_user_by_username d token_sub with
  | None => raise (HTTPException 401 Could_not_validate_credentials)
  | Some user => mret user
  end.

Definition get_current_active_user (token_sub : string) : M UserModel :=
  current_user ← get_current_user token_sub;
  if u_disabled current_user
  then raise (HTTPException 400 Inactive_user)
  else mret current_user.

Definition check_role (required_role : UserRole) (token_sub : string) : M UserModel :=
  user ← get_current_active_user token_sub;
  if bool_decide (u_role user ≠ required_role) && bool_decide (u_role user ≠ ADMIN)
  then raise (HTTPException 403 (Operation_requires_role required_role))
  else mret user.

(** Conversion of the [int] operand of [float * int]: round to nearest,
    ties to even; [OverflowError] when the integer is too large. *)
Definition float_of_int (z : Z) : exn + float :=
  let f := SF2Prim (binary_normalize prec emax z 0 false) in
  if PrimFloat.is_infinity f then inl OverflowError else inr f.

(** The loop of [calculate_order_total], from the running [total]. *)
Fixpoint calculate_order_total_from (d : DB) (total : float)
    (items : list OrderItemDict) : exn + float :=
  match items with
  | [] => inr total
  | item :: rest =>
      match query_menu_item d (item_id item) with
      | Some menu_item =>
          match float_of_int (quantity item) with
          | inl e => inl e
          | inr q =>
              calculate_order_total_from d
                (PrimFloat.add total (PrimFloat.mul (mi_price menu_item) q)) rest
          end
      | None => calculate_order_total_from d total rest
      end
  end.

Definition calculate_order_total (d : DB) (items : list OrderItemDict) : exn + float :=
  calculate_order_total_from d 0%float items.

(** The literals [0.8] and [0.2]: the doubles nearest to them. *)
#[local] Set Warnings "-inexact-float".
Definition restaurant_rate : float := 0.8%float.
Definition delivery_rate : float := 0.2%float.
#[local] Set Warnings "inexact-float".

Definition process_payment (order_id : string) (total_amount : float)
    (payment_id : string) : M PaymentModel :=
  let restaurant_share := PrimFloat.mul total_amount restaurant_rate in
  let delivery_fee := PrimFloat.mul total_amount delivery_rate in
  d ← get_db;
  let payment :=
    {| p_id := payment_id;
       p_order_id := order_id;
       p_amount := total_amount;
       p_restaurant_share := restaurant_share;
       p_delivery_fee := delivery_fee;
       p_status := "completed";
       p_created_at := import_time d |} in
  _ ← add_payment payment;
  mret payment.

End Utils.
Export Utils.

(** ** main.py *)

Module Main.

Definition register_user (user : UserCreate) (user_id hashed_password : string)
    : M UserModel :=
  d ← get_db;
  match query_user_by_username d (username user) with
  | Some _ => raise (HTTPException 400 Username_already_registered)
  | None =>
      let db_user :=
        {| u_id := user_id;
           u_username := username user;
           u_email := email user;
           u_role := role user;
           u_hashed_password := hashed_password;
           u_disabled := false |} in
      _ ← add_user db_user;
      mret db_user
  end.

Definition create_menu_item (token_sub : string) (menu_item : MenuItemBase)
    (item_id : string) : M MenuItemModel :=
  current_user ← check_role RESTAURANT token_sub;
  let db_menu_item :=
    {| mi_id := item_id;
       mi_restaurant_id := u_id current_user;
       mi_name := name menu_item;
       mi_description := description menu_item;
       mi_price := price menu_item;
       mi_is_available := is_available menu_item |} in
  _ ← add_menu_item db_menu_item;
  mret db_menu_item.

Definition update_menu_item (token_sub : string) (item_id : string)
    (menu_item : MenuItemBase) : M MenuItemModel :=
  current_user ← check_role RESTAURANT token_sub;
  d ← get_db;
  match query_menu_item d item_id with
  | None => raise (HTTPException 404 Menu_item_not_found)
  | Some db_menu_item =>
      if bool_decide (mi_restaurant_id db_menu_item ≠ u_id current_user)
         && bool_decide (u_role current_user ≠ ADMIN)
      then raise (HTTPException 403 Not_authorized_to_update_this_menu_item)
      else
        let updated :=
          {| mi_id := mi_id db_menu_item;
             mi_restaurant_id := mi_restaurant_id db_menu_item;
             mi_name := name menu_item;
             mi_description := description menu_item;
             mi_price := price menu_item;
             mi_is_available := is_available menu_item |} in
        _ ← commit (with_menu_items d
               (map (λ m, if bool_decide (mi_id m = item_id) then updated else m)
                    (menu_items d)));
        mret updated
  end.

Definition delete_menu_item (token_sub : string) (item_id : string) : M unit :=
  current_user ← check_role RESTAURANT token_sub;
  d ← get_db;
  match query_menu_item d item_id with
  | None => raise (HTTPException 404 Menu_item_not_found)
  | Some db_menu_item =>
      if bool_decide (mi_restaurant_id db_menu_item ≠ u_id current_user)
         && bool_decide (u_role current_user ≠ ADMIN)
      then raise (HTTPException 403 Not_authorized_to_delete_this_menu_item)
      else
        commit (with_menu_items d
          (filter (λ m, mi_id m ≠ item_id) (menu_items d)))
  end.

(** The loop "Validate items exist" of [create_order]. *)
Fixpoint validate_items (d : DB) (restaurant : string)
    (l : list OrderItemDict) : M unit :=
  match l with
  | [] => mret tt
  | item :: rest =>
      match query_menu_item d (item_id item) with
      | None => raise (HTTPException 404 (Menu_item_id_not_found (item_id item)))
      | Some menu_item =>
          if bool_decide (mi_restaurant_id menu_item ≠ restaurant)
          then raise (HTTPException 400 (Menu_item_does_not_belong (item_id item)))
          else validate_items d restaurant rest
      end
  end.

Definition create_order (token_sub : string) (order : OrderCreate)
    (order_id payment_id : string) (now : Z) : M OrderModel :=
  current_user ← check_role CUSTOMER token_sub;
  d ← get_db;
  match find (λ u, bool_decide (u_id u = restaurant_id order)
                   && bool_decide (u_role u = RESTAURANT)) (users d) with
  | None => raise (HTTPException 404 Restaurant_not_found)
  | Some restaurant =>
      _ ← validate_items d (restaurant_id order) (items order);
      match calculate_order_total d (items order) with
      | inl e => raise e
      | inr total_amount =>
          let db_order :=
            {| o_id := order_id;
               o_customer_id := u_id current_user;
               o_restaurant_id := restaurant_id order;
               o_delivery_agent_id := None;
               o_items := items order;
               o_total_amount := total_amount;
               o_status := PLACED;
               o_created_at := now;
               o_updated_at := now |} in
          _ ← add_order db_order;
          _ ← process_payment order_id total_amount payment_id;
          conns ← get_manager;
          _ ← emit (broadcast_to_restaurant conns (o_restaurant_id db_order)
                 (New_order (o_id db_order) (o_customer_id db_order)
                            (o_total_amount db_order) (o_created_at db_order)));
          mret db_order
      end
  end.

(** "Ensure proper authorization for status updates": the flag, and the
    request body after the branch of the delivery agent may have filled its
    [delivery_agent_id]. *)
Definition authorize (current_user : UserModel) (order : OrderModel)
    (order_update : OrderUpdate) : bool * OrderUpdate :=
  let role := u_role current_user in
  let user_id := u_id current_user in
  if bool_decide (role = ADMIN) then (true, order_update)
  else if bool_decide (role = RESTAURANT)
          && bool_decide (o_restaurant_id order = user_id)
  then
    if bool_decide (status order_update ∈ [ACCEPTED; ASSIGNED])
    then (true, order_update) else (false, order_update)
  else if bool_decide (role = DELIVERY_AGENT)
          && (bool_decide (o_delivery_agent_id order = Some user_id)
              || bool_decide (o_status order = ASSIGNED))
  then
    if bool_decide (status order_update ∈ [PICKED_UP; DELIVERED])
    then
      if bool_decide (status order_update = PICKED_UP)
         && negb (truthy (o_delivery_agent_id order))
      then (true, {| status := status order_update;
                     delivery_agent_id := Some user_id |})
      else (true, order_update)
    else (false, order_update)
  else (false, order_update).

Definition valid_transitions (s : OrderStatus) : list OrderStatus :=
  match s with
  | PLACED => [ACCEPTED]
  | ACCEPTED => [ASSIGNED]
  | ASSIGNED => [PICKED_UP]
  | PICKED_UP => [DELIVERED]
  | DELIVERED => []
  end.

(** "Update order": the row after the assignments of the handler. *)
Definition updated_order (order : OrderModel) (order_update : OrderUpdate)
    (now : Z) : OrderModel :=
  {| o_id := o_id order;
     o_customer_id := o_customer_id order;
     o_restaurant_id := o_restaurant_id order;
     o_delivery_agent_id :=
       if truthy (delivery_agent_id order_update)
       then delivery_agent_id order_update
       else o_delivery_agent_id order;
     o_items := o_items order;
     o_total_amount := o_total_amount order;
     o_status := status order_update;
     o_created_at := o_created_at order;
     o_updated_at := now |}.

Definition update_order_status (token_sub : string) (order_id : string)
    (order_update : OrderUpdate) (now : Z) : M OrderModel :=
  current_user ← get_current_active_user token_sub;
  d ← get_db;
  match query_order d order_id with
  | None => raise (HTTPException 404 Order_not_found)
  | Some order =>
      let '(authorized, order_update) := authorize current_user order order_update in
      if negb authorized
      then raise (HTTPException 403 Not_authorized_to_update_this_order_status)
      else if bool_decide (status order_update ∉ valid_transitions (o_status order))
      then raise (HTTPException 400
                    (Invalid_status_transition (o_status order) (status order_update)))
      else
        let order := updated_order order order_update now in
        _ ← (if negb (truthy (delivery_agent_id order_update))
                || fk_user_or_null d (delivery_agent_id order_update)
             then commit (with_orders d
                    (map (λ o, if bool_decide (o_id o = order_id) then order else o)
                         (orders d)))
             else raise IntegrityError);
        let update_message :=
          Order_update (o_id order) (o_status order) (o_updated_at order) in
        conns ← get_manager;
        _ ← emit (send_order_update conns (o_customer_id order) (o_id order) update_message);
        _ ← emit (send_order_update conns (o_restaurant_id order) (o_id order) update_message);
        _ ← (if truthy (o_delivery_agent_id order)
             then emit (send_order_update conns
                          (default EmptyString (o_delivery_agent_id order))
                          (o_id order) update_message)
             else mret tt);
        _ ← (if bool_decide (o_status order = ASSIGNED)
                && negb (truthy (o_delivery_agent_id order))
             then
               let '(sends, e) :=
                 broadcast_to_delivery_agents conns
                   (Order_available (o_id order) (o_restaurant_id order)
                                    (o_created_at order)) in
               _ ← emit sends;
               match e with
               | Some e => raise e
               | None => mret tt
               end
             else mret tt);
        mret order
  end.

Definition create_payment (token_sub : string) (order_id : string)
    (payment_id : string) : M PaymentModel :=
  current_user ← check_role CUSTOMER token_sub;
  d ← get_db;
  match query_order d order_id with
  | None => raise (HTTPException 404 Order_not_found)
  | Some order =>
      if bool_decide (o_customer_id order ≠ u_id current_user)
      then raise (HTTPException 403 Not_authorized_to_process_payment)
      else
        match query_payment_by_order d order_id with
        | Some existing_payment => mret existing_payment
        | None => process_payment order_id (o_total_amount order) payment_id
        end
  end.

(** The two websocket endpoints register the socket, then unregister it
    when the client goes away; a [ValueError] of [disconnect] leaves the
    registry as it was. *)
Definition websocket_connected (websocket : WebSocket) (user_id : string)
    (order_id : option string) : M unit :=
  conns ← get_manager;
  set_manager (connect conns websocket user_id order_id).

Definition websocket_disconnected (websocket : WebSocket) (user_id : string)
    (order_id : option string) : M unit :=
  conns ← get_manager;
  match disconnect conns websocket user_id order_id with
  | inl e => raise e
  | inr conns' => set_manager conns'
  end.

(** [startup_event]: the admin account is created when it is missing. *)
Definition startup_event (admin_id hashed_password : string) : M unit :=
  d ← get_db;
  match query_user_by_username d "admin" with
  | Some _ => mret tt
  | None =>
      add_user {| u_id := admin_id;
                  u_username := "admin";
                  u_email := "admin@fooddelivery.com";
                  u_role := ADMIN;
                  u_hashed_password := hashed_password;
                  u_disabled := false |}
  end.

End Main.
Export Main.

(** ** Requests and runs of the service *)

Inductive request :=
| Startup (admin_id hashed_password : string)
| Register_user (user : UserCreate) (user_id hashed_password : string)
| Create_menu_item (token_sub : string) (menu_item : MenuItemBase) (item_id : string)
| Update_menu_item (token_sub item_id : string) (menu_item : MenuItemBase)
| Delete_menu_item (token_sub item_id : string)
| Create_order (token_sub : string) (order : OrderCreate)
    (order_id payment_id : string) (now : Z)
| Update_order_status (token_sub order_id : string) (order_update : OrderUpdate) (now : Z)
| Create_payment (token_sub order_id payment_id : string)
| Websocket_connected (websocket : WebSocket) (user_id : string) (order_id : option string)
| Websocket_disconnected (websocket : WebSocket) (user_id : string) (order_id : option string).

(** The world after a request, whatever the response was. *)
Definition handle (r : request) (w : World) : World :=
  match r with
  | Startup a h => (startup_event a h w).2
  | Register_user u i h => (register_user u i h w).2
  | Create_menu_item t m i => (create_menu_item t m i w).2
  | Update_menu_item t i m => (update_menu_item t i m w).2
  | Delete_menu_item t i => (delete_menu_item t i w).2
  | Create_order t o i p n => (create_order t o i p n w).2
  | Update_order_status t i u n => (update_order_status t i u n w).2
  | Create_payment t i p => (create_payment t i p w).2
  | Websocket_connected s u o => (websocket_connected s u o w).2
  | Websocket_disconnected s u o => (websocket_disconnected s u o w).2
  end.

Fixpoint run (w : World) (rs : list request) : World :=
  match rs with
  | [] => w
  | r :: rs' => run (handle r w) rs'
  end.

(** A fresh process on an empty database. *)
Definition boot (t : Z) : World :=
  {| db := {| users := []; menu_items := []; orders := []; payments := [];
              import_time := t |};
     manager := ConnectionManager.init;
     sent := [] |}.

(** ** Vocabulary of the statements *)

(** The entry of the registry for a user and a scope key, when there is one. *)
Definition scope_entry (conns : registry) (U k : string) : option (list WebSocket) :=
  conns !! U ≫= λ by_user : scopes, by_user !! k.

(** The sockets registered for a user under a scope key. *)
Definition registered (conns : registry) (U k : string) : list WebSocket :=
  default [] (scope_entry conns U k).

Definition occurrences (C : WebSocket) (l : list WebSocket) : nat :=
  length (filter (λ c, c = C) l).

(** How many of the sends went to socket [C]. *)
Definition deliveries (C : WebSocket) (sends : list send) : nat :=
  length (filter (λ s : send, s.1 = C) sends).

(** No user without scopes, no scope without sockets. *)
Definition no_empty_entries (conns : registry) : Prop :=
  ∀ U (by_user : scopes), conns !! U = Some by_user →
    by_user ≠ ∅ ∧ ∀ k l, by_user !! k = Some l → l ≠ [].

(** The scope key [connect] files a socket under. *)
Definition connect_key (order_id : option string) : string :=
  if truthy order_id then default EmptyString order_id else "all".

(** The scope key [disconnect] works on: the order id when one is given and
    the user has an entry for it, else ["all"] when the user has that. *)
Definition selected_key (by_user : scopes) (order_id : option string) : option string :=
  if truthy order_id && bool_decide (is_Some (by_user !! default EmptyString order_id))
  then Some (default EmptyString order_id)
  else if bool_decide (is_Some (by_user !! "all")) then Some "all"
  else None.

(** What is left of a user's scopes when the list under [k] becomes [l']. *)
Definition pruned_scopes (k : string) (l' : list WebSocket) (by_user : scopes) : scopes :=
  match l' with
  | [] => delete k by_user
  | _ => <[k := l']> by_user
  end.

Definition pruned_registry (U : string) (by_user' : scopes) (conns : registry) : registry :=
  if bool_decide (by_user' = ∅) then delete U conns else <[U := by_user']> conns.

(** Position of a status on the chain. *)
Definition rank (s : OrderStatus) : nat :=
  match s with
  | PLACED => 0
  | ACCEPTED => 1
  | ASSIGNED => 2
  | PICKED_UP => 3
  | DELIVERED => 4
  end%nat.

(** An order as it may look later in its life: everything but the status,
    the agent and the update time is as it was, and the status is not
    behind. *)
Definition evolves (o o' : OrderModel) : Prop :=
  o_id o' = o_id o
  ∧ o_customer_id o' = o_customer_id o
  ∧ o_restaurant_id o' = o_restaurant_id o
  ∧ o_items o' = o_items o
  ∧ o_total_amount o' = o_total_amount o
  ∧ o_created_at o' = o_created_at o
  ∧ (rank (o_status o) ≤ rank (o_status o'))%nat.

(** A payment that settles its order: the order is there, the amount is the
    total of the order, and the two shares are the two rates of it. *)
Definition settles (d : DB) (p : PaymentModel) : Prop :=
  ∃ o, query_order d (p_order_id p) = Some o
       ∧ p_amount p = o_total_amount o
       ∧ p_restaurant_share p = PrimFloat.mul (p_amount p) restaurant_rate
       ∧ p_delivery_fee p = PrimFloat.mul (p_amount p) delivery_rate.

Definition payments_ok (d : DB) : Prop :=
  NoDup (p_order_id <$> payments d) ∧ Forall (settles d) (payments d).

(** The changes that a handler commits, one table at a time. *)
Inductive db_step (d : DB) : DB → Prop :=
| Step_users l :
    db_step d (with_users d l)
| Step_menu_items l :
    db_step d (with_menu_items d l)
| Step_order_placed o :
    existsb (λ v, bool_decide (o_id v = o_id o)) (orders d) = false →
    db_step d (with_orders d (orders d ++ [o]))
| Step_order_updated order_id order order_update now :
    query_order d order_id = Some order →
    status order_update ∈ valid_transitions (o_status order) →
    db_step d
      (with_orders d
         (map (λ o, if bool_decide (o_id o = order_id)
                    then updated_order order order_update now else o)
              (orders d)))
| Step_payment o p :
    query_order d (p_order_id p) = Some o →
    p_amount p = o_total_amount o →
    p_restaurant_share p = PrimFloat.mul (p_amount p) restaurant_rate →
    p_delivery_fee p = PrimFloat.mul (p_amount p) delivery_rate →
    existsb (λ v, bool_decide (p_id v = p_id p)
                  || bool_decide (p_order_id v = p_order_id p)) (payments d) = false →
    db_step d (with_payments d (payments d ++ [p])).

(** The sum the order total is specified as: for each line, the price of
    the menu item it names times its quantity, added up from zero in the
    order of the lines. *)
Definition line_amount (d : DB) (item : OrderItemDict) : option float :=
  match query_menu_item d (item_id item), float_of_int (quantity item) with
  | Some menu_item, inr q => Some (PrimFloat.mul (mi_price menu_item) q)
  | _, _ => None
  end.

Definition line_amounts (d : DB) (l : list OrderItemDict) : option (list float) :=
  mapM (line_amount d) l.

Definition sum_amounts (amounts : list float) : float :=
  fold_left PrimFloat.add amounts 0%float.

(** The row [create_order] builds. *)
Definition new_order (u : UserModel) (order : OrderCreate) (order_id : string)
    (total_amount : float) (now : Z) : OrderModel :=
  {| o_id := order_id;
     o_customer_id := u_id u;
     o_restaurant_id := restaurant_id order;
     o_delivery_agent_id := None;
     o_items := items order;
     o_total_amount := total_amount;
     o_status := PLACED;
     o_created_at := now;
     o_updated_at := now |}.

(** The notifications of a committed status update: the sends, and the
    exception of the broadcast if it raised. *)
Definition notifications (conns : registry) (order : OrderModel)
    : list send * option exn :=
  let update_message :=
    Order_update (o_id order) (o_status order) (o_updated_at order) in
  let to_parties :=
    send_order_update conns (o_customer_id order) (o_id order) update_message
    ++ send_order_update conns (o_restaurant_id order) (o_id order) update_message
    ++ (if truthy (o_delivery_agent_id order)
        then send_order_update conns (default EmptyString (o_delivery_agent_id order))
               (o_id order) update_message
        else []) in
  if bool_decide (o_status order = ASSIGNED) && negb (truthy (o_delivery_agent_id order))
  then
    let '(sends, e) :=
      broadcast_to_delivery_agents conns
        (Order_available (o_id order) (o_restaurant_id order) (o_created_at order)) in
    (to_parties ++ sends, e)
  else (to_parties, None).

(** What a request other than a websocket event may do: leave the registry
    alone and commit a few table changes. *)
Definition db_only (w w' : World) : Prop :=
  manager w' = manager w ∧ rtc db_step (db w) (db w').

(** ** Example runs *)

Module Examples.

Definition account (n : string) (r : UserRole) : UserCreate :=
  {| username := n; email := n; role := r; password := "secret" |}.

Definition burger : MenuItemBase :=
  {| name := "Burger"; description := "beef"; price := 10%float;
     is_available := true |}.

Definition two_burgers : OrderCreate :=
  {| restaurant_id := "r1"; items := [ {| item_id := "m1"; quantity := 2 |} ] |}.

Definition to_status (s : OrderStatus) : OrderUpdate :=
  {| status := s; delivery_agent_id := None |}.

(** Restaurant R offers a burger at 10.00 and customer C orders two. *)
Definition requests_until_placed : list request :=
  [ Register_user (account "R" RESTAURANT) "r1" "h1";
    Register_user (account "C" CUSTOMER) "c1" "h2";
    Register_user (account "A" DELIVERY_AGENT) "a1" "h3";
    Register_user (account "B" DELIVERY_AGENT) "b1" "h4";
    Create_menu_item "R" burger "m1";
    Create_order "C" two_burgers "o1" "p1" 100 ].

Definition placed : World := run (boot 0) requests_until_placed.

(** The customer follows the order, agent A listens for work, then R
    accepts the order. *)
Definition accepted : World :=
  run placed
    [ Websocket_connected 5%nat "c1" (Some "o1");
      Websocket_connected 7%nat "a1" None;
      Update_order_status "R" "o1" (to_status ACCEPTED) 101 ].

(** R hands the order over and names agent A in the request body. *)
Definition assigned_to_A : World :=
  run accepted
    [ Update_order_status "R" "o1"
        {| status := ASSIGNED; delivery_agent_id := Some "a1" |} 102 ].

Definition some_event : message := Order_update "o1" ACCEPTED 101.

(** The row of agent B, and the order once R has named agent A. *)
Definition agent_B : UserModel :=
  {| u_id := "b1"; u_username := "B"; u_email := "B"; u_role := DELIVERY_AGENT;
     u_hashed_password := "h4"; u_disabled := false |}.

Definition order_of_A : OrderModel :=
  {| o_id := "o1"; o_customer_id := "c1"; o_restaurant_id := "r1";
     o_delivery_agent_id := Some "a1";
     o_items := [ {| item_id := "m1"; quantity := 2 |} ];
     o_total_amount := 20%float; o_status := ASSIGNED;
     o_created_at := 100; o_updated_at := 102 |}.

Definition customer_C : UserModel :=
  {| u_id := "c1"; u_username := "C"; u_email := "C"; u_role := CUSTOMER;
     u_hashed_password := "h2"; u_disabled := false |}.

Definition payment_p1 : PaymentModel :=
  {| p_id := "p1"; p_order_id := "o1"; p_amount := 20%float;
     p_restaurant_share := 16%float; p_delivery_fee := 4%float;
     p_status := "completed"; p_created_at := 0 |}.

End Examples.

(** ** main.py: the endpoints that only read *)

Module Reads.

(** [get_menu_items]: [if restaurant_id:] is the truthiness of the query
    parameter, so an empty string lists every item. *)
Definition get_menu_items (d : DB) (restaurant_id : option string)
    : list MenuItemModel :=
  if truthy restaurant_id
  then filter (λ m, mi_restaurant_id m = default EmptyString restaurant_id)
         (menu_items d)
  else menu_items d.

(** [get_orders], for the user the dependency resolved.  In SQL a null
    [delivery_agent_id] is equal to no id. *)
Definition get_orders (d : DB) (current_user : UserModel) : list OrderModel :=
  match u_role current_user with
  | ADMIN => orders d
  | CUSTOMER => filter (λ o, o_customer_id o = u_id current_user) (orders d)
  | RESTAURANT => filter (λ o, o_restaurant_id o = u_id current_user) (orders d)
  | DELIVERY_AGENT =>
      filter (λ o, o_delivery_agent_id o = Some (u_id current_user)) (orders d)
  end.

(** The two [HTTPException]s of [get_order]: 404 "Order not found" and 403
    "Not authorized to view this order". *)
Inductive get_order_error :=
| Get_order_404
| Get_order_403.

(** [get_order], for the user the dependency resolved. *)
Definition get_order (d : DB) (order_id : string) (current_user : UserModel)
    : get_order_error + OrderModel :=
  match query_order d order_id with
  | None => inl Get_order_404
  | Some order =>
      let role := u_role current_user in
      let user_id := u_id current_user in
      if (bool_decide (role = CUSTOMER)
          && bool_decide (o_customer_id order ≠ user_id))
         || (bool_decide (role = RESTAURANT)
             && bool_decide (o_restaurant_id order ≠ user_id))
         || (bool_decide (role = DELIVERY_AGENT)
             && bool_decide (o_delivery_agent_id order ≠ Some user_id)
             && bool_decide (o_status order ≠ ASSIGNED))
      then if bool_decide (role ≠ ADMIN) then inl Get_order_403 else inr order
      else inr order
  end.

(** What a websocket endpoint does with a client before its receive loop:
    it closes the socket with code 1008, or registers it. *)
Inductive opening := Closed_1008 | Registered.

(** [websocket_endpoint] up to its receive loop.  [token] is the query
    parameter after [jwt.decode]: [None] when the parameter is absent or
    empty, [Some sub] when it decoded to a payload whose ["sub"] is [sub];
    a token that does not decode is outside the embedding. *)
Definition websocket_endpoint (websocket : WebSocket) (user_id : string)
    (token : option (option string)) : M opening :=
  d ← get_db;
  let refused :=
    match token with
    | None => false
    | Some username =>
        match username ≫= query_user_by_username d with
        | None => true
        | Some user => bool_decide (u_id user ≠ user_id)
        end
    end in
  if refused then mret Closed_1008
  else
    conns ← get_manager;
    _ ← set_manager (connect conns websocket user_id None);
    mret Registered.

(** [websocket_specific_order] up to its receive loop. *)
Definition websocket_specific_order (websocket : WebSocket)
    (user_id order_id : string) (token : option (option string)) : M opening :=
  d ← get_db;
  let refused :=
    match token with
    | None => false
    | Some username =>
        match username ≫= query_user_by_username d with
        | None => true
        | Some user =>
            bool_decide (u_id user ≠ user_id)
            || match query_order d order_id with
               | None => true
               | Some order =>
                   bool_decide (u_role user = CUSTOMER)
                   && bool_decide (o_customer_id order ≠ user_id)
               end
        end
    end in
  if refused then mret Closed_1008
  else
    conns ← get_manager;
    _ ← set_manager (connect conns websocket user_id (Some order_id));
    mret Registered.

End Reads.
Export Reads.

(** ** Vocabulary of the further statements *)

(** The changes that the handlers commit, with what the handler has checked
    before each of them. *)
Inductive db_change (d : DB) : DB → Prop :=
| Change_user_added u :
    existsb (λ v, bool_decide (u_id v = u_id u)
                  || bool_decide (u_username v = u_username u)
                  || bool_decide (u_email v = u_email u)) (users d) = false →
    u_disabled u = false →
    db_change d (with_users d (users d ++ [u]))
| Change_menu_item_added m owner :
    existsb (λ v, bool_decide (mi_id v = mi_id m)) (menu_items d) = false →
    owner ∈ users d →
    mi_restaurant_id m = u_id owner →
    u_role owner = RESTAURANT ∨ u_role owner = ADMIN →
    db_change d (with_menu_items d (menu_items d ++ [m]))
| Change_menu_item_updated item_id old new :
    query_menu_item d item_id = Some old →
    mi_id new = mi_id old →
    mi_restaurant_id new = mi_restaurant_id old →
    db_change d
      (with_menu_items d
         (map (λ m, if bool_decide (mi_id m = item_id) then new else m)
              (menu_items d)))
| Change_menu_item_deleted item_id :
    db_change d
      (with_menu_items d (filter (λ m, mi_id m ≠ item_id) (menu_items d)))
| Change_order_placed o customer restaurant :
    existsb (λ v, bool_decide (o_id v = o_id o)) (orders d) = false →
    customer ∈ users d →
    o_customer_id o = u_id customer →
    u_role customer = CUSTOMER ∨ u_role customer = ADMIN →
    restaurant ∈ users d →
    o_restaurant_id o = u_id restaurant →
    u_role restaurant = RESTAURANT →
    o_status o = PLACED →
    o_delivery_agent_id o = None →
    db_change d (with_orders d (orders d ++ [o]))
| Change_order_updated order_id order order_update now :
    query_order d order_id = Some order →
    status order_update ∈ valid_transitions (o_status order) →
    (truthy (delivery_agent_id order_update) = true →
     fk_user_or_null d (delivery_agent_id order_update) = true) →
    db_change d
      (with_orders d
         (map (λ o, if bool_decide (o_id o = order_id)
                    then updated_order order order_update now else o)
              (orders d)))
| Change_payment_added o p :
    query_order d (p_order_id p) = Some o →
    p_amount p = o_total_amount o →
    existsb (λ v, bool_decide (p_id v = p_id p)
                  || bool_decide (p_order_id v = p_order_id p)) (payments d) = false →
    db_change d (with_payments d (payments d ++ [p])).

(** The tables as the constraints of the schema and the checks of the
    handlers keep them. *)
Record db_ok (d : DB) : Prop := {
  ok_user_ids : NoDup (u_id <$> users d);
  ok_usernames : NoDup (u_username <$> users d);
  ok_emails : NoDup (u_email <$> users d);
  ok_menu_item_ids : NoDup (mi_id <$> menu_items d);
  ok_menu_item_owner :
    ∀ m, m ∈ menu_items d →
      ∃ owner, query_user_by_id d (mi_restaurant_id m) = Some owner
               ∧ (u_role owner = RESTAURANT ∨ u_role owner = ADMIN);
  ok_order_ids : NoDup (o_id <$> orders d);
  ok_order_parties :
    ∀ o, o ∈ orders d →
      (∃ customer, query_user_by_id d (o_customer_id o) = Some customer
                   ∧ (u_role customer = CUSTOMER ∨ u_role customer = ADMIN))
      ∧ (∃ restaurant, query_user_by_id d (o_restaurant_id o) = Some restaurant
                       ∧ u_role restaurant = RESTAURANT)
      ∧ (∀ a, o_delivery_agent_id o = Some a → is_Some (query_user_by_id d a));
  ok_payment_ids : NoDup (p_id <$> payments d);
  ok_active : ∀ u, u ∈ users d → u_disabled u = false
}.

(** The first query of [create_order]: the account with that id and the
    role restaurant. *)
Definition query_restaurant (d : DB) (x : string) : option UserModel :=
  find (λ u, bool_decide (u_id u = x) && bool_decide (u_role u = RESTAURANT))
       (users d).

(** A line that names an item of the menu of restaurant [R]. *)
Definition line_of (d : DB) (R : string) (item : OrderItemDict) : Prop :=
  ∃ m, query_menu_item d (item_id item) = Some m ∧ mi_restaurant_id m = R.

(** The row [process_payment] builds. *)
Definition new_payment (d : DB) (order_id : string) (total_amount : float)
    (payment_id : string) : PaymentModel :=
  {| p_id := payment_id;
     p_order_id := order_id;
     p_amount := total_amount;
     p_restaurant_share := PrimFloat.mul total_amount restaurant_rate;
     p_delivery_fee := PrimFloat.mul total_amount delivery_rate;
     p_status := "completed";
     p_created_at := import_time d |}.

(** What a committed change leaves of the order with a given id. *)
Definition kept (o o' : OrderModel) : Prop :=
  evolves o o'
  ∧ (o' = o ∨ (rank (o_status o) < rank (o_status o'))%nat)
  ∧ (truthy (o_delivery_agent_id o) = true →
     truthy (o_delivery_agent_id o') = true).

(** The items of a list that the menu knows. *)
Definition known_items (d : DB) (l : list OrderItemDict) : list OrderItemDict :=
  filter (λ item, is_Some (query_menu_item d (item_id item))) l.

(** The order-scoped sends of a committed status update, without the
    broadcast. *)
Definition party_sends (conns : registry) (order : OrderModel) : list send :=
  let update_message :=
    Order_update (o_id order) (o_status order) (o_updated_at order) in
  send_order_update conns (o_customer_id order) (o_id order) update_message
  ++ send_order_update conns (o_restaurant_id order) (o_id order) update_message
  ++ (if truthy (o_delivery_agent_id order)
      then send_order_update conns (default EmptyString (o_delivery_agent_id order))
             (o_id order) update_message
      else []).

(** ** The handshake, and the service as the framework drives it *)

(** [await websocket.accept()], the first statement of
    [ConnectionManager.connect] (consumers.py 12), on the set of the sockets
    whose handshake is done.  The framework makes one socket object for each
    connection and hands it to the endpoint, which passes it to [connect]
    once (main.py 426, 462); the handshake of a socket is done once, and the
    transport refuses a second [accept] on a socket with an exception,
    before the registry is touched. *)
Definition accept (accepted : gset WebSocket) (websocket : WebSocket)
    : option (gset WebSocket) :=
  if bool_decide (websocket ∈ accepted) then None
  else Some ({[ websocket ]} ∪ accepted).

(** The running service: the world, and the sockets whose handshake is
    done. *)
Record Service := {
  world : World;
  accepted : gset WebSocket
}.

(** A request as the service handles it: a websocket endpoint registers its
    socket after the handshake, and not at all when the handshake is
    refused; the other requests are handled as [handle] says. *)
Definition serve_request (r : request) (s : Service) : Service :=
  match r with
  | Websocket_connected websocket _ _ =>
      match accept (accepted s) websocket with
      | None => s
      | Some accepted' => {| world := handle r (world s); accepted := accepted' |}
      end
  | _ => {| world := handle r (world s); accepted := accepted s |}
  end.

Fixpoint serve (s : Service) (rs : list request) : Service :=
  match rs with
  | [] => s
  | r :: rs' => serve (serve_request r s) rs'
  end.

(** A fresh process on an empty database, no socket connected yet. *)
Definition start (t : Z) : Service := {| world := boot t; accepted := ∅ |}.

(** Every socket is filed once in the whole registry. *)
Definition filed_once (conns : registry) : Prop :=
  (∀ U k, NoDup (registered conns U k))
  ∧ ∀ C U k V k',
      C ∈ registered conns U k → C ∈ registered conns V k' → U = V ∧ k = k'.

(** Every socket of the registry went through the handshake, and is filed
    once. *)
Definition served_ok (s : Service) : Prop :=
  filed_once (manager (world s))
  ∧ ∀ C U k, C ∈ registered (manager (world s)) U k → C ∈ accepted s.

(** Two status updates of one order handled one after the other, the first
    of them first: the first goes through and leaves [winner] attached to
    the order, the second is refused with 403 and changes nothing. *)
Definition first_wins (w : World) (order_id : string)
    (first second : string * OrderUpdate * Z) (winner : UserModel) : Prop :=
  let r1 := update_order_status first.1.1 order_id first.1.2 first.2 w in
  let r2 := update_order_status second.1.1 order_id second.1.2 second.2 r1.2 in
  (∃ o', r1.1 = inr o'
         ∧ o_delivery_agent_id o' = Some (u_id winner)
         ∧ query_order (db r2.2) order_id = Some o')
  ∧ r2 = (inl (HTTPException 403 Not_authorized_to_update_this_order_status), r1.2).

Module MoreExamples.

Definition restaurant_R : UserModel :=
  {| u_id := "r1"; u_username := "R"; u_email := "R"; u_role := RESTAURANT;
     u_hashed_password := "h1"; u_disabled := false |}.

Definition agent_A : UserModel :=
  {| u_id := "a1"; u_username := "A"; u_email := "A"; u_role := DELIVERY_AGENT;
     u_hashed_password := "h3"; u_disabled := false |}.

Definition burger_row : MenuItemModel :=
  {| mi_id := "m1"; mi_restaurant_id := "r1"; mi_name := "Burger";
     mi_description := "beef"; mi_price := 10%float; mi_is_available := true |}.

Definition order_accepted : OrderModel :=
  {| o_id := "o1"; o_customer_id := "c1"; o_restaurant_id := "r1";
     o_delivery_agent_id := None;
     o_items := [ {| item_id := "m1"; quantity := 2 |} ];
     o_total_amount := 20%float; o_status := ACCEPTED;
     o_created_at := 100; o_updated_at := 101 |}.

(** The order of the scenario once agent A has picked it up and delivered
    it. *)
Definition delivered : World :=
  run Examples.assigned_to_A
    [ Update_order_status "A" "o1" (Examples.to_status PICKED_UP) 103;
      Update_order_status "A" "o1" (Examples.to_status DELIVERED) 104 ].

Definition order_delivered : OrderModel :=
  {| o_id := "o1"; o_customer_id := "c1"; o_restaurant_id := "r1";
     o_delivery_agent_id := Some "a1";
     o_items := [ {| item_id := "m1"; quantity := 2 |} ];
     o_total_amount := 20%float; o_status := DELIVERED;
     o_created_at := 100; o_updated_at := 104 |}.

Definition restaurant_S : UserModel :=
  {| u_id := "s1"; u_username := "S"; u_email := "S"; u_role := RESTAURANT;
     u_hashed_password := "h5"; u_disabled := false |}.

(** A second restaurant joins. *)
Definition two_restaurants : World :=
  run Examples.placed [ Register_user (Examples.account "S" RESTAURANT) "s1" "h5" ].

(** The accounts and the menu before customer C orders. *)
Definition menu_ready : World :=
  run (boot 0)
    [ Register_user (Examples.account "R" RESTAURANT) "r1" "h1";
      Register_user (Examples.account "C" CUSTOMER) "c1" "h2";
      Register_user (Examples.account "A" DELIVERY_AGENT) "a1" "h3";
      Register_user (Examples.account "B" DELIVERY_AGENT) "b1" "h4";
      Create_menu_item "R" Examples.burger "m1" ].

(** R hands the accepted order over and names no agent: the order waits
    in assigned_to_delivery for an agent to take it. *)
Definition waiting : World :=
  run Examples.accepted
    [ Update_order_status "R" "o1" (Examples.to_status ASSIGNED) 102 ].

Definition order_waiting : OrderModel :=
  {| o_id := "o1"; o_customer_id := "c1"; o_restaurant_id := "r1";
     o_delivery_agent_id := None;
     o_items := [ {| item_id := "m1"; quantity := 2 |} ];
     o_total_amount := 20%float; o_status := ASSIGNED;
     o_created_at := 100; o_updated_at := 102 |}.

(** The requests of [Examples.accepted], as the service handles them. *)
Definition requests_until_accepted : list request :=
  Examples.requests_until_placed
  ++ [ Websocket_connected 5%nat "c1" (Some "o1");
       Websocket_connected 7%nat "a1" None;
       Update_order_status "R" "o1" (Examples.to_status ACCEPTED) 101 ].

End MoreExamples.

(** ** The registry: connect and disconnect *)

Section Registry.

Implicit Types (conns : registry) (by_user : scopes) (l : list WebSocket).
Implicit Types (C ws : WebSocket) (U V k : string) (m : message).

Lemma list_remove_split ws l l' :
  list_remove ws l = Some l' →
  ∃ l1 l2, l = l1 ++ ws :: l2 ∧ l' = l1 ++ l2 ∧ ws ∉ l1.
Proof.
  revert l'. induction l as [|y l IH]; intros l' H; simpl in H; [done|].
  case_bool_decide as Hy.
  - inversion H; subst. exists [], l'. split_and!; [done|done|]. apply not_elem_of_nil.
  - destruct (list_remove ws l) as [r|] eqn:Hr; [|done].
    inversion H; subst. destruct (IH r eq_refl) as (l1 & l2 & -> & -> & Hn).
    exists (y :: l1), l2. split_and!; [done|done|].
    rewrite elem_of_cons. intros [->|?]; done.
Qed.

Lemma list_remove_None ws l : list_remove ws l = None ↔ ws ∉ l.
Proof.
  induction l as [|y l IH]; simpl.
  - split; [intros _; apply not_elem_of_nil|done].
  - case_bool_decide as Hy.
    + subst. split; [done|]. intros H. exfalso. apply H. left.
    + destruct (list_remove ws l) eqn:Hr.
      * split; [done|]. intros H. exfalso.
        assert (ws ∉ l) as Hl by (intros ?; apply H; by right).
        apply IH in Hl. done.
      * split; [|done]. intros _. rewrite elem_of_cons.
        intros [->|Hin]; [done|]. by apply (proj1 IH).
Qed.

Lemma list_remove_is_Some ws l : ws ∈ l → is_Some (list_remove ws l).
Proof.
  intros Hin. destruct (list_remove ws l) eqn:H; [by eexists|].
  apply list_remove_None in H. done.
Qed.

Lemma occurrences_app C l1 l2 :
  occurrences C (l1 ++ l2) = (occurrences C l1 + occurrences C l2)%nat.
Proof. unfold occurrences. by rewrite filter_app, length_app. Qed.

Lemma occurrences_cons_eq C l : occurrences C (C :: l) = S (occurrences C l).
Proof. unfold occurrences. by rewrite filter_cons_True. Qed.

Lemma occurrences_zero C l : occurrences C l = 0%nat ↔ C ∉ l.
Proof.
  unfold occurrences. induction l as [|y l IH]; simpl.
  - split; [intros _; apply not_elem_of_nil|done].
  - destruct (decide (y = C)) as [->|Hne].
    + rewrite filter_cons_True by done. simpl. split; [done|].
      intros H. exfalso. apply H. left.
    + rewrite filter_cons_False by done. rewrite IH, elem_of_cons.
      split; [intros ? [?|?]; [by subst|done] | intros H ?; apply H; by right].
Qed.

Lemma list_remove_occurrences ws l l' :
  list_remove ws l = Some l' →
  length l = S (length l') ∧ occurrences ws l = S (occurrences ws l')
  ∧ ∀ C, C ≠ ws → occurrences C l = occurrences C l'.
Proof.
  intros (l1 & l2 & -> & -> & _)%list_remove_split. split_and!.
  - rewrite !length_app. simpl. lia.
  - rewrite !occurrences_app, occurrences_cons_eq. lia.
  - intros C HC. rewrite !occurrences_app. f_equal.
    unfold occurrences. by rewrite filter_cons_False by done.
Qed.

Lemma deliveries_app C (s1 s2 : list send) :
  deliveries C (s1 ++ s2) = (deliveries C s1 + deliveries C s2)%nat.
Proof. unfold deliveries. by rewrite filter_app, length_app. Qed.

Lemma deliveries_send_to C l m : deliveries C (send_to l m) = occurrences C l.
Proof.
  unfold deliveries, occurrences, send_to. induction l as [|y l IH]; [done|].
  simpl. destruct (decide (y = C)) as [->|Hne].
  - rewrite !filter_cons_True by done. simpl. by rewrite IH.
  - rewrite !filter_cons_False by done. done.
Qed.

Lemma send_to_message l m : Forall (λ s : send, s.2 = m) (send_to l m).
Proof. unfold send_to. apply Forall_forall. intros s (c & -> & _)%list_elem_of_fmap. done. Qed.

(** *** connect *)

Lemma append_under_lookup k ws by_user k' :
  append_under k ws by_user !! k' =
    if decide (k = k') then Some (default [] (by_user !! k) ++ [ws]) else by_user !! k'.
Proof.
  unfold append_under. destruct (by_user !! k) as [l|] eqn:Hk; simpl.
  - rewrite lookup_insert. case_decide; [by rewrite Hk|done].
  - rewrite lookup_insert. case_decide; [by rewrite lookup_insert_eq|].
    by rewrite lookup_insert_ne.
Qed.

Lemma connect_lookup conns ws U order_id V :
  connect conns ws U order_id !! V =
    if decide (U = V)
    then Some (append_under (connect_key order_id) ws (default ∅ (conns !! U)))
    else conns !! V.
Proof.
  unfold connect, connect_key.
  destruct (conns !! U) as [by_user|] eqn:HU; simpl;
    destruct (truthy order_id); rewrite ?lookup_insert_eq; simpl;
    rewrite lookup_insert; case_decide; rewrite ?HU; try done;
    by rewrite lookup_insert_ne.
Qed.

Lemma connect_no_empty conns ws U order_id :
  no_empty_entries conns → no_empty_entries (connect conns ws U order_id).
Proof.
  intros Hinv V by_user. rewrite connect_lookup. case_decide as HV.
  - intros [= <-]. split.
    + intros Hemp.
      assert (append_under (connect_key order_id) ws (default ∅ (conns !! U))
                !! connect_key order_id = None) as H by (by rewrite Hemp).
      rewrite append_under_lookup in H. by case_decide.
    + intros k l. rewrite append_under_lookup. case_decide.
      * intros [= <-]. by destruct (default [] _).
      * destruct (conns !! U) as [bu|] eqn:HU; simpl; [|by rewrite lookup_empty].
        intros Hk. by apply (proj2 (Hinv U bu HU) k l).
  - apply Hinv.
Qed.

(** *** disconnect *)

Lemma disconnect_unknown_user conns ws U order_id :
  conns !! U = None → disconnect conns ws U order_id = inr conns.
Proof. unfold disconnect. by intros ->. Qed.

Lemma disconnect_known_user conns ws U order_id by_user :
  conns !! U = Some by_user →
  disconnect conns ws U order_id =
    match selected_key by_user order_id with
    | None => inr (pruned_registry U by_user conns)
    | Some k =>
        match list_remove ws (default [] (by_user !! k)) with
        | None => inl ValueError
        | Some l' => inr (pruned_registry U (pruned_scopes k l' by_user) conns)
        end
    end.
Proof.
  intros HU. unfold disconnect, selected_key, remove_under, pruned_registry, pruned_scopes.
  rewrite HU.
  destruct (truthy order_id && bool_decide (is_Some (by_user !! default EmptyString order_id))).
  - destruct (list_remove ws _) as [[|]|]; try reflexivity; by case_bool_decide.
  - destruct (bool_decide (is_Some (by_user !! "all"))); [|by case_bool_decide].
    destruct (list_remove ws _) as [[|]|]; try reflexivity; by case_bool_decide.
Qed.

Lemma selected_key_is_Some by_user order_id k :
  selected_key by_user order_id = Some k → is_Some (by_user !! k).
Proof.
  unfold selected_key.
  destruct (truthy order_id && _) eqn:H1.
  - intros [= <-]. apply andb_true_iff in H1 as [_ H1].
    exact (proj1 (bool_decide_eq_true _) H1).
  - clear H1. case_bool_decide as H2; [|done]. intros [= <-]. exact H2.
Qed.

Lemma pruned_scopes_lookup k l' by_user k' :
  pruned_scopes k l' by_user !! k' =
    if decide (k = k') then (match l' with [] => None | _ => Some l' end)
    else by_user !! k'.
Proof.
  unfold pruned_scopes. destruct l'.
  - rewrite lookup_delete. by case_decide.
  - rewrite lookup_insert. by case_decide.
Qed.

Lemma pruned_registry_lookup U by_user' conns V :
  pruned_registry U by_user' conns !! V =
    if decide (U = V) then (if bool_decide (by_user' = ∅) then None else Some by_user')
    else conns !! V.
Proof.
  unfold pruned_registry. case_bool_decide.
  - rewrite lookup_delete. by case_decide.
  - rewrite lookup_insert. by case_decide.
Qed.

Lemma pruned_no_empty conns U by_user k l l' :
  no_empty_entries conns → conns !! U = Some by_user →
  (∀ k0 l0, by_user !! k0 = Some l0 → l0 ≠ []) →
  no_empty_entries (pruned_registry U (pruned_scopes k l' by_user) conns).
Proof.
  intros Hinv HU Hl V bu. rewrite pruned_registry_lookup. case_decide as HV.
  - case_bool_decide as Hemp; [done|]. intros [= <-]. split; [done|].
    intros k0 l0. rewrite pruned_scopes_lookup. case_decide.
    + destruct l'; [done|]. by intros [= <-].
    + apply Hl.
  - apply Hinv.
Qed.

Lemma disconnect_no_empty conns ws U order_id conns' :
  no_empty_entries conns →
  disconnect conns ws U order_id = inr conns' →
  no_empty_entries conns'.
Proof.
  intros Hinv. destruct (conns !! U) as [by_user|] eqn:HU.
  - rewrite (disconnect_known_user _ _ _ _ _ HU).
    destruct (Hinv U by_user HU) as [Hne Hl].
    destruct (selected_key by_user order_id) as [k|].
    + destruct (list_remove ws _) as [l'|]; [|done]. intros [= <-].
      by eapply (pruned_no_empty _ _ _ _ []).
    + intros [= <-]. unfold pruned_registry. rewrite bool_decide_eq_false_2 by done.
      by rewrite insert_id.
  - rewrite disconnect_unknown_user by done. by intros [= <-].
Qed.

Lemma init_no_empty : no_empty_entries ConnectionManager.init.
Proof. intros U by_user. unfold ConnectionManager.init. by rewrite lookup_empty. Qed.

End Registry.

Section Notify.

Implicit Types (conns : registry) (by_user : scopes) (l : list WebSocket).
Implicit Types (C ws : WebSocket) (U V O k : string) (E m : message).

Lemma send_order_update_eq conns U O m :
  send_order_update conns U O m =
    send_to (registered conns U O) m ++ send_to (registered conns U "all") m.
Proof.
  unfold send_order_update, registered, scope_entry.
  destruct (conns !! U) as [by_user|]; simpl; [|done].
  by destruct (by_user !! O), (by_user !! "all").
Qed.

Lemma send_order_update_deliveries conns U O m C :
  deliveries C (send_order_update conns U O m) =
    (occurrences C (registered conns U O)
     + occurrences C (registered conns U "all"))%nat.
Proof. by rewrite send_order_update_eq, deliveries_app, !deliveries_send_to. Qed.

Lemma send_order_update_message conns U O m :
  Forall (λ s : send, s.2 = m) (send_order_update conns U O m).
Proof. rewrite send_order_update_eq. apply Forall_app; split; apply send_to_message. Qed.

Lemma elem_of_send_to C l m : C ∈ l → (C, m) ∈ send_to l m.
Proof. intros H. unfold send_to. apply list_elem_of_fmap. by exists C. Qed.

(** *** broadcast_to_delivery_agents *)

Lemma broadcast_loop_raises U by_user rest m :
  broadcast_loop Depends_get_db ((U, by_user) :: rest) m
  = ([], Some AttributeError).
Proof. reflexivity. Qed.

(** Had a session been passed, the loop would raise nothing and reach the
    "all" sockets of every delivery agent. *)
Lemma broadcast_loop_with_session d (entries : list (string * scopes)) m :
  (broadcast_loop (Session d) entries m).2 = None
  ∧ ∀ U by_user u l C,
      (U, by_user) ∈ entries →
      query_user_by_id d U = Some u → u_role u = DELIVERY_AGENT →
      by_user !! "all" = Some l → C ∈ l →
      (C, m) ∈ (broadcast_loop (Session d) entries m).1.
Proof.
  induction entries as [|[V bv] entries [IH1 IH2]]; cbn [broadcast_loop get_user_by_id].
  - split; [done|]. by intros ????? ?%elem_of_nil.
  - destruct (broadcast_loop (Session d) entries m) as [later e] eqn:Hl.
    simpl in IH1. subst e. split; [done|].
    intros U by_user u l C Hin Hu Hrole Hall HC. cbn [fst].
    apply elem_of_app. apply elem_of_cons in Hin as [[= -> ->]|Hin].
    + left. rewrite Hu, Hrole, Hall.
      rewrite bool_decide_eq_true_2 by done. by apply elem_of_send_to.
    + right. by eapply IH2.
Qed.

Lemma broadcast_to_delivery_agents_raises conns m :
  conns ≠ ∅ → broadcast_to_delivery_agents conns m = ([], Some AttributeError).
Proof.
  intros Hne. unfold broadcast_to_delivery_agents.
  destruct (map_to_list conns) as [|[U by_user] rest] eqn:Hl.
  - by apply map_to_list_empty_iff in Hl.
  - apply broadcast_loop_raises.
Qed.

Lemma broadcast_to_delivery_agents_sends_nothing conns m :
  (broadcast_to_delivery_agents conns m).1 = [].
Proof.
  destruct (decide (conns = ∅)) as [->|Hne].
  - unfold broadcast_to_delivery_agents. by rewrite map_to_list_empty.
  - by rewrite broadcast_to_delivery_agents_raises.
Qed.

End Notify.

Section Pruning.

Implicit Types (conns : registry) (by_user : scopes) (l : list WebSocket).
Implicit Types (C ws : WebSocket) (U V O k : string).

Lemma pruned_scopes_empty k l' by_user :
  pruned_scopes k l' by_user = ∅
  ↔ l' = [] ∧ ∀ k', k' ≠ k → by_user !! k' = None.
Proof.
  split.
  - intros He. split.
    + assert (pruned_scopes k l' by_user !! k = None) as H by (by rewrite He).
      rewrite pruned_scopes_lookup in H. rewrite decide_True in H by done.
      by destruct l'.
    + intros k' Hk.
      assert (pruned_scopes k l' by_user !! k' = None) as H by (by rewrite He).
      rewrite pruned_scopes_lookup in H. by rewrite decide_False in H by done.
  - intros [-> Hk]. apply map_eq. intros k'. rewrite lookup_empty.
    rewrite pruned_scopes_lookup. case_decide; [done|]. apply Hk. congruence.
Qed.

(** [disconnect] when the user has the selected scope and the socket is in
    its list. *)
Lemma disconnect_selected conns C U order_id by_user k l' :
  conns !! U = Some by_user →
  selected_key by_user order_id = Some k →
  list_remove C (default [] (by_user !! k)) = Some l' →
  let conns' := pruned_registry U (pruned_scopes k l' by_user) conns in
  disconnect conns C U order_id = inr conns'
  ∧ scope_entry conns' U k = (match l' with [] => None | _ => Some l' end)
  ∧ (∀ k', k' ≠ k → scope_entry conns' U k' = by_user !! k')
  ∧ (conns' !! U = None ↔ l' = [] ∧ ∀ k', k' ≠ k → by_user !! k' = None)
  ∧ (∀ V, V ≠ U → conns' !! V = conns !! V).
Proof.
  intros HU Hkey Hl' conns'. subst conns'.
  pose proof (pruned_scopes_empty k l' by_user) as Hemp.
  split_and!.
  - by rewrite (disconnect_known_user _ _ _ _ _ HU), Hkey, Hl'.
  - unfold scope_entry. rewrite pruned_registry_lookup, decide_True by done.
    case_bool_decide as He; simpl.
    + apply Hemp in He as [-> _]. done.
    + rewrite pruned_scopes_lookup, decide_True by done. done.
  - intros k' Hk. unfold scope_entry.
    rewrite pruned_registry_lookup, decide_True by done.
    case_bool_decide as He; simpl.
    + apply Hemp in He as [_ He]. symmetry. by apply He.
    + rewrite pruned_scopes_lookup, decide_False by done. done.
  - rewrite pruned_registry_lookup, decide_True by done.
    case_bool_decide as He; [by split; [intros _; apply Hemp|]|].
    split; [done|]. intros H. by apply Hemp in H.
  - intros V HV. by rewrite pruned_registry_lookup, decide_False.
Qed.

Lemma registered_lookup conns U by_user k :
  conns !! U = Some by_user → registered conns U k = default [] (by_user !! k).
Proof. unfold registered, scope_entry. by intros ->. Qed.

End Pruning.

(** C10.  When user U has no entry for order O but has an "all" entry that
    holds socket C, [disconnect(C, U, O)] does not return untouched: it
    takes one occurrence of C out of the "all" list of U, drops the "all"
    entry when the list is left empty, and drops U when no scope is left;
    the other scopes and the other users are as before. *)
Theorem C10_disconnect_absent_order_scope_uses_all (conns : registry)
    (C : WebSocket) (U O : string) (by_user : gmap string (list WebSocket))
    (l : list WebSocket) :
  conns !! U = Some by_user →
  by_user !! O = None →
  by_user !! "all" = Some l →
  C ∈ l →
  ∃ l' conns',
    disconnect conns C U (Some O) = inr conns'
    ∧ list_remove C l = Some l'
    ∧ occurrences C l = S (occurrences C l')
    ∧ scope_entry conns' U "all" = (match l' with [] => None | _ => Some l' end)
    ∧ (∀ k, k ≠ "all" → scope_entry conns' U k = by_user !! k)
    ∧ (conns' !! U = None ↔ l' = [] ∧ ∀ k, k ≠ "all" → by_user !! k = None)
    ∧ (∀ V, V ≠ U → conns' !! V = conns !! V)
    ∧ conns' ≠ conns.
Proof.
  intros HU HO Hall HC.
  destruct (list_remove_is_Some C l HC) as [l' Hl'].
  assert (selected_key by_user (Some O) = Some "all") as Hkey.
  { unfold selected_key. simpl. rewrite HO, Hall.
    rewrite andb_false_r. rewrite bool_decide_eq_true_2 by (by eexists). done. }
  assert (list_remove C (default [] (by_user !! "all")) = Some l') as Hrm
    by (by rewrite Hall).
  destruct (disconnect_selected conns C U (Some O) by_user "all" l' HU Hkey Hrm)
    as (Hd & Hs & Ho & Hu & Hv).
  exists l', (pruned_registry U (pruned_scopes "all" l' by_user) conns).
  split_and!; try done.
  - by apply list_remove_occurrences in Hl' as (_ & ? & _).
  - intros Heq. rewrite Heq in Hs. unfold scope_entry in Hs.
    rewrite HU in Hs. simpl in Hs. rewrite Hall in Hs.
    apply list_remove_occurrences in Hl' as (Hlen & _).
    destruct l'; [done|]. injection Hs as ->. simpl in Hlen. lia.
Qed.

Lemma C10_witness :
  ∃ l' conns',
    disconnect (manager Examples.accepted) 7%nat "a1" (Some "o1") = inr conns'
    ∧ list_remove 7%nat [7%nat] = Some l'
    ∧ occurrences 7%nat [7%nat] = S (occurrences 7%nat l')
    ∧ scope_entry conns' "a1" "all" = (match l' with [] => None | _ => Some l' end)
    ∧ (∀ k, k ≠ "all" → scope_entry conns' "a1" k
                         = ({[ "all" := [7%nat] ]} : gmap string (list nat)) !! k)
    ∧ (conns' !! "a1" = None
       ↔ l' = [] ∧ ∀ k, k ≠ "all" →
           ({[ "all" := [7%nat] ]} : gmap string (list nat)) !! k = None)
    ∧ (∀ V, V ≠ "a1" → conns' !! V = manager Examples.accepted !! V)
    ∧ conns' ≠ manager Examples.accepted.
Proof.
  apply (C10_disconnect_absent_order_scope_uses_all
           (manager Examples.accepted) 7%nat "a1" "o1" {[ "all" := [7%nat] ]} [7%nat]).
  - vm_compute. reflexivity.
  - vm_compute. reflexivity.
  - vm_compute. reflexivity.
  - apply list_elem_of_here.
Defined.

(** ** Handlers: what they leave of the world *)

Ltac munfold :=
  unfold mbind, M_bind, mret, M_ret, raise, get_db, get_manager, commit,
    set_manager, emit; cbn beta iota.

Section Dependencies.

Implicit Types (w : World) (u : UserModel) (tok : string).

Lemma get_current_user_spec tok w :
  get_current_user tok w =
    match query_user_by_username (db w) tok with
    | Some u => (inr u, w)
    | None => (inl (HTTPException 401 Could_not_validate_credentials), w)
    end.
Proof. unfold get_current_user. munfold. by destruct (query_user_by_username _ _). Qed.

Lemma get_current_active_user_spec tok w :
  get_current_active_user tok w =
    match query_user_by_username (db w) tok with
    | Some u => if u_disabled u then (inl (HTTPException 400 Inactive_user), w)
                else (inr u, w)
    | None => (inl (HTTPException 401 Could_not_validate_credentials), w)
    end.
Proof.
  unfold get_current_active_user. unfold mbind at 1, M_bind at 1.
  rewrite get_current_user_spec.
  destruct (query_user_by_username _ _) as [u|]; [|done].
  by destruct (u_disabled u).
Qed.

Lemma get_current_active_user_world tok w :
  (get_current_active_user tok w).2 = w.
Proof.
  rewrite get_current_active_user_spec.
  destruct (query_user_by_username _ _) as [u|]; [|done]. by destruct (u_disabled u).
Qed.

Lemma get_current_active_user_inr tok w u w' :
  get_current_active_user tok w = (inr u, w') →
  w' = w ∧ query_user_by_username (db w) tok = Some u ∧ u_disabled u = false.
Proof.
  rewrite get_current_active_user_spec.
  destruct (query_user_by_username _ _) as [v|]; [|done].
  destruct (u_disabled v) eqn:Hd; [done|]. by intros [= <- <-].
Qed.

Lemma check_role_world r tok w : (check_role r tok w).2 = w.
Proof.
  unfold check_role. unfold mbind at 1, M_bind at 1.
  pose proof (get_current_active_user_world tok w) as H.
  destruct (get_current_active_user tok w) as [[e|u] w']; simpl in H; subst; [done|].
  munfold. by destruct (_ && _).
Qed.

Lemma check_role_inr r tok w u w' :
  check_role r tok w = (inr u, w') →
  w' = w ∧ get_current_active_user tok w = (inr u, w)
  ∧ (u_role u = r ∨ u_role u = ADMIN).
Proof.
  unfold check_role. unfold mbind at 1, M_bind at 1.
  destruct (get_current_active_user tok w) as [[e|v] w1] eqn:Hv; [done|].
  apply get_current_active_user_inr in Hv as H. destruct H as (-> & _ & _).
  munfold. destruct (bool_decide (u_role v ≠ r)) eqn:H1;
    destruct (bool_decide (u_role v ≠ ADMIN)) eqn:H2; simpl; try done;
    intros [= <- <-]; split_and!; try done.
  - right. apply bool_decide_eq_false in H2. by destruct (decide (u_role v = ADMIN)).
  - left. apply bool_decide_eq_false in H1. by destruct (decide (u_role v = r)).
  - left. apply bool_decide_eq_false in H1. by destruct (decide (u_role v = r)).
Qed.

Lemma query_user_has_user d tok u :
  query_user_by_username d tok = Some u → has_user d (u_id u) = true.
Proof.
  unfold query_user_by_username, has_user. intros H.
  apply find_some in H as [Hin _]. apply existsb_exists. exists u.
  split; [done|]. by apply bool_decide_eq_true.
Qed.

End Dependencies.

Section Tables.

Implicit Types (d : DB) (w : World) (o : OrderModel) (p : PaymentModel).

Lemma find_app_Some {A} (f : A → bool) (l1 l2 : list A) x :
  find f l1 = Some x → find f (l1 ++ l2) = Some x.
Proof.
  induction l1 as [|y l1 IH]; simpl; [done|]. destruct (f y); [done|apply IH].
Qed.

Lemma find_app_None {A} (f : A → bool) (l1 l2 : list A) :
  find f l1 = None → find f (l1 ++ l2) = find f l2.
Proof.
  induction l1 as [|y l1 IH]; simpl; [done|]. destruct (f y); [done|apply IH].
Qed.

Lemma find_existsb_false {A} (f : A → bool) (l : list A) :
  existsb f l = false → find f l = None.
Proof.
  induction l as [|y l IH]; simpl; [done|]. destruct (f y); [done|apply IH].
Qed.

Lemma find_replace_same o' order_id (l : list OrderModel) o :
  o_id o' = order_id →
  find (λ v, bool_decide (o_id v = order_id)) l = Some o →
  find (λ v, bool_decide (o_id v = order_id))
    (map (λ v, if bool_decide (o_id v = order_id) then o' else v) l) = Some o'.
Proof.
  intros Hid. induction l as [|y l IH]; simpl; [done|].
  destruct (bool_decide (o_id y = order_id)) eqn:Hy.
  - intros _. by rewrite bool_decide_eq_true_2.
  - rewrite Hy. apply IH.
Qed.

Lemma find_replace_other o' order_id (l : list OrderModel) x :
  o_id o' = order_id → x ≠ order_id →
  find (λ v, bool_decide (o_id v = x))
    (map (λ v, if bool_decide (o_id v = order_id) then o' else v) l)
  = find (λ v, bool_decide (o_id v = x)) l.
Proof.
  intros Hid Hx. induction l as [|y l IH]; simpl; [done|].
  destruct (bool_decide (o_id y = order_id)) eqn:Hy.
  - apply bool_decide_eq_true in Hy.
    rewrite !bool_decide_eq_false_2 by congruence. apply IH.
  - destruct (bool_decide (o_id y = x)); [done|apply IH].
Qed.

Lemma query_order_id d x o : query_order d x = Some o → o_id o = x.
Proof.
  unfold query_order. intros [_ H]%find_some. by apply bool_decide_eq_true in H.
Qed.

Lemma valid_transitions_rank s s' :
  s' ∈ valid_transitions s ↔ rank s' = S (rank s).
Proof.
  destruct s, s'; simpl; split; intros H; try done;
    try (by apply list_elem_of_singleton);
    try (by apply list_elem_of_singleton in H);
    try (by apply elem_of_nil in H).
Qed.

Lemma evolves_refl o : evolves o o.
Proof. unfold evolves. split_and!; done. Qed.

Lemma evolves_trans o1 o2 o3 : evolves o1 o2 → evolves o2 o3 → evolves o1 o3.
Proof.
  unfold evolves. intros (?&?&?&?&?&?&?) (?&?&?&?&?&?&?).
  split_and!; try congruence. lia.
Qed.

Lemma updated_order_evolves o order_update now :
  status order_update ∈ valid_transitions (o_status o) →
  evolves o (updated_order o order_update now).
Proof.
  intros H%valid_transitions_rank. unfold evolves, updated_order; simpl.
  split_and!; try done. lia.
Qed.

(** What a committed change does to the order with a given id. *)
Lemma db_step_order d d' x o :
  db_step d d' → query_order d x = Some o →
  ∃ o', query_order d' x = Some o' ∧ evolves o o'
        ∧ (o' = o ∨ o_status o' ∈ valid_transitions (o_status o)).
Proof.
  intros Hstep Hq. destruct Hstep as [l|l|o1 Hfresh|y order upd now Hy Hv|o1 p].
  - exists o. split_and!; [done|apply evolves_refl|by left].
  - exists o. split_and!; [done|apply evolves_refl|by left].
  - exists o. split_and!; [|apply evolves_refl|by left].
    unfold query_order in *. simpl. by apply find_app_Some.
  - destruct (decide (x = y)) as [->|Hne].
    + rewrite Hy in Hq. injection Hq as ->.
      exists (updated_order o upd now). split_and!.
      * unfold query_order in *. simpl. eapply find_replace_same; [|done].
        simpl. by eapply query_order_id.
      * by apply updated_order_evolves.
      * by right.
    + exists o. split_and!; [|apply evolves_refl|by left].
      unfold query_order in *. simpl. rewrite find_replace_other; try done.
      simpl. by eapply (query_order_id d).
  - exists o. split_and!; [done|apply evolves_refl|by left].
Qed.

Lemma db_steps_order d d' x o :
  rtc db_step d d' → query_order d x = Some o →
  ∃ o', query_order d' x = Some o' ∧ evolves o o'.
Proof.
  intros Hsteps. revert o. induction Hsteps as [d|d d1 d2 H1 _ IH]; intros o Hq.
  - exists o. split; [done|apply evolves_refl].
  - destruct (db_step_order _ _ _ _ H1 Hq) as (o1 & Hq1 & He1 & _).
    destruct (IH o1 Hq1) as (o2 & Hq2 & He2).
    exists o2. split; [done|]. by eapply evolves_trans.
Qed.

Lemma settles_step d d' p : db_step d d' → settles d p → settles d' p.
Proof.
  intros Hstep (o & Hq & Ha & Hr & Hf).
  destruct (db_step_order _ _ _ _ Hstep Hq) as (o' & Hq' & He & _).
  exists o'. split_and!; try done.
  destruct He as (_&_&_&_&Ht&_). congruence.
Qed.

Lemma db_step_payments_ok d d' : db_step d d' → payments_ok d → payments_ok d'.
Proof.
  intros Hstep [Hnd Hall].
  assert (Forall (settles d') (payments d)) as Hall'.
  { eapply Forall_impl; [exact Hall|]. intros p. by apply settles_step. }
  destruct Hstep as [l|l|o1 Hfresh|y order upd now Hy Hv|o1 p Hq Ha Hr Hf Hfresh];
    try (split; [exact Hnd|exact Hall']).
  split; simpl.
  - rewrite fmap_app. simpl. apply NoDup_app. split_and!; [done| |apply NoDup_singleton].
    intros x Hx ->%list_elem_of_singleton.
    apply list_elem_of_fmap in Hx as (q & Hq1 & Hq2).
    assert (existsb (λ v, bool_decide (p_id v = p_id p)
                          || bool_decide (p_order_id v = p_order_id p))
              (payments d) = true) as Hex; [|congruence].
    apply existsb_exists. exists q. split; [by apply list_elem_of_In|].
    apply orb_true_iff. right. by apply bool_decide_eq_true.
  - apply Forall_app. split; [done|]. apply Forall_singleton.
    exists o1. split_and!; done.
Qed.

Lemma db_steps_payments_ok d d' : rtc db_step d d' → payments_ok d → payments_ok d'.
Proof. induction 1; [done|]. intros. eauto using db_step_payments_ok. Qed.

End Tables.

Section Handlers.

Implicit Types (d : DB) (w : World) (o : OrderModel) (p : PaymentModel).
Implicit Types (tok : string).

Lemma add_user_spec u w :
  add_user u w =
    if existsb (λ v, bool_decide (u_id v = u_id u)
                     || bool_decide (u_username v = u_username u)
                     || bool_decide (u_email v = u_email u)) (users (db w))
    then (inl IntegrityError, w)
    else (inr tt, {| db := with_users (db w) (users (db w) ++ [u]);
                     manager := manager w; sent := sent w |}).
Proof. unfold add_user. munfold. by destruct (existsb _ _). Qed.

Lemma add_menu_item_spec m w :
  add_menu_item m w =
    if existsb (λ v, bool_decide (mi_id v = mi_id m)) (menu_items (db w))
       || negb (has_user (db w) (mi_restaurant_id m))
    then (inl IntegrityError, w)
    else (inr tt, {| db := with_menu_items (db w) (menu_items (db w) ++ [m]);
                     manager := manager w; sent := sent w |}).
Proof. unfold add_menu_item. munfold. by destruct (_ || _). Qed.

Lemma add_order_spec o w :
  add_order o w =
    if existsb (λ v, bool_decide (o_id v = o_id o)) (orders (db w))
       || negb (has_user (db w) (o_customer_id o))
       || negb (has_user (db w) (o_restaurant_id o))
       || negb (fk_user_or_null (db w) (o_delivery_agent_id o))
    then (inl IntegrityError, w)
    else (inr tt, {| db := with_orders (db w) (orders (db w) ++ [o]);
                     manager := manager w; sent := sent w |}).
Proof. unfold add_order. munfold. by destruct (_ || _). Qed.

Lemma add_payment_spec p w :
  add_payment p w =
    if existsb (λ v, bool_decide (p_id v = p_id p)
                     || bool_decide (p_order_id v = p_order_id p)) (payments (db w))
       || negb (existsb (λ o, bool_decide (o_id o = p_order_id p)) (orders (db w)))
    then (inl IntegrityError, w)
    else (inr tt, {| db := with_payments (db w) (payments (db w) ++ [p]);
                     manager := manager w; sent := sent w |}).
Proof. unfold add_payment. munfold. by destruct (_ || _). Qed.

(** The payment row that [process_payment] builds. *)
Lemma process_payment_spec order_id total_amount payment_id w :
  let payment :=
    {| p_id := payment_id; p_order_id := order_id; p_amount := total_amount;
       p_restaurant_share := PrimFloat.mul total_amount restaurant_rate;
       p_delivery_fee := PrimFloat.mul total_amount delivery_rate;
       p_status := "completed"; p_created_at := import_time (db w) |} in
  process_payment order_id total_amount payment_id w =
    if existsb (λ v, bool_decide (p_id v = payment_id)
                     || bool_decide (p_order_id v = order_id)) (payments (db w))
       || negb (existsb (λ o, bool_decide (o_id o = order_id)) (orders (db w)))
    then (inl IntegrityError, w)
    else (inr payment,
          {| db := with_payments (db w) (payments (db w) ++ [payment]);
             manager := manager w; sent := sent w |}).
Proof.
  intros payment. unfold process_payment.
  unfold mbind at 1, M_bind at 1, get_db at 1. cbn beta iota.
  unfold mbind, M_bind. rewrite add_payment_spec. simpl.
  by destruct (_ || _).
Qed.

Lemma process_payment_steps order_id o payment_id w :
  query_order (db w) order_id = Some o →
  let r := process_payment order_id (o_total_amount o) payment_id w in
  manager r.2 = manager w ∧ sent r.2 = sent w
  ∧ (db r.2 = db w ∨ db_step (db w) (db r.2)).
Proof.
  intros Hq r. subst r. rewrite process_payment_spec.
  destruct (_ || _) eqn:Hc; simpl; [by split_and!; [..|left]|].
  split_and!; try done. right. apply orb_false_iff in Hc as [Hc _].
  by apply (Step_payment _ o
    {| p_id := payment_id; p_order_id := order_id; p_amount := o_total_amount o;
       p_restaurant_share := PrimFloat.mul (o_total_amount o) restaurant_rate;
       p_delivery_fee := PrimFloat.mul (o_total_amount o) delivery_rate;
       p_status := "completed"; p_created_at := import_time (db w) |}).
Qed.

Lemma validate_items_world d x l w : (validate_items d x l w).2 = w.
Proof.
  induction l as [|item l IH]; simpl; [done|].
  destruct (query_menu_item d (item_id item)) as [m|]; [|done].
  by destruct (bool_decide _).
Qed.

Lemma validate_items_inr d x l w u w' :
  validate_items d x l w = (inr u, w') →
  Forall (λ item, is_Some (query_menu_item d (item_id item))) l.
Proof.
  induction l as [|item l IH]; simpl; [by constructor|].
  destruct (query_menu_item d (item_id item)) as [m|] eqn:Hm; [|done].
  destruct (bool_decide _); [done|]. intros H. constructor; [by rewrite Hm|by apply IH].
Qed.

End Handlers.

Section Effects.

Implicit Types (d : DB) (w : World) (o : OrderModel) (p : PaymentModel).
Implicit Types (tok : string).

Lemma db_only_refl w : db_only w w.
Proof. split; [done|apply rtc_refl]. Qed.

Lemma db_only_users w l m s :
  m = manager w →
  db_only w {| db := with_users (db w) l; manager := m; sent := s |}.
Proof. intros ->. split; [done|]. apply rtc_once. constructor. Qed.

Lemma db_only_menu_items w l m s :
  m = manager w →
  db_only w {| db := with_menu_items (db w) l; manager := m; sent := s |}.
Proof. intros ->. split; [done|]. apply rtc_once. constructor. Qed.

Lemma startup_event_effect a h w : db_only w (startup_event a h w).2.
Proof.
  unfold startup_event. munfold.
  destruct (query_user_by_username _ _); [apply db_only_refl|].
  rewrite add_user_spec. destruct (existsb _ _); simpl;
    [apply db_only_refl|by apply db_only_users].
Qed.

Lemma register_user_effect u i h w : db_only w (register_user u i h w).2.
Proof.
  unfold register_user. munfold.
  destruct (query_user_by_username _ _); [apply db_only_refl|].
  rewrite add_user_spec. destruct (existsb _ _); simpl;
    [apply db_only_refl|by apply db_only_users].
Qed.

Lemma create_menu_item_effect tok m i w : db_only w (create_menu_item tok m i w).2.
Proof.
  unfold create_menu_item. unfold mbind at 1, M_bind at 1.
  pose proof (check_role_world RESTAURANT tok w) as Hw.
  destruct (check_role RESTAURANT tok w) as [[e|u] w1]; simpl in Hw; subst w1;
    [apply db_only_refl|].
  munfold. rewrite add_menu_item_spec. destruct (_ || _); simpl;
    [apply db_only_refl|by apply db_only_menu_items].
Qed.

Lemma update_menu_item_effect tok i m w : db_only w (update_menu_item tok i m w).2.
Proof.
  unfold update_menu_item. unfold mbind at 1, M_bind at 1.
  pose proof (check_role_world RESTAURANT tok w) as Hw.
  destruct (check_role RESTAURANT tok w) as [[e|u] w1]; simpl in Hw; subst w1;
    [apply db_only_refl|].
  munfold. destruct (query_menu_item _ _); [|apply db_only_refl].
  destruct (_ && _); simpl; [apply db_only_refl|by apply db_only_menu_items].
Qed.

Lemma delete_menu_item_effect tok i w : db_only w (delete_menu_item tok i w).2.
Proof.
  unfold delete_menu_item. unfold mbind at 1, M_bind at 1.
  pose proof (check_role_world RESTAURANT tok w) as Hw.
  destruct (check_role RESTAURANT tok w) as [[e|u] w1]; simpl in Hw; subst w1;
    [apply db_only_refl|].
  munfold. destruct (query_menu_item _ _); [|apply db_only_refl].
  destruct (_ && _); simpl; [apply db_only_refl|by apply db_only_menu_items].
Qed.

End Effects.

Section Orders.

Implicit Types (d : DB) (w : World) (o : OrderModel) (p : PaymentModel).
Implicit Types (tok : string) (u : UserModel).

Lemma authorize_status u o order_update :
  status (authorize u o order_update).2 = status order_update.
Proof.
  unfold authorize. repeat (case_match; simpl; try done).
Qed.

Lemma update_order_status_eq tok order_id order_update now w u o :
  get_current_active_user tok w = (inr u, w) →
  query_order (db w) order_id = Some o →
  update_order_status tok order_id order_update now w =
    let '(authorized, order_update') := authorize u o order_update in
    if negb authorized
    then (inl (HTTPException 403 Not_authorized_to_update_this_order_status), w)
    else if bool_decide (status order_update ∉ valid_transitions (o_status o))
    then (inl (HTTPException 400
                 (Invalid_status_transition (o_status o) (status order_update))), w)
    else if negb (truthy (delivery_agent_id order_update'))
            || fk_user_or_null (db w) (delivery_agent_id order_update')
    then
      let order := updated_order o order_update' now in
      let '(sends, e) := notifications (manager w) order in
      (match e with Some e => inl e | None => inr order end,
       {| db := with_orders (db w)
                  (map (λ v, if bool_decide (o_id v = order_id) then order else v)
                       (orders (db w)));
          manager := manager w;
          sent := sent w ++ sends |})
    else (inl IntegrityError, w).
Proof.
  intros Hu Hq. unfold update_order_status.
  unfold mbind at 1, M_bind at 1. rewrite Hu.
  unfold mbind at 1, M_bind at 1, get_db at 1. cbn beta iota. rewrite Hq.
  pose proof (authorize_status u o order_update) as Hs.
  destruct (authorize u o order_update) as [authorized upd'] eqn:Ha.
  cbn [snd] in Hs. cbn beta iota. rewrite Hs.
  destruct authorized; cbn [negb]; cbn beta iota; [|reflexivity].
  destruct (bool_decide (status order_update ∉ valid_transitions (o_status o)));
    [reflexivity|].
  destruct (negb (truthy (delivery_agent_id upd'))
            || fk_user_or_null (db w) (delivery_agent_id upd')); [|reflexivity].
  generalize (updated_order o upd' now). intros order.
  unfold notifications. munfold. cbn beta iota zeta. cbn [db manager sent].
  destruct (truthy (o_delivery_agent_id order)); cbn [negb andb].
  - rewrite andb_false_r. cbn beta iota. cbn [db manager sent].
    by rewrite <- !app_assoc.
  - rewrite andb_true_r. destruct (bool_decide (o_status order = ASSIGNED));
      cbn beta iota; cbn [db manager sent].
    + destruct (broadcast_to_delivery_agents _ _) as [sends [e|]];
        cbn beta iota; cbn [db manager sent];
        by rewrite <- !app_assoc, ?app_nil_r.
    + by rewrite <- !app_assoc, ?app_nil_r.
Qed.

End Orders.

Section Creation.

Implicit Types (d : DB) (w : World) (o : OrderModel) (p : PaymentModel).
Implicit Types (tok : string) (u : UserModel).

(** [create_order] either raises before anything is committed, or commits
    the new row and then raises in the settlement, or commits the row and
    its payment and returns. *)
Lemma create_order_cases tok order order_id payment_id now w :
  let r := create_order tok order order_id payment_id now w in
  (∃ e, r = (inl e, w))
  ∨ ∃ u total_amount w1,
      check_role CUSTOMER tok w = (inr u, w)
      ∧ Forall (λ item, is_Some (query_menu_item (db w) (item_id item))) (items order)
      ∧ calculate_order_total (db w) (items order) = inr total_amount
      ∧ existsb (λ v, bool_decide (o_id v = order_id)) (orders (db w)) = false
      ∧ w1 = {| db := with_orders (db w)
                        (orders (db w) ++ [new_order u order order_id total_amount now]);
                manager := manager w; sent := sent w |}
      ∧ (r = (inl IntegrityError, w1)
         ∨ ∃ p sends,
             process_payment order_id total_amount payment_id w1
               = (inr p, {| db := with_payments (db w1) (payments (db w1) ++ [p]);
                            manager := manager w; sent := sent w |})
             ∧ r = (inr (new_order u order order_id total_amount now),
                    {| db := with_payments (db w1) (payments (db w1) ++ [p]);
                       manager := manager w; sent := sent w ++ sends |})).
Proof.
  intros r. assert (r = create_order tok order order_id payment_id now w) as Hr
    by reflexivity.
  clearbody r. unfold create_order in Hr.
  unfold mbind at 1, M_bind at 1 in Hr.
  destruct (check_role CUSTOMER tok w) as [[e|u] w0] eqn:Hu.
  { left. exists e. rewrite Hr. f_equal.
    pose proof (check_role_world CUSTOMER tok w) as H. by rewrite Hu in H. }
  apply check_role_inr in Hu as H. destruct H as (-> & _ & _).
  unfold mbind at 1, M_bind at 1, get_db at 1 in Hr. cbn beta iota in Hr.
  destruct (find _ (users (db w))) as [restaurant|]; [|left; by eexists].
  unfold mbind at 1, M_bind at 1 in Hr.
  pose proof (validate_items_world (db w) (restaurant_id order) (items order) w) as Hw.
  destruct (validate_items _ _ _ w) as [[e|[]] w0] eqn:Hv; simpl in Hw; subst w0;
    [left; by eexists|].
  apply validate_items_inr in Hv.
  destruct (calculate_order_total _ _) as [e|total_amount] eqn:Ht; [left; by eexists|].
  fold (new_order u order order_id total_amount now) in Hr.
  unfold mbind at 1, M_bind at 1 in Hr. rewrite add_order_spec in Hr.
  destruct (existsb _ (orders (db w)) || _ || _ || _) eqn:Hc; [left; by eexists|].
  right. exists u, total_amount. eexists. split_and!; try done.
  { by repeat (apply orb_false_iff in Hc as [Hc _]). }
  set (w1 := {| db := _; manager := _; sent := _ |}) in *.
  unfold mbind at 1, M_bind at 1 in Hr.
  rewrite process_payment_spec in *.
  destruct (existsb _ (payments (db w1)) || _); [by left|]. right.
  eexists _, _. split; [reflexivity|]. rewrite Hr. munfold. reflexivity.
Qed.

Lemma create_order_effect tok order order_id payment_id now w :
  db_only w (create_order tok order order_id payment_id now w).2.
Proof.
  destruct (create_order_cases tok order order_id payment_id now w)
    as [[e ->]|(u & total & w1 & Hu & _ & _ & Hfresh & -> & H)];
    [apply db_only_refl|].
  assert (db_step (db w)
            (with_orders (db w)
               (orders (db w) ++ [new_order u order order_id total now]))) as Hs1
    by (by apply Step_order_placed).
  destruct H as [->|(p & sends & Hp & ->)]; simpl.
  - split; [done|]. by apply rtc_once.
  - split; [done|]. eapply rtc_l; [exact Hs1|]. apply rtc_once.
    set (w1 := {| db := with_orders _ _; manager := _; sent := _ |}) in *.
    assert (query_order (db w1) order_id
            = Some (new_order u order order_id total now)) as Hq.
    { unfold query_order. simpl. rewrite find_app_None by by apply find_existsb_false.
      simpl. by rewrite bool_decide_eq_true_2. }
    pose proof (process_payment_steps order_id _ payment_id w1 Hq) as (_ & _ & H).
    simpl in H. rewrite Hp in H. simpl in H. destruct H as [H|H]; [|exact H].
    exfalso. apply (f_equal payments) in H. simpl in H.
    apply (f_equal length) in H. rewrite length_app in H. simpl in H. lia.
Qed.

Lemma create_payment_effect tok order_id payment_id w :
  db_only w (create_payment tok order_id payment_id w).2.
Proof.
  unfold create_payment. unfold mbind at 1, M_bind at 1.
  pose proof (check_role_world CUSTOMER tok w) as Hw.
  destruct (check_role CUSTOMER tok w) as [[e|u] w1]; simpl in Hw; subst w1;
    [apply db_only_refl|].
  unfold mbind at 1, M_bind at 1, get_db at 1. cbn beta iota.
  destruct (query_order (db w) order_id) as [o|] eqn:Hq; [|apply db_only_refl].
  destruct (bool_decide _); [apply db_only_refl|].
  destruct (query_payment_by_order _ _); [apply db_only_refl|].
  destruct (process_payment_steps order_id o payment_id w Hq) as (Hm & _ & [H|H]).
  - split; [done|]. rewrite H. apply rtc_refl.
  - split; [done|]. by apply rtc_once.
Qed.

Lemma update_order_status_effect tok order_id order_update now w :
  db_only w (update_order_status tok order_id order_update now w).2.
Proof.
  destruct (get_current_active_user tok w) as [[e|u] w0] eqn:Hu.
  { unfold update_order_status. unfold mbind at 1, M_bind at 1. rewrite Hu.
    pose proof (get_current_active_user_world tok w) as H. rewrite Hu in H.
    simpl in H. subst. apply db_only_refl. }
  apply get_current_active_user_inr in Hu as H. destruct H as (-> & _ & _).
  destruct (query_order (db w) order_id) as [o|] eqn:Hq.
  - rewrite (update_order_status_eq _ _ _ _ _ _ _ Hu Hq).
    pose proof (authorize_status u o order_update) as Hs.
    destruct (authorize u o order_update) as [[] upd']; simpl in Hs; simpl;
      [|apply db_only_refl].
    case_bool_decide as Hv; [apply db_only_refl|].
    destruct (_ || _); [|apply db_only_refl].
    destruct (notifications _ _) as [sends e]. simpl. split; [done|].
    apply rtc_once. apply Step_order_updated; [done|].
    rewrite Hs. by destruct (decide (status order_update ∈ valid_transitions (o_status o))).
  - unfold update_order_status. unfold mbind at 1, M_bind at 1. rewrite Hu.
    unfold mbind at 1, M_bind at 1, get_db at 1. cbn beta iota. rewrite Hq.
    apply db_only_refl.
Qed.

End Creation.

Section Runs.

Implicit Types (d : DB) (w : World) (o : OrderModel) (p : PaymentModel).
Implicit Types (tok : string) (u : UserModel) (rs : list request).

Lemma websocket_connected_effect s U order_id w :
  db (websocket_connected s U order_id w).2 = db w
  ∧ manager (websocket_connected s U order_id w).2 = connect (manager w) s U order_id.
Proof. done. Qed.

Lemma websocket_disconnected_effect s U order_id w :
  db (websocket_disconnected s U order_id w).2 = db w
  ∧ manager (websocket_disconnected s U order_id w).2 =
      match disconnect (manager w) s U order_id with
      | inl _ => manager w
      | inr conns' => conns'
      end.
Proof.
  unfold websocket_disconnected. munfold. by destruct (disconnect _ _ _ _).
Qed.

Lemma handle_db_steps r w : rtc db_step (db w) (db (handle r w)).
Proof.
  destruct r; cbn [handle].
  - apply startup_event_effect.
  - apply register_user_effect.
  - apply create_menu_item_effect.
  - apply update_menu_item_effect.
  - apply delete_menu_item_effect.
  - apply create_order_effect.
  - apply update_order_status_effect.
  - apply create_payment_effect.
  - rewrite (proj1 (websocket_connected_effect _ _ _ _)). apply rtc_refl.
  - rewrite (proj1 (websocket_disconnected_effect _ _ _ _)). apply rtc_refl.
Qed.

Lemma handle_no_empty r w :
  no_empty_entries (manager w) → no_empty_entries (manager (handle r w)).
Proof.
  intros Hinv. destruct r; cbn [handle].
  - by rewrite (proj1 (startup_event_effect _ _ _)).
  - by rewrite (proj1 (register_user_effect _ _ _ _)).
  - by rewrite (proj1 (create_menu_item_effect _ _ _ _)).
  - by rewrite (proj1 (update_menu_item_effect _ _ _ _)).
  - by rewrite (proj1 (delete_menu_item_effect _ _ _)).
  - by rewrite (proj1 (create_order_effect _ _ _ _ _ _)).
  - by rewrite (proj1 (update_order_status_effect _ _ _ _ _)).
  - by rewrite (proj1 (create_payment_effect _ _ _ _)).
  - rewrite (proj2 (websocket_connected_effect _ _ _ _)). by apply connect_no_empty.
  - rewrite (proj2 (websocket_disconnected_effect _ _ _ _)).
    destruct (disconnect _ _ _ _) eqn:Hd; [done|]. by eapply disconnect_no_empty.
Qed.

Lemma run_db_steps w rs : rtc db_step (db w) (db (run w rs)).
Proof.
  revert w. induction rs as [|r rs IH]; intros w; simpl; [apply rtc_refl|].
  etrans; [apply handle_db_steps|apply IH].
Qed.

Lemma run_no_empty w rs :
  no_empty_entries (manager w) → no_empty_entries (manager (run w rs)).
Proof.
  revert w. induction rs as [|r rs IH]; intros w Hinv; simpl; [done|].
  apply IH. by apply handle_no_empty.
Qed.

Lemma boot_payments_ok t : payments_ok (db (boot t)).
Proof. split; simpl; constructor. Qed.

Lemma run_payments_ok t rs : payments_ok (db (run (boot t) rs)).
Proof. eapply db_steps_payments_ok; [apply run_db_steps|apply boot_payments_ok]. Qed.

Lemma run_order w rs x o :
  query_order (db w) x = Some o →
  ∃ o', query_order (db (run w rs)) x = Some o' ∧ evolves o o'.
Proof. apply db_steps_order, run_db_steps. Qed.

(** *** The order total *)

Lemma line_amounts_cons d item (l : list OrderItemDict) :
  line_amounts d (item :: l) =
    match line_amount d item with
    | Some a => match line_amounts d l with
                | Some r => Some (a :: r)
                | None => None
                end
    | None => None
    end.
Proof. reflexivity. Qed.

Lemma line_amount_found d item m q :
  query_menu_item d (item_id item) = Some m →
  float_of_int (quantity item) = inr q →
  line_amount d item = Some (PrimFloat.mul (mi_price m) q).
Proof. unfold line_amount. by intros -> ->. Qed.

Lemma calculate_order_total_from_sum d (l : list OrderItemDict) acc total :
  Forall (λ item, is_Some (query_menu_item d (item_id item))) l →
  calculate_order_total_from d acc l = inr total →
  ∃ amounts, line_amounts d l = Some amounts
             ∧ total = fold_left PrimFloat.add amounts acc.
Proof.
  revert acc. induction l as [|item l IH]; intros acc Hall;
    cbn [calculate_order_total_from].
  - intros [= <-]. by exists [].
  - apply Forall_cons in Hall as [[m Hm] Hall]. rewrite Hm.
    destruct (float_of_int (quantity item)) as [e|q] eqn:Hq; [done|].
    intros (amounts & Ha & ->)%IH; [|done].
    exists (PrimFloat.mul (mi_price m) q :: amounts). split; [|done].
    by rewrite line_amounts_cons, (line_amount_found _ _ _ _ Hm Hq), Ha.
Qed.

End Runs.

(** ** Order lifecycle *)

(** C1 (as amended).  The statuses form the chain placed, accepted,
    assigned_to_delivery, picked_up, delivered, and delivered has no way
    out.  A status update asked by an authenticated user for an existing
    order whose target is not the next status on the chain (the same status
    and any earlier one included) is refused and changes nothing: with
    400 and the pair of statuses when the authorization check lets the
    requester ask for that target, with 403 when it does not.  After any
    status update the stored order is as it was or has moved to the
    requested status one step along the chain, and over any run of requests
    its status never goes back. *)
Theorem C1_status_moves_along_the_chain (w : World) (tok order_id : string)
    (order_update : OrderUpdate) (now : Z) (u : UserModel) (o : OrderModel) :
  get_current_active_user tok w = (inr u, w) →
  query_order (db w) order_id = Some o →
  let r := update_order_status tok order_id order_update now w in
  (∀ s s', s' ∈ valid_transitions s ↔ rank s' = S (rank s))
  ∧ valid_transitions DELIVERED = []
  ∧ (status order_update ∉ valid_transitions (o_status o) →
       r = (inl (if (authorize u o order_update).1
                 then HTTPException 400
                        (Invalid_status_transition (o_status o) (status order_update))
                 else HTTPException 403 Not_authorized_to_update_this_order_status),
            w))
  ∧ (∃ o', query_order (db r.2) order_id = Some o'
           ∧ (o' = o ∨ (o_status o' = status order_update
                        ∧ status order_update ∈ valid_transitions (o_status o))))
  ∧ (∀ o', r.1 = inr o' →
       o_status o' = status order_update
       ∧ status order_update ∈ valid_transitions (o_status o))
  ∧ (∀ rs, ∃ o', query_order (db (run w rs)) order_id = Some o'
                 ∧ (rank (o_status o) ≤ rank (o_status o'))%nat).
Proof.
  intros Hu Hq r. subst r.
  rewrite (update_order_status_eq _ _ _ _ _ _ _ Hu Hq).
  pose proof (authorize_status u o order_update) as Hs.
  destruct (authorize u o order_update) as [authorized upd']. simpl in Hs.
  split_and!.
  - apply valid_transitions_rank.
  - done.
  - intros Hv. destruct authorized; simpl; [|done].
    by rewrite bool_decide_eq_true_2.
  - destruct authorized; simpl; [|by exists o; split; [|left]].
    case_bool_decide as Hv; [by exists o; split; [|left]|].
    destruct (_ || _); [|by exists o; split; [|left]].
    destruct (notifications _ _) as [sends e]. simpl.
    exists (updated_order o upd' now). split.
    + unfold query_order in *. simpl. eapply find_replace_same; [|done].
      simpl. by eapply query_order_id.
    + right. simpl. split; [done|].
      by destruct (decide (status order_update ∈ valid_transitions (o_status o))).
  - intros o'. destruct authorized; simpl; [|done].
    case_bool_decide as Hv; [done|].
    destruct (_ || _); [|done].
    destruct (notifications _ _) as [sends [e|]]; simpl; [done|].
    intros [= <-]. simpl. split; [done|].
    by destruct (decide (status order_update ∈ valid_transitions (o_status o))).
  - intros rs. destruct (run_order w rs order_id o Hq) as (o' & Hq' & He).
    exists o'. split; [done|]. by destruct He as (_&_&_&_&_&_&?).
Qed.

Lemma C1_witness :
  update_order_status "R" "o1" (Examples.to_status PLACED) 102 Examples.accepted
  = (inl (HTTPException 403 Not_authorized_to_update_this_order_status),
     Examples.accepted).
Proof.
  refine (proj1 (proj2 (proj2
    (C1_status_moves_along_the_chain Examples.accepted "R" "o1"
       (Examples.to_status PLACED) 102
       {| u_id := "r1"; u_username := "R"; u_email := "R"; u_role := RESTAURANT;
          u_hashed_password := "h1"; u_disabled := false |}
       {| o_id := "o1"; o_customer_id := "c1"; o_restaurant_id := "r1";
          o_delivery_agent_id := None;
          o_items := [ {| item_id := "m1"; quantity := 2 |} ];
          o_total_amount := 20%float; o_status := ACCEPTED;
          o_created_at := 100; o_updated_at := 101 |} _ _))) _).
  - vm_compute. reflexivity.
  - vm_compute. reflexivity.
  - simpl. intros H. apply list_elem_of_singleton in H. discriminate H.
Defined.

(** C1, as stated, fails: restaurant R asks to move its accepted order
    straight to picked_up, which is not on the chain from accepted; the
    request is refused by the authorization check with 403 and not with the
    error of the invalid transition. *)
Lemma C1_counterexample :
  (o_status <$> query_order (db Examples.accepted) "o1") = Some ACCEPTED
  ∧ (PICKED_UP ∉ valid_transitions ACCEPTED)
  ∧ update_order_status "R" "o1" (Examples.to_status PICKED_UP) 102 Examples.accepted
    = (inl (HTTPException 403 Not_authorized_to_update_this_order_status),
       Examples.accepted)
  ∧ (update_order_status "R" "o1" (Examples.to_status PICKED_UP) 102
       Examples.accepted).1
    ≠ inl (HTTPException 400 (Invalid_status_transition ACCEPTED PICKED_UP)).
Proof.
  split_and!.
  - vm_compute. reflexivity.
  - simpl. intros H. apply list_elem_of_singleton in H. discriminate H.
  - vm_compute. reflexivity.
  - vm_compute. intros H. discriminate H.
Qed.


Lemma authorize_delivery_agent (u : UserModel) (o : OrderModel)
    (order_update : OrderUpdate) :
  u_role u = DELIVERY_AGENT →
  (authorize u o order_update).1 =
    (bool_decide (o_delivery_agent_id o = Some (u_id u))
     || bool_decide (o_status o = ASSIGNED))
    && bool_decide (status order_update ∈ [PICKED_UP; DELIVERED]).
Proof.
  intros Hrole. unfold authorize. rewrite Hrole. simpl.
  destruct (bool_decide (o_delivery_agent_id o = Some (u_id u)) || _); simpl; [|done].
  destruct (bool_decide (status order_update ∈ _)); [|done].
  by destruct (_ && _).
Qed.

(** A delivery agent takes an order that waits in assigned_to_delivery
    with no agent attached. *)
Lemma claim_by_agent (w : World) (tok order_id : string)
    (order_update : OrderUpdate) (now : Z) (u : UserModel) (o : OrderModel) :
  get_current_active_user tok w = (inr u, w) →
  query_order (db w) order_id = Some o →
  u_role u = DELIVERY_AGENT →
  status order_update = PICKED_UP →
  o_status o = ASSIGNED →
  truthy (o_delivery_agent_id o) = false →
  u_id u ≠ EmptyString →
  let o' := updated_order o
              {| status := PICKED_UP; delivery_agent_id := Some (u_id u) |} now in
  update_order_status tok order_id order_update now w =
    (inr o',
     {| db := with_orders (db w)
                (map (λ v, if bool_decide (o_id v = order_id) then o' else v)
                     (orders (db w)));
        manager := manager w;
        sent := sent w ++ (notifications (manager w) o').1 |})
  ∧ o_delivery_agent_id o' = Some (u_id u)
  ∧ o_status o' = PICKED_UP.
Proof.
  intros Hu Hq Hrole Hst Hos Hun Hid o'.
  assert (truthy (Some (u_id u)) = true) as Htr.
  { simpl. by destruct (u_id u). }
  assert (authorize u o order_update
          = (true, {| status := PICKED_UP; delivery_agent_id := Some (u_id u) |}))
    as Ha.
  { unfold authorize. rewrite Hrole, Hos, Hst, Hun. simpl.
    rewrite orb_true_r. reflexivity. }
  assert (o_delivery_agent_id o' = Some (u_id u)) as Hag.
  { unfold o', updated_order. cbn [o_delivery_agent_id delivery_agent_id].
    by rewrite Htr. }
  split_and!; [|done|done].
  rewrite (update_order_status_eq _ _ _ _ _ _ _ Hu Hq), Ha. cbn [negb].
  rewrite Hst, Hos. cbn [valid_transitions].
  rewrite bool_decide_eq_false_2
    by (intros H; apply H; apply list_elem_of_singleton; reflexivity).
  cbn [delivery_agent_id fk_user_or_null]. rewrite Htr. cbn [negb orb].
  apply get_current_active_user_inr in Hu as (_ & Hfound & _).
  rewrite (query_user_has_user _ _ _ Hfound).
  fold o'. unfold notifications.
  replace (bool_decide (o_status o' = ASSIGNED)) with false
    by (symmetry; by apply bool_decide_eq_false).
  reflexivity.
Qed.

(** Two agents go for the same waiting order one after the other: the
    first is recorded, the second is refused with 403 and changes nothing. *)
Lemma second_claim_is_refused (w : World) (tokA tokB order_id : string)
    (updA updB : OrderUpdate) (nowA nowB : Z) (a b : UserModel) (o : OrderModel) :
  get_current_active_user tokA w = (inr a, w) →
  get_current_active_user tokB w = (inr b, w) →
  query_order (db w) order_id = Some o →
  u_role a = DELIVERY_AGENT → u_role b = DELIVERY_AGENT →
  u_id a ≠ u_id b → u_id a ≠ EmptyString →
  status updA = PICKED_UP → status updB = PICKED_UP →
  o_status o = ASSIGNED → truthy (o_delivery_agent_id o) = false →
  let r1 := update_order_status tokA order_id updA nowA w in
  let r2 := update_order_status tokB order_id updB nowB r1.2 in
  (∃ o', r1.1 = inr o' ∧ query_order (db r1.2) order_id = Some o'
         ∧ o_delivery_agent_id o' = Some (u_id a))
  ∧ r2 = (inl (HTTPException 403 Not_authorized_to_update_this_order_status), r1.2).
Proof.
  intros HuA HuB Hq HrA HrB Hab Ha HsA HsB Hos Hun r1 r2. subst r1 r2.
  destruct (claim_by_agent w tokA order_id updA nowA a o HuA Hq HrA HsA Hos Hun Ha)
    as (-> & Hag & Hst).
  set (o' := updated_order o _ nowA) in *. cbn [fst snd].
  set (w1 := {| db := _; manager := _; sent := _ |}).
  assert (query_order (db w1) order_id = Some o') as Hq1.
  { unfold query_order in *. cbn. eapply find_replace_same; [|done].
    cbn. by eapply query_order_id. }
  split; [by exists o'|].
  assert (get_current_active_user tokB w1 = (inr b, w1)) as HuB1.
  { rewrite get_current_active_user_spec in HuB |- *.
    change (query_user_by_username (db w1) tokB)
      with (query_user_by_username (db w) tokB).
    destruct (query_user_by_username (db w) tokB) as [v|]; [|done].
    destruct (u_disabled v); [done|]. by injection HuB as ->. }
  rewrite (update_order_status_eq _ _ _ _ _ _ _ HuB1 Hq1).
  pose proof (authorize_delivery_agent b o' updB HrB) as Hauth.
  rewrite Hag, Hst in Hauth.
  rewrite bool_decide_eq_false_2 in Hauth by (intros [= ?]; congruence).
  rewrite bool_decide_eq_false_2 in Hauth by done. simpl in Hauth.
  destruct (authorize b o' updB) as [authorized upd']. simpl in Hauth.
  by subst authorized.
Qed.

(** C3.  [update_order_status] does not await between reading the order
    (main.py 289) and committing it (main.py 335), so on the event loop of
    the process the database work of two requests in flight runs one after
    the other, in one order or the other.  For two distinct delivery agents
    who both ask for picked_up on the same order waiting in
    assigned_to_delivery with no agent attached, in either order exactly
    one request goes through: the one handled first, whose agent is then
    the delivery agent of the stored order; the other is refused with 403
    and changes nothing. *)
Theorem C3_one_of_two_claims_wins (w : World) (tokA tokB order_id : string)
    (updA updB : OrderUpdate) (nowA nowB : Z) (a b : UserModel) (o : OrderModel) :
  get_current_active_user tokA w = (inr a, w) →
  get_current_active_user tokB w = (inr b, w) →
  query_order (db w) order_id = Some o →
  u_role a = DELIVERY_AGENT → u_role b = DELIVERY_AGENT →
  u_id a ≠ u_id b → u_id a ≠ EmptyString → u_id b ≠ EmptyString →
  status updA = PICKED_UP → status updB = PICKED_UP →
  o_status o = ASSIGNED → truthy (o_delivery_agent_id o) = false →
  first_wins w order_id (tokA, updA, nowA) (tokB, updB, nowB) a
  ∧ first_wins w order_id (tokB, updB, nowB) (tokA, updA, nowA) b.
Proof.
  intros HuA HuB Hq HrA HrB Hab Ha Hb HsA HsB Hos Hun.
  unfold first_wins. cbn [fst snd]. split.
  - destruct (second_claim_is_refused w tokA tokB order_id updA updB nowA nowB
                a b o HuA HuB Hq HrA HrB Hab Ha HsA HsB Hos Hun)
      as [(o' & Hr & Hq' & Hag) Hr2].
    split; [|exact Hr2]. exists o'. split_and!; [done|done|]. by rewrite Hr2.
  - destruct (second_claim_is_refused w tokB tokA order_id updB updA nowB nowA
                b a o HuB HuA Hq HrB HrA (not_eq_sym Hab) Hb HsB HsA Hos Hun)
      as [(o' & Hr & Hq' & Hag) Hr2].
    split; [|exact Hr2]. exists o'. split_and!; [done|done|]. by rewrite Hr2.
Qed.

Lemma C3_witness :
  first_wins MoreExamples.waiting "o1"
    ("A", Examples.to_status PICKED_UP, 103)
    ("B", Examples.to_status PICKED_UP, 104) MoreExamples.agent_A
  ∧ first_wins MoreExamples.waiting "o1"
      ("B", Examples.to_status PICKED_UP, 104)
      ("A", Examples.to_status PICKED_UP, 103) Examples.agent_B.
Proof.
  apply (C3_one_of_two_claims_wins MoreExamples.waiting "A" "B" "o1"
           (Examples.to_status PICKED_UP) (Examples.to_status PICKED_UP) 103 104
           MoreExamples.agent_A Examples.agent_B MoreExamples.order_waiting).
  - vm_compute. reflexivity.
  - vm_compute. reflexivity.
  - vm_compute. reflexivity.
  - reflexivity.
  - reflexivity.
  - vm_compute. discriminate.
  - vm_compute. discriminate.
  - vm_compute. discriminate.
  - reflexivity.
  - reflexivity.
  - reflexivity.
  - reflexivity.
Defined.

(** A delivery agent asks for picked_up, naming no agent in the request, on
    an order in assigned_to_delivery that has an agent attached: line 304
    lets the request through whoever the attached agent is, and the order
    moves on with the attached agent as it was. *)
Lemma pickup_of_assigned_order (w : World) (tok order_id : string)
    (order_update : OrderUpdate) (now : Z) (u : UserModel) (o : OrderModel) :
  get_current_active_user tok w = (inr u, w) →
  query_order (db w) order_id = Some o →
  u_role u = DELIVERY_AGENT →
  status order_update = PICKED_UP →
  truthy (delivery_agent_id order_update) = false →
  o_status o = ASSIGNED →
  truthy (o_delivery_agent_id o) = true →
  let o' := updated_order o order_update now in
  authorize u o order_update = (true, order_update)
  ∧ update_order_status tok order_id order_update now w =
      (inr o',
       {| db := with_orders (db w)
                  (map (λ v, if bool_decide (o_id v = order_id) then o' else v)
                       (orders (db w)));
          manager := manager w;
          sent := sent w ++ (notifications (manager w) o').1 |})
  ∧ o_delivery_agent_id o' = o_delivery_agent_id o
  ∧ o_status o' = PICKED_UP.
Proof.
  intros Hu Hq Hrole Hst Hbody Hos Hatt o'.
  assert (authorize u o order_update = (true, order_update)) as Ha.
  { unfold authorize. rewrite Hrole, Hos, Hst, Hatt. simpl.
    rewrite orb_true_r. reflexivity. }
  assert (o_delivery_agent_id o' = o_delivery_agent_id o) as Hag.
  { unfold o', updated_order. cbn [o_delivery_agent_id]. by rewrite Hbody. }
  assert (o_status o' = PICKED_UP) as Hstat by exact Hst.
  split_and!; [done| |done|done].
  rewrite (update_order_status_eq _ _ _ _ _ _ _ Hu Hq), Ha. cbn [negb].
  rewrite Hst, Hos. cbn [valid_transitions].
  rewrite bool_decide_eq_false_2
    by (intros H; apply H; apply list_elem_of_singleton; reflexivity).
  rewrite Hbody. cbn [negb orb].
  fold o'. unfold notifications.
  replace (bool_decide (o_status o' = ASSIGNED)) with false
    by (symmetry; apply bool_decide_eq_false; by rewrite Hstat).
  reflexivity.
Qed.

(** C2: the code does not do what the claim says.  The test of line 304
    lets a delivery agent through when the agent is the one attached to
    the order or the order is in assigned_to_delivery; that the order is
    unassigned, which the claim asks for and which lines 308 and 357 do
    test, is not tested there.  So a status update asked by a delivery
    agent is authorized exactly when the target is picked_up or delivered
    and the agent is attached or the order is in assigned_to_delivery, and
    is refused with 403, nothing changed, otherwise.  On an order in
    assigned_to_delivery with another agent attached, the request for
    picked_up of an agent who is not attached goes through: the order is
    stored as picked_up with the attached agent still recorded, and every
    later status update of the requester is refused with 403.  What the
    claim says of an unassigned order holds: the agent who moves it to
    picked_up is stored as its delivery agent by the same update. *)
Theorem C2_delivery_agent_authorization (w : World) (tok order_id : string)
    (order_update : OrderUpdate) (now : Z) (u : UserModel) (o : OrderModel) :
  get_current_active_user tok w = (inr u, w) →
  query_order (db w) order_id = Some o →
  u_role u = DELIVERY_AGENT →
  let r := update_order_status tok order_id order_update now w in
  ((authorize u o order_update).1 = true
   ↔ status order_update ∈ [PICKED_UP; DELIVERED]
     ∧ (o_delivery_agent_id o = Some (u_id u) ∨ o_status o = ASSIGNED))
  ∧ ((authorize u o order_update).1 = false →
       r = (inl (HTTPException 403 Not_authorized_to_update_this_order_status), w))
  ∧ (status order_update = PICKED_UP →
     truthy (delivery_agent_id order_update) = false →
     o_status o = ASSIGNED →
     truthy (o_delivery_agent_id o) = true →
     o_delivery_agent_id o ≠ Some (u_id u) →
     let o' := updated_order o order_update now in
     (authorize u o order_update).1 = true
     ∧ ¬ (o_delivery_agent_id o = Some (u_id u)
          ∨ (o_status o = ASSIGNED ∧ truthy (o_delivery_agent_id o) = false))
     ∧ r.1 = inr o'
     ∧ query_order (db r.2) order_id = Some o'
     ∧ o_delivery_agent_id o' = o_delivery_agent_id o
     ∧ o_status o' = PICKED_UP
     ∧ ∀ order_update2 now2,
         update_order_status tok order_id order_update2 now2 r.2
         = (inl (HTTPException 403 Not_authorized_to_update_this_order_status),
            r.2))
  ∧ (status order_update = PICKED_UP →
     o_status o = ASSIGNED →
     truthy (o_delivery_agent_id o) = false →
     u_id u ≠ EmptyString →
     let o' := updated_order o
                 {| status := PICKED_UP; delivery_agent_id := Some (u_id u) |} now in
     r.1 = inr o'
     ∧ query_order (db r.2) order_id = Some o'
     ∧ o_delivery_agent_id o' = Some (u_id u)
     ∧ o_status o' = PICKED_UP).
Proof.
  intros Hu Hq Hrole r. subst r. split_and!.
  - rewrite (authorize_delivery_agent u o order_update Hrole).
    rewrite andb_true_iff, orb_true_iff, !bool_decide_eq_true. tauto.
  - intros Ha. rewrite (update_order_status_eq _ _ _ _ _ _ _ Hu Hq).
    destruct (authorize u o order_update) as [a upd']. simpl in Ha. by subst a.
  - intros Hst Hbody Hos Hatt Hother o'.
    destruct (pickup_of_assigned_order w tok order_id order_update now u o
                Hu Hq Hrole Hst Hbody Hos Hatt) as (Ha & -> & Hag & Hstat).
    fold o' in Hag, Hstat |- *. cbn [fst snd].
    set (w1 := {| db := _; manager := _; sent := _ |}).
    assert (query_order (db w1) order_id = Some o') as Hq1.
    { unfold query_order in *. cbn. eapply find_replace_same; [|done].
      cbn. by eapply query_order_id. }
    split_and!; try done.
    + by rewrite Ha.
    + intros [H|[_ H]]; [done|congruence].
    + intros upd2 now2.
      assert (get_current_active_user tok w1 = (inr u, w1)) as Hu1.
      { rewrite get_current_active_user_spec in Hu |- *.
        change (query_user_by_username (db w1) tok)
          with (query_user_by_username (db w) tok).
        destruct (query_user_by_username (db w) tok) as [v|]; [|done].
        destruct (u_disabled v); [done|]. by injection Hu as ->. }
      rewrite (update_order_status_eq _ _ _ _ _ _ _ Hu1 Hq1).
      pose proof (authorize_delivery_agent u o' upd2 Hrole) as Hauth.
      rewrite Hag, Hstat in Hauth.
      rewrite bool_decide_eq_false_2 in Hauth by done.
      rewrite bool_decide_eq_false_2 in Hauth by done. simpl in Hauth.
      destruct (authorize u o' upd2) as [authorized upd']. simpl in Hauth.
      by subst authorized.
  - intros Hst Hos Hun Hid o'.
    destruct (claim_by_agent w tok order_id order_update now u o
                Hu Hq Hrole Hst Hos Hun Hid) as (-> & Hag & Hstat).
    fold o' in Hag, Hstat |- *. split_and!; try done.
    unfold query_order in *. cbn. eapply find_replace_same; [|done].
    cbn. by eapply query_order_id.
Qed.

(** The failing input: the order is in assigned_to_delivery with agent A
    attached; agent B asks for picked_up.  The update goes through, A stays
    recorded, and B is then refused the delivered update. *)
Lemma C2_witness :
  u_role Examples.agent_B = DELIVERY_AGENT
  ∧ o_delivery_agent_id Examples.order_of_A = Some "a1"
  ∧ o_status Examples.order_of_A = ASSIGNED
  ∧ (update_order_status "B" "o1" (Examples.to_status PICKED_UP) 103
       Examples.assigned_to_A).1
    = inr (updated_order Examples.order_of_A (Examples.to_status PICKED_UP) 103)
  ∧ o_delivery_agent_id
      (updated_order Examples.order_of_A (Examples.to_status PICKED_UP) 103)
    = Some "a1"
  ∧ update_order_status "B" "o1" (Examples.to_status DELIVERED) 104
      (update_order_status "B" "o1" (Examples.to_status PICKED_UP) 103
         Examples.assigned_to_A).2
    = (inl (HTTPException 403 Not_authorized_to_update_this_order_status),
       (update_order_status "B" "o1" (Examples.to_status PICKED_UP) 103
          Examples.assigned_to_A).2).
Proof.
  assert (get_current_active_user "B" Examples.assigned_to_A
          = (inr Examples.agent_B, Examples.assigned_to_A)) as Hu
    by (vm_compute; reflexivity).
  assert (query_order (db Examples.assigned_to_A) "o1" = Some Examples.order_of_A)
    as Hq by (vm_compute; reflexivity).
  destruct (C2_delivery_agent_authorization Examples.assigned_to_A "B" "o1"
              (Examples.to_status PICKED_UP) 103 Examples.agent_B
              Examples.order_of_A Hu Hq eq_refl) as (_ & _ & Htake & _).
  assert (o_delivery_agent_id Examples.order_of_A ≠ Some (u_id Examples.agent_B))
    as Hother by (vm_compute; discriminate).
  destruct (Htake eq_refl eq_refl eq_refl eq_refl Hother)
    as (_ & _ & Hr & _ & Hag & _ & Hlater).
  split_and!; [reflexivity|reflexivity|reflexivity|exact Hr|exact Hag|].
  apply Hlater.
Defined.

(** ** Totals and payments *)

(** C4.  When [create_order] succeeds, every line item names a menu item,
    the total of the created order is the sum, over its line items in
    order, of the price of that menu item at that time times the quantity,
    the order is stored with that total, and whatever requests follow
    (menu items edited or deleted, statuses updated, payments asked for),
    the stored order keeps that total. *)
Theorem C4_total_amount_fixed_at_creation (w : World) (tok : string)
    (order : OrderCreate) (order_id payment_id : string) (now : Z)
    (o : OrderModel) :
  (create_order tok order order_id payment_id now w).1 = inr o →
  let w' := (create_order tok order order_id payment_id now w).2 in
  ∃ amounts,
    line_amounts (db w) (items order) = Some amounts
    ∧ o_total_amount o = sum_amounts amounts
    ∧ query_order (db w') order_id = Some o
    ∧ ∀ rs, ∃ o', query_order (db (run w' rs)) order_id = Some o'
                  ∧ o_total_amount o' = o_total_amount o.
Proof.
  intros Hr w'. subst w'.
  destruct (create_order_cases tok order order_id payment_id now w)
    as [[e He]|(u & total & w1 & Hu & Hall & Ht & Hfresh & -> & H)].
  { by rewrite He in Hr. }
  destruct H as [He|(p & sends & Hp & He)]; rewrite He in Hr; [done|].
  rewrite He. simpl in Hr. injection Hr as <-.
  destruct (calculate_order_total_from_sum _ _ _ _ Hall Ht) as (amounts & Ha & Hsum).
  exists amounts. cbn [snd].
  set (w2 := {| db := _; manager := _; sent := sent w ++ sends |}).
  assert (query_order (db w2) order_id
          = Some (new_order u order order_id total now)) as Hq.
  { unfold query_order. simpl. rewrite find_app_None by (by apply find_existsb_false).
    simpl. by rewrite bool_decide_eq_true_2. }
  split_and!; try done.
  intros rs. destruct (run_order w2 rs _ _ Hq) as (o' & Hq' & He').
  exists o'. split; [done|]. by destruct He' as (_&_&_&_&?&_).
Qed.

Lemma C4_witness :
  ∃ amounts,
    line_amounts (db (run (boot 0) (take 5 Examples.requests_until_placed)))
      (items Examples.two_burgers) = Some amounts
    ∧ 20%float = sum_amounts amounts
    ∧ query_order (db Examples.placed) "o1"
      = Some (new_order Examples.customer_C Examples.two_burgers "o1" 20%float 100)
    ∧ ∀ rs, ∃ o', query_order (db (run Examples.placed rs)) "o1" = Some o'
                  ∧ o_total_amount o' = 20%float.
Proof.
  apply (C4_total_amount_fixed_at_creation
           (run (boot 0) (take 5 Examples.requests_until_placed)) "C"
           Examples.two_burgers "o1" "p1" 100
           (new_order Examples.customer_C Examples.two_burgers "o1" 20%float 100)).
  vm_compute. reflexivity.
Defined.

Lemma filter_not_in_fmap {A} (f : A → string) (l : list A) (x : string) :
  x ∉ f <$> l → filter (λ q, f q = x) l = [].
Proof.
  induction l as [|y l IH]; [done|]. rewrite fmap_cons, not_elem_of_cons.
  intros [Hy Hl]. rewrite filter_cons_False by done. by apply IH.
Qed.

Lemma filter_NoDup_fmap_length {A} (f : A → string) (l : list A) (x : string) :
  NoDup (f <$> l) → (length (filter (λ q, f q = x) l) ≤ 1)%nat.
Proof.
  induction l as [|y l IH]; [simpl; lia|]. rewrite fmap_cons.
  intros [Hy Hnd]%NoDup_cons. destruct (decide (f y = x)) as [Hx|Hx].
  - rewrite filter_cons_True by done. subst x.
    rewrite filter_not_in_fmap by done. simpl. lia.
  - rewrite filter_cons_False by done. by apply IH.
Qed.

Lemma create_payment_existing (w : World) (tok order_id payment_id : string)
    (p : PaymentModel) :
  query_payment_by_order (db w) order_id = Some p →
  (create_payment tok order_id payment_id w).2 = w.
Proof.
  intros Hp. unfold create_payment. unfold mbind at 1, M_bind at 1.
  pose proof (check_role_world CUSTOMER tok w) as Hw.
  destruct (check_role CUSTOMER tok w) as [[e|u] w1]; simpl in Hw; subst w1; [done|].
  munfold. destruct (query_order _ _); [|done].
  destruct (bool_decide _); [done|]. by rewrite Hp.
Qed.

(** C5.  In every state the service can reach there is at most one payment
    for each order.  When the order already has a payment, a payment
    request of the customer who owns the order returns that payment as it
    is stored (same id, amount, shares) and leaves the world untouched; and
    whoever asks, a payment request for that order adds no payment and
    changes nothing. *)
Theorem C5_payment_request_is_idempotent (t : Z) (rs : list request)
    (tok order_id payment_id : string) (u : UserModel) (o : OrderModel)
    (p : PaymentModel) :
  let w := run (boot t) rs in
  check_role CUSTOMER tok w = (inr u, w) →
  query_order (db w) order_id = Some o →
  o_customer_id o = u_id u →
  query_payment_by_order (db w) order_id = Some p →
  create_payment tok order_id payment_id w = (inr p, w)
  ∧ (∀ x, (length (filter (λ q, p_order_id q = x) (payments (db w))) ≤ 1)%nat)
  ∧ (∀ tok' payment_id', (create_payment tok' order_id payment_id' w).2 = w).
Proof.
  intros w Hu Hq Hown Hp. split_and!.
  - unfold create_payment. unfold mbind at 1, M_bind at 1. rewrite Hu.
    munfold. rewrite Hq, Hp. by rewrite bool_decide_eq_false_2 by (by intros ?).
  - intros x. apply filter_NoDup_fmap_length. apply (run_payments_ok t rs).
  - intros tok' payment_id'. by eapply create_payment_existing.
Qed.

Lemma C5_witness :
  create_payment "C" "o1" "p2" Examples.placed
  = (inr Examples.payment_p1, Examples.placed).
Proof.
  refine (proj1
    (C5_payment_request_is_idempotent 0 Examples.requests_until_placed
       "C" "o1" "p2" Examples.customer_C
       (new_order Examples.customer_C Examples.two_burgers "o1" 20%float 100)
       Examples.payment_p1 _ _ _ _)).
  - vm_compute. reflexivity.
  - vm_compute. reflexivity.
  - reflexivity.
  - vm_compute. reflexivity.
Defined.

(** C6.  Every payment the service ever stores belongs to an order that is
    there, its amount is the total of that order (which never changes once
    the order is placed), its restaurant share is that amount times 0.8 and
    its delivery fee is that amount times 0.2, in the arithmetic of the
    program; a total of 20.00 gives 16.00 and 4.00. *)
Theorem C6_settlement_split (t : Z) (rs : list request) (p : PaymentModel) :
  p ∈ payments (db (run (boot t) rs)) →
  (∃ o, query_order (db (run (boot t) rs)) (p_order_id p) = Some o
        ∧ p_amount p = o_total_amount o)
  ∧ p_restaurant_share p = PrimFloat.mul (p_amount p) restaurant_rate
  ∧ p_delivery_fee p = PrimFloat.mul (p_amount p) delivery_rate
  ∧ PrimFloat.mul 20%float restaurant_rate = 16%float
  ∧ PrimFloat.mul 20%float delivery_rate = 4%float.
Proof.
  intros Hin. destruct (run_payments_ok t rs) as [_ Hall].
  rewrite Forall_forall in Hall. destruct (Hall p Hin) as (o & Hq & Ha & Hr & Hf).
  split_and!; try done. by exists o.
Qed.

Lemma C6_witness :
  (∃ o, query_order (db Examples.placed) "o1" = Some o
        ∧ 20%float = o_total_amount o)
  ∧ 16%float = PrimFloat.mul 20%float restaurant_rate
  ∧ 4%float = PrimFloat.mul 20%float delivery_rate
  ∧ PrimFloat.mul 20%float restaurant_rate = 16%float
  ∧ PrimFloat.mul 20%float delivery_rate = 4%float.
Proof.
  apply (C6_settlement_split 0 Examples.requests_until_placed Examples.payment_p1).
  vm_compute. apply list_elem_of_here.
Defined.

(** ** The registry of the running service *)

Lemma run_manager_no_empty (t : Z) (rs : list request) :
  no_empty_entries (manager (run (boot t) rs)).
Proof. apply run_no_empty, init_no_empty. Qed.

(** C8.  In every state of the registry that the service can reach,
    [disconnect] either raises [ValueError], when the socket is not in the
    list of the scope it works on, and then changes nothing; or it takes
    the socket out of that list, deletes the scope entry when the list is
    left empty, deletes the user entry when no scope is left, and leaves
    the other scopes and users alone, so that the registry again has no
    empty list and no user without scopes. *)
Theorem C8_disconnect_prunes_empty_entries (t : Z) (rs : list request)
    (C : WebSocket) (U : string) (order_id : option string) :
  let conns := manager (run (boot t) rs) in
  match disconnect conns C U order_id with
  | inl e =>
      e = ValueError
      ∧ ∃ by_user k, conns !! U = Some by_user
                     ∧ selected_key by_user order_id = Some k
                     ∧ C ∉ registered conns U k
  | inr conns' =>
      no_empty_entries conns'
      ∧ (∀ V, V ≠ U → conns' !! V = conns !! V)
      ∧ (∀ by_user k,
           conns !! U = Some by_user →
           selected_key by_user order_id = Some k →
           ∃ l', list_remove C (registered conns U k) = Some l'
                 ∧ occurrences C (registered conns U k) = S (occurrences C l')
                 ∧ scope_entry conns' U k = (match l' with [] => None | _ => Some l' end)
                 ∧ (∀ k', k' ≠ k → scope_entry conns' U k' = by_user !! k')
                 ∧ (conns' !! U = None
                    ↔ l' = [] ∧ ∀ k', k' ≠ k → by_user !! k' = None))
      ∧ (∀ by_user,
           conns !! U = Some by_user →
           selected_key by_user order_id = None → conns' = conns)
      ∧ (conns !! U = None → conns' = conns)
  end.
Proof.
  intros conns. pose proof (run_manager_no_empty t rs) as Hinv. fold conns in Hinv.
  destruct (conns !! U) as [by_user|] eqn:HU.
  - destruct (selected_key by_user order_id) as [k|] eqn:Hk.
    + destruct (list_remove C (default [] (by_user !! k))) as [l'|] eqn:Hl.
      * destruct (disconnect_selected conns C U order_id by_user k l' HU Hk Hl)
          as (Hd & Hs & Ho & Hu & Hv).
        rewrite Hd. split_and!; try done.
        -- eapply disconnect_no_empty; [exact Hinv|exact Hd].
        -- intros bu k0 [= <-] Hk0. rewrite Hk in Hk0. injection Hk0 as <-.
           rewrite (registered_lookup _ _ _ _ HU). exists l'.
           split_and!; try done.
           by apply list_remove_occurrences in Hl as (_ & ? & _).
        -- intros bu [= <-]. by rewrite Hk.
      * rewrite (disconnect_known_user _ _ _ _ _ HU), Hk, Hl.
        split; [done|]. exists by_user, k. split_and!; try done.
        rewrite (registered_lookup _ _ _ _ HU). by apply list_remove_None.
    + rewrite (disconnect_known_user _ _ _ _ _ HU), Hk.
      assert (pruned_registry U by_user conns = conns) as ->.
      { unfold pruned_registry.
        rewrite bool_decide_eq_false_2 by (apply (Hinv U by_user HU)).
        by apply insert_id. }
      split_and!; try done. intros bu k [= <-]. by rewrite Hk.
  - rewrite disconnect_unknown_user by done. split_and!; done.
Qed.

(** C9: the code does not do what the claim says.  Agent A is connected
    under "all" and is a delivery agent in the user table; restaurant R
    moves the accepted order, with no agent attached, to
    assigned_to_delivery.  The update is committed and the customer is
    told, then [broadcast_to_delivery_agents] raises [AttributeError] at
    the first registered user, because [get_user_by_id] is called without
    a session: no "order available" event is sent and the request ends in
    that exception. *)
Theorem C9_order_available_is_not_delivered :
  let r := update_order_status "R" "o1" (Examples.to_status ASSIGNED) 102
             Examples.accepted in
  registered (manager Examples.accepted) "a1" "all" = [7%nat]
  ∧ (u_role <$> query_user_by_id (db Examples.accepted) "a1") = Some DELIVERY_AGENT
  ∧ ((λ o, (o_status o, o_delivery_agent_id o)) <$> query_order (db r.2) "o1")
    = Some (ASSIGNED, None)
  ∧ r.1 = inl AttributeError
  ∧ sent r.2 = sent Examples.accepted ++ [(5%nat, Order_update "o1" ASSIGNED 102)]
  ∧ deliveries 7%nat (sent r.2) = 0%nat.
Proof. vm_compute. split_and!; reflexivity. Qed.

(** ** The scenario of the specification *)

(** Two burgers at 10.00: the order is placed with a total of 20.00 and
    settled with 16.00 for the restaurant and 4.00 for the delivery. *)
Lemma scenario_order_placed :
  query_order (db Examples.placed) "o1"
  = Some (new_order Examples.customer_C Examples.two_burgers "o1" 20%float 100)
  ∧ payments (db Examples.placed) = [Examples.payment_p1].
Proof. vm_compute. split; reflexivity. Qed.

(** R accepts the order; the customer's socket is told. *)
Lemma scenario_order_accepted :
  (o_status <$> query_order (db Examples.accepted) "o1") = Some ACCEPTED
  ∧ sent Examples.accepted = [(5%nat, Order_update "o1" ACCEPTED 101)].
Proof. vm_compute. split; reflexivity. Qed.

(** ** Further properties of the registry *)

Section RegistryMore.

Implicit Types (conns : registry) (by_user : scopes) (l : list WebSocket).
Implicit Types (C ws : WebSocket) (U V O k : string) (m : message).

Lemma list_remove_app_last ws l : ws ∉ l → list_remove ws (l ++ [ws]) = Some l.
Proof.
  induction l as [|y l IH]; simpl.
  - intros _. by rewrite bool_decide_eq_true_2.
  - rewrite not_elem_of_cons. intros [Hy Hl].
    rewrite bool_decide_eq_false_2 by congruence. by rewrite IH.
Qed.

Lemma registered_connect conns ws U order_id V k :
  registered (connect conns ws U order_id) V k =
    if decide (U = V ∧ connect_key order_id = k)
    then registered conns U k ++ [ws]
    else registered conns V k.
Proof.
  unfold registered, scope_entry. rewrite connect_lookup.
  destruct (decide (U = V)) as [<-|HUV]; simpl.
  - rewrite append_under_lookup.
    destruct (decide (connect_key order_id = k)) as [<-|Hk].
    + rewrite decide_True by done. simpl.
      by destruct (conns !! U) as [bu|]; simpl; [|rewrite lookup_empty].
    + rewrite decide_False by (by intros [_ ?]).
      by destruct (conns !! U) as [bu|]; simpl; [|rewrite lookup_empty].
  - by rewrite decide_False by (by intros [? _]).
Qed.

Lemma selected_key_connect conns ws U order_id :
  selected_key
    (append_under (connect_key order_id) ws (default ∅ (conns !! U))) order_id
  = Some (connect_key order_id).
Proof.
  unfold selected_key, connect_key. destruct (truthy order_id) eqn:Ht; simpl.
  - rewrite bool_decide_eq_true_2; [done|].
    rewrite append_under_lookup, decide_True by done. by eexists.
  - rewrite bool_decide_eq_true_2; [done|].
    rewrite append_under_lookup, decide_True by done. by eexists.
Qed.

End RegistryMore.

(** X1.  Registering a socket and unregistering it with the same user and
    order id gives back the registry as it was, the entries that [connect]
    created for it included, when the socket was not already in that scope
    and the registry holds no empty entry. *)
Theorem X1_connect_then_disconnect (conns : registry) (ws : WebSocket)
    (U : string) (order_id : option string) :
  no_empty_entries conns →
  ws ∉ registered conns U (connect_key order_id) →
  disconnect (connect conns ws U order_id) ws U order_id = inr conns.
Proof.
  intros Hinv Hnew.
  set (key := connect_key order_id) in *.
  set (bu := default ∅ (conns !! U)).
  assert (connect conns ws U order_id !! U = Some (append_under key ws bu)) as HU.
  { rewrite connect_lookup. by rewrite decide_True. }
  assert (registered conns U key = default [] (bu !! key)) as Hreg.
  { unfold registered, scope_entry, bu.
    by destruct (conns !! U); simpl; [|rewrite lookup_empty]. }
  rewrite Hreg in Hnew.
  assert (list_remove ws (default [] (append_under key ws bu !! key))
          = Some (default [] (bu !! key))) as Hrm.
  { rewrite append_under_lookup, decide_True by done. simpl.
    by apply list_remove_app_last. }
  assert (selected_key (append_under key ws bu) order_id = Some key) as Hsel
    by apply selected_key_connect.
  rewrite (disconnect_known_user _ _ _ _ _ HU), Hsel, Hrm.
  f_equal.
  assert (pruned_scopes key (default [] (bu !! key)) (append_under key ws bu) = bu)
    as ->.
  { apply map_eq. intros k. rewrite pruned_scopes_lookup, append_under_lookup.
    destruct (decide (key = k)) as [<-|Hk]; [|done].
    destruct (bu !! key) as [l|] eqn:Hl; simpl; [|done].
    destruct l; [|done]. exfalso. unfold bu in Hl.
    destruct (conns !! U) as [b|] eqn:Hb; simpl in Hl.
    - by apply (proj2 (Hinv U b Hb) key []).
    - by rewrite lookup_empty in Hl. }
  apply map_eq. intros V. rewrite pruned_registry_lookup, connect_lookup.
  destruct (decide (U = V)) as [<-|HV]; [|done]. unfold bu.
  destruct (conns !! U) as [b|] eqn:Hb; simpl.
  - rewrite bool_decide_eq_false_2; [done|]. apply (Hinv U b Hb).
  - by rewrite bool_decide_eq_true_2.
Qed.

Lemma X1_witness :
  disconnect (connect (manager Examples.accepted) 9%nat "c1" (Some "o1"))
    9%nat "c1" (Some "o1")
  = inr (manager Examples.accepted).
Proof.
  apply (X1_connect_then_disconnect (manager Examples.accepted) 9%nat "c1" (Some "o1")).
  - apply (run_manager_no_empty 0
             (Examples.requests_until_placed
              ++ [ Websocket_connected 5%nat "c1" (Some "o1");
                   Websocket_connected 7%nat "a1" None;
                   Update_order_status "R" "o1" (Examples.to_status ACCEPTED) 101 ])).
  - vm_compute. intros H.
    repeat (apply elem_of_cons in H as [H|H]; [discriminate H|]).
    by apply elem_of_nil in H.
Defined.

(** X2.  After [connect], an order update addressed to (V, O) reaches the
    new socket once more than before for each of the two lists it is now
    in: the list of its own scope when that is the order O of its user, and
    the "all" list of its user; every other socket receives what it
    received before. *)
Theorem X2_connect_then_send_order_update (conns : registry) (ws C : WebSocket)
    (U V O : string) (order_id : option string) (m : message) :
  deliveries C (send_order_update (connect conns ws U order_id) V O m)
  = (deliveries C (send_order_update conns V O m)
     + (if decide (C = ws ∧ U = V ∧ connect_key order_id = O) then 1 else 0)
     + (if decide (C = ws ∧ U = V ∧ connect_key order_id = "all") then 1 else 0))%nat.
Proof.
  rewrite !send_order_update_deliveries, !registered_connect.
  assert (∀ l, occurrences C (l ++ [ws])
               = (occurrences C l + if decide (C = ws) then 1 else 0)%nat) as Hocc.
  { intros l. rewrite occurrences_app. f_equal. unfold occurrences.
    destruct (decide (C = ws)) as [->|Hne].
    - by rewrite filter_cons_True.
    - by rewrite filter_cons_False by congruence. }
  destruct (decide (U = V)) as [<-|HUV];
    repeat case_decide; rewrite ?Hocc; repeat case_decide;
    try lia; exfalso; tauto.
Qed.

(** ** Further properties of the dependencies and of the order total *)

Section TotalMore.

Implicit Types (d : DB) (l : list OrderItemDict) (acc : float).

Lemma known_items_cons d item l :
  known_items d (item :: l) =
    if decide (is_Some (query_menu_item d (item_id item)))
    then item :: known_items d l else known_items d l.
Proof.
  unfold known_items. destruct (decide _) as [H|H].
  - by rewrite filter_cons_True.
  - by rewrite filter_cons_False.
Qed.

Lemma calculate_order_total_from_known d acc l :
  calculate_order_total_from d acc l
  = calculate_order_total_from d acc (known_items d l).
Proof.
  revert acc. induction l as [|item l IH]; intros acc; [done|].
  rewrite known_items_cons. cbn [calculate_order_total_from].
  destruct (query_menu_item d (item_id item)) as [m|] eqn:Hm.
  - rewrite decide_True by (by eexists). cbn [calculate_order_total_from].
    rewrite Hm. destruct (float_of_int (quantity item)); [done|apply IH].
  - rewrite decide_False by (by intros [? ?]). apply IH.
Qed.

Lemma float_of_int_inl z e : float_of_int z = inl e → e = OverflowError.
Proof. unfold float_of_int. destruct (PrimFloat.is_infinity _); congruence. Qed.

Lemma calculate_order_total_from_inl d acc l e :
  calculate_order_total_from d acc l = inl e ↔
    e = OverflowError
    ∧ ∃ item, item ∈ known_items d l
              ∧ float_of_int (quantity item) = inl OverflowError.
Proof.
  revert acc. induction l as [|item l IH]; intros acc.
  - cbn. split; [done|]. intros (_ & item & H & _). by apply elem_of_nil in H.
  - rewrite known_items_cons. cbn [calculate_order_total_from].
    destruct (query_menu_item d (item_id item)) as [m|] eqn:Hm.
    + rewrite decide_True by (by eexists).
      destruct (float_of_int (quantity item)) as [e'|q] eqn:Hq.
      * pose proof (float_of_int_inl _ _ Hq) as ->. split.
        -- intros [= <-]. split; [done|]. exists item. split; [left|done].
        -- by intros [-> _].
      * rewrite IH. split; intros (-> & item' & Hin & Hi); (split; [done|]);
          exists item'; (split; [|done]).
        -- by right.
        -- apply elem_of_cons in Hin as [->|Hin]; [congruence|done].
    + rewrite decide_False by (by intros [? ?]). apply IH.
Qed.

End TotalMore.

(** X3.  [check_role] looks the user of the token up by name and answers,
    in this order: 401 when there is none, 400 when the account is
    disabled, 403 when its role is neither the required one nor admin;
    otherwise it returns the account.  An admin thus passes every role
    check, and the check never changes the world. *)
Theorem X3_check_role_outcome (required_role : UserRole) (tok : string) (w : World) :
  check_role required_role tok w =
    (match query_user_by_username (db w) tok with
     | None => inl (HTTPException 401 Could_not_validate_credentials)
     | Some u =>
         if u_disabled u then inl (HTTPException 400 Inactive_user)
         else if decide (u_role u = required_role ∨ u_role u = ADMIN) then inr u
         else inl (HTTPException 403 (Operation_requires_role required_role))
     end, w).
Proof.
  unfold check_role. unfold mbind at 1, M_bind at 1.
  rewrite get_current_active_user_spec.
  destruct (query_user_by_username (db w) tok) as [u|]; [|done].
  destruct (u_disabled u); [done|]. munfold.
  destruct (decide (u_role u = required_role ∨ u_role u = ADMIN)) as [[H|H]|H].
  - by rewrite (bool_decide_eq_false_2 (u_role u ≠ required_role)) by (by intros ?).
  - rewrite (bool_decide_eq_false_2 (u_role u ≠ ADMIN)) by (by intros ?).
    by rewrite andb_false_r.
  - rewrite !bool_decide_eq_true_2; [done|..]; intros ?; apply H; auto.
Qed.

(** X4.  [calculate_order_total] passes over the lines whose item the menu
    does not know, without an error: the total is that of the known lines
    alone (zero when there is none).  It raises nothing but
    [OverflowError], and that exactly when the quantity of some known line
    is too large for a float. *)
Theorem X4_calculate_order_total_skips_unknown_items (d : DB)
    (l : list OrderItemDict) :
  calculate_order_total d l = calculate_order_total d (known_items d l)
  ∧ (known_items d l = [] → calculate_order_total d l = inr 0%float)
  ∧ (∀ e, calculate_order_total d l = inl e ↔
          e = OverflowError
          ∧ ∃ item, item ∈ known_items d l
                    ∧ float_of_int (quantity item) = inl OverflowError).
Proof.
  unfold calculate_order_total. split_and!.
  - apply calculate_order_total_from_known.
  - intros H. by rewrite calculate_order_total_from_known, H.
  - intros e. apply calculate_order_total_from_inl.
Qed.

Lemma X4_witness :
  calculate_order_total (db Examples.placed)
    [ {| item_id := "m9"; quantity := 3 |} ] = inr 0%float.
Proof.
  apply (X4_calculate_order_total_skips_unknown_items (db Examples.placed)
           [ {| item_id := "m9"; quantity := 3 |} ]).
  vm_compute. reflexivity.
Defined.

(** ** What the handlers commit *)

Section Changes.

Implicit Types (d : DB) (w : World) (o : OrderModel) (p : PaymentModel).
Implicit Types (tok : string) (u : UserModel) (rs : list request).

Lemma find_elem_of {A} (f : A → bool) (l : list A) x :
  find f l = Some x → x ∈ l ∧ f x = true.
Proof. intros [H1 H2]%find_some. split; [by apply list_elem_of_In|done]. Qed.

Lemma add_user_changes u w :
  u_disabled u = false → rtc db_change (db w) (db (add_user u w).2).
Proof.
  intros Hd. rewrite add_user_spec. destruct (existsb _ _) eqn:H; simpl;
    [apply rtc_refl|]. apply rtc_once. by constructor.
Qed.

Lemma startup_event_changes a h w : rtc db_change (db w) (db (startup_event a h w).2).
Proof.
  unfold startup_event. munfold.
  destruct (query_user_by_username _ _); [apply rtc_refl|]. by apply add_user_changes.
Qed.

Lemma register_user_changes user i h w :
  rtc db_change (db w) (db (register_user user i h w).2).
Proof.
  unfold register_user. munfold.
  destruct (query_user_by_username _ _); [apply rtc_refl|].
  pose proof (add_user_changes
    {| u_id := i; u_username := username user; u_email := email user;
       u_role := role user; u_hashed_password := h; u_disabled := false |} w eq_refl)
    as H.
  by destruct (add_user _ w) as [[e|[]] w1].
Qed.

(** The account a role check lets through is a row of the user table. *)
Lemma check_role_elem_of r tok w u w' :
  check_role r tok w = (inr u, w') →
  w' = w ∧ u ∈ users (db w) ∧ u_username u = tok ∧ u_disabled u = false
  ∧ (u_role u = r ∨ u_role u = ADMIN).
Proof.
  intros (-> & Hau & Hrole)%check_role_inr.
  apply get_current_active_user_inr in Hau as (_ & Hq & Hd).
  apply find_elem_of in Hq as [Hin Hn]. apply bool_decide_eq_true in Hn.
  by split_and!.
Qed.

Lemma create_menu_item_changes tok m i w :
  rtc db_change (db w) (db (create_menu_item tok m i w).2).
Proof.
  unfold create_menu_item. unfold mbind at 1, M_bind at 1.
  destruct (check_role RESTAURANT tok w) as [[e|u] w1] eqn:Hu.
  { pose proof (check_role_world RESTAURANT tok w) as H. rewrite Hu in H.
    simpl in H. subst. apply rtc_refl. }
  apply check_role_elem_of in Hu as (-> & Hin & _ & _ & Hrole).
  munfold. rewrite add_menu_item_spec. destruct (_ || _) eqn:Hc; simpl;
    [apply rtc_refl|].
  apply orb_false_iff in Hc as [Hc _]. apply rtc_once.
  by eapply (Change_menu_item_added _ _ u).
Qed.

Lemma update_menu_item_changes tok i m w :
  rtc db_change (db w) (db (update_menu_item tok i m w).2).
Proof.
  unfold update_menu_item. unfold mbind at 1, M_bind at 1.
  pose proof (check_role_world RESTAURANT tok w) as Hw.
  destruct (check_role RESTAURANT tok w) as [[e|u] w1]; simpl in Hw; subst w1;
    [apply rtc_refl|].
  munfold. destruct (query_menu_item _ _) as [old|] eqn:Hq; [|apply rtc_refl].
  destruct (_ && _); simpl; [apply rtc_refl|].
  apply rtc_once. by eapply (Change_menu_item_updated _ _ old).
Qed.

Lemma delete_menu_item_changes tok i w :
  rtc db_change (db w) (db (delete_menu_item tok i w).2).
Proof.
  unfold delete_menu_item. unfold mbind at 1, M_bind at 1.
  pose proof (check_role_world RESTAURANT tok w) as Hw.
  destruct (check_role RESTAURANT tok w) as [[e|u] w1]; simpl in Hw; subst w1;
    [apply rtc_refl|].
  munfold. destruct (query_menu_item _ _) as [old|] eqn:Hq; [|apply rtc_refl].
  destruct (_ && _); simpl; [apply rtc_refl|].
  apply rtc_once. constructor.
Qed.

Lemma process_payment_changes order_id o payment_id w :
  query_order (db w) order_id = Some o →
  rtc db_change (db w)
    (db (process_payment order_id (o_total_amount o) payment_id w).2).
Proof.
  intros Hq. rewrite process_payment_spec.
  destruct (_ || _) eqn:Hc; simpl; [apply rtc_refl|].
  apply orb_false_iff in Hc as [Hc _]. apply rtc_once.
  by apply (Change_payment_added _ o
    {| p_id := payment_id; p_order_id := order_id; p_amount := o_total_amount o;
       p_restaurant_share := PrimFloat.mul (o_total_amount o) restaurant_rate;
       p_delivery_fee := PrimFloat.mul (o_total_amount o) delivery_rate;
       p_status := "completed"; p_created_at := import_time (db w) |}).
Qed.

(** [create_order] without a restaurant of that id: refused before any
    commit. *)
Lemma create_order_no_restaurant tok order order_id payment_id now w :
  find (λ u, bool_decide (u_id u = restaurant_id order)
             && bool_decide (u_role u = RESTAURANT)) (users (db w)) = None →
  ∃ e, create_order tok order order_id payment_id now w = (inl e, w).
Proof.
  intros Hf. unfold create_order. unfold mbind at 1, M_bind at 1.
  pose proof (check_role_world CUSTOMER tok w) as Hw.
  destruct (check_role CUSTOMER tok w) as [[e|u] w1]; simpl in Hw; subst w1;
    [by eexists|].
  munfold. rewrite Hf. by eexists.
Qed.

Lemma query_order_placed d o :
  existsb (λ v, bool_decide (o_id v = o_id o)) (orders d) = false →
  query_order (with_orders d (orders d ++ [o])) (o_id o) = Some o.
Proof.
  intros Hfresh. unfold query_order. simpl.
  rewrite find_app_None by by apply find_existsb_false.
  simpl. by rewrite bool_decide_eq_true_2.
Qed.

Lemma create_order_changes tok order order_id payment_id now w :
  rtc db_change (db w) (db (create_order tok order order_id payment_id now w).2).
Proof.
  destruct (find (λ u, bool_decide (u_id u = restaurant_id order)
                       && bool_decide (u_role u = RESTAURANT)) (users (db w)))
    as [restaurant|] eqn:Hf.
  2: { destruct (create_order_no_restaurant tok order order_id payment_id now w Hf)
         as [e ->]. apply rtc_refl. }
  apply find_elem_of in Hf as [Hin [Hid Hrole]%andb_true_iff].
  apply bool_decide_eq_true in Hid, Hrole.
  destruct (create_order_cases tok order order_id payment_id now w)
    as [[e ->]|(u & total & w1 & Hu & _ & _ & Hfresh & -> & H)];
    [apply rtc_refl|].
  apply check_role_elem_of in Hu as (_ & Hu & _ & _ & Hcust).
  assert (db_change (db w)
            (with_orders (db w)
               (orders (db w) ++ [new_order u order order_id total now]))) as Hs1
    by (by apply (Change_order_placed _ _ u restaurant)).
  destruct H as [->|(p & sends & Hp & ->)]; simpl.
  - by apply rtc_once.
  - eapply rtc_l; [exact Hs1|].
    set (w1 := {| db := with_orders _ _; manager := _; sent := _ |}) in *.
    assert (query_order (db w1) order_id
            = Some (new_order u order order_id total now)) as Hq
      by (by apply (query_order_placed (db w) (new_order u order order_id total now))).
    pose proof (process_payment_changes order_id _ payment_id w1 Hq) as H.
    simpl in H. by rewrite Hp in H.
Qed.

Lemma create_payment_changes tok order_id payment_id w :
  rtc db_change (db w) (db (create_payment tok order_id payment_id w).2).
Proof.
  unfold create_payment. unfold mbind at 1, M_bind at 1.
  pose proof (check_role_world CUSTOMER tok w) as Hw.
  destruct (check_role CUSTOMER tok w) as [[e|u] w1]; simpl in Hw; subst w1;
    [apply rtc_refl|].
  unfold mbind at 1, M_bind at 1, get_db at 1. cbn beta iota.
  destruct (query_order (db w) order_id) as [o|] eqn:Hq; [|apply rtc_refl].
  destruct (bool_decide _); [apply rtc_refl|].
  destruct (query_payment_by_order _ _); [apply rtc_refl|].
  by apply process_payment_changes.
Qed.

Lemma update_order_status_changes tok order_id order_update now w :
  rtc db_change (db w) (db (update_order_status tok order_id order_update now w).2).
Proof.
  destruct (get_current_active_user tok w) as [[e|u] w0] eqn:Hu.
  { unfold update_order_status. unfold mbind at 1, M_bind at 1. rewrite Hu.
    pose proof (get_current_active_user_world tok w) as H. rewrite Hu in H.
    simpl in H. subst. apply rtc_refl. }
  apply get_current_active_user_inr in Hu as H. destruct H as (-> & _ & _).
  destruct (query_order (db w) order_id) as [o|] eqn:Hq.
  - rewrite (update_order_status_eq _ _ _ _ _ _ _ Hu Hq).
    pose proof (authorize_status u o order_update) as Hs.
    destruct (authorize u o order_update) as [[] upd']; simpl in Hs; simpl;
      [|apply rtc_refl].
    case_bool_decide as Hv; [apply rtc_refl|].
    destruct (negb _ || _) eqn:Hfk; [|apply rtc_refl].
    destruct (notifications _ _) as [sends e]. simpl.
    apply rtc_once. apply Change_order_updated; [done| |].
    + rewrite Hs.
      by destruct (decide (status order_update ∈ valid_transitions (o_status o))).
    + intros Ht. by rewrite Ht in Hfk.
  - unfold update_order_status. unfold mbind at 1, M_bind at 1. rewrite Hu.
    unfold mbind at 1, M_bind at 1, get_db at 1. cbn beta iota. rewrite Hq.
    apply rtc_refl.
Qed.

Lemma handle_db_changes r w : rtc db_change (db w) (db (handle r w)).
Proof.
  destruct r; cbn [handle].
  - apply startup_event_changes.
  - apply register_user_changes.
  - apply create_menu_item_changes.
  - apply update_menu_item_changes.
  - apply delete_menu_item_changes.
  - apply create_order_changes.
  - apply update_order_status_changes.
  - apply create_payment_changes.
  - rewrite (proj1 (websocket_connected_effect _ _ _ _)). apply rtc_refl.
  - rewrite (proj1 (websocket_disconnected_effect _ _ _ _)). apply rtc_refl.
Qed.

Lemma run_db_changes w rs : rtc db_change (db w) (db (run w rs)).
Proof.
  revert w. induction rs as [|r rs IH]; intros w; simpl; [apply rtc_refl|].
  etrans; [apply handle_db_changes|apply IH].
Qed.

End Changes.

(** ** The tables of the running service *)

Section Schema.

Implicit Types (d : DB) (w : World) (o : OrderModel) (p : PaymentModel).
Implicit Types (tok : string) (u : UserModel) (rs : list request).

Lemma existsb_false_fmap {A} (f : A → string) (l : list A) x :
  existsb (λ v, bool_decide (f v = x)) l = false → x ∉ f <$> l.
Proof.
  intros Hex (v & -> & Hv)%list_elem_of_fmap.
  assert (existsb (λ v0, bool_decide (f v0 = f v)) l = true) as H; [|congruence].
  apply existsb_exists. exists v. split; [by apply list_elem_of_In|].
  by apply bool_decide_eq_true.
Qed.

Lemma existsb_false_weaken {A} (f g : A → bool) (l : list A) :
  (∀ v, g v = true → f v = true) → existsb f l = false → existsb g l = false.
Proof.
  intros Hfg. induction l as [|y l IH]; simpl; [done|].
  intros [Hy Hl]%orb_false_iff. rewrite IH by done.
  destruct (g y) eqn:Hg; [|done]. by rewrite Hfg in Hy.
Qed.

Lemma NoDup_fmap_snoc {A} (f : A → string) (l : list A) x :
  NoDup (f <$> l) → f x ∉ f <$> l → NoDup (f <$> (l ++ [x])).
Proof.
  intros Hnd Hx. rewrite fmap_app. simpl. apply NoDup_app.
  split_and!; [done| |apply NoDup_singleton].
  by intros y Hy ->%list_elem_of_singleton.
Qed.

Lemma NoDup_fmap_find {A} (f : A → string) (l : list A) v :
  NoDup (f <$> l) → v ∈ l → find (λ x, bool_decide (f x = f v)) l = Some v.
Proof.
  induction l as [|y l IH]; simpl.
  - intros _ H. by apply elem_of_nil in H.
  - intros [Hy Hnd]%NoDup_cons [->|Hin]%elem_of_cons.
    + by rewrite bool_decide_eq_true_2.
    + rewrite bool_decide_eq_false_2; [by apply IH|].
      intros Heq. apply Hy. rewrite Heq. by apply list_elem_of_fmap_2.
Qed.

Lemma NoDup_fmap_filter {A} (f : A → string) (P : A → Prop)
    `{!∀ x, Decision (P x)} (l : list A) :
  NoDup (f <$> l) → NoDup (f <$> filter P l).
Proof.
  intros Hnd. apply (sublist_NoDup _ (f <$> l)); [done|].
  apply fmap_sublist, sublist_filter.
Qed.

Lemma fmap_replace {A} (f : A → string) (g : A → A) (l : list A) :
  (∀ x, f (g x) = f x) → f <$> map g l = f <$> l.
Proof.
  intros Hg. induction l as [|y l IH]; [done|].
  cbn [map]. rewrite !fmap_cons. by rewrite Hg, IH.
Qed.

Lemma elem_of_replace {A} (c : A → bool) (new : A) (l : list A) x :
  x ∈ map (λ v, if c v then new else v) l →
  x ∈ l ∨ (x = new ∧ ∃ v, v ∈ l ∧ c v = true).
Proof.
  induction l as [|y l IH]; simpl.
  - intros H. by apply elem_of_nil in H.
  - intros [->|Hin]%elem_of_cons.
    + destruct (c y) eqn:Hc; [right|left; left]. split; [done|].
      exists y. split; [left|done].
    + destruct (IH Hin) as [H|(-> & v & Hv & Hc)]; [left; by right|right].
      split; [done|]. exists v. split; [by right|done].
Qed.

Lemma has_user_query d x : has_user d x = true → is_Some (query_user_by_id d x).
Proof.
  unfold has_user, query_user_by_id. intros (v & Hin & Hv)%existsb_exists.
  destruct (find _ (users d)) eqn:Hf; [by eexists|].
  by rewrite (find_none _ _ Hf v Hin) in Hv.
Qed.

Lemma db_ok_user_by_id d u :
  db_ok d → u ∈ users d → query_user_by_id d (u_id u) = Some u.
Proof. intros Hok Hin. apply (NoDup_fmap_find u_id); [apply Hok|done]. Qed.

Lemma db_ok_user_by_username d u :
  db_ok d → u ∈ users d → query_user_by_username d (u_username u) = Some u.
Proof. intros Hok Hin. apply (NoDup_fmap_find u_username); [apply Hok|done]. Qed.

Lemma db_ok_order_by_id d o :
  db_ok d → o ∈ orders d → query_order d (o_id o) = Some o.
Proof. intros Hok Hin. apply (NoDup_fmap_find o_id); [apply Hok|done]. Qed.

Lemma db_ok_menu_item_by_id d m :
  db_ok d → m ∈ menu_items d → query_menu_item d (mi_id m) = Some m.
Proof. intros Hok Hin. apply (NoDup_fmap_find mi_id); [apply Hok|done]. Qed.

(** Accounts are only ever added. *)
Lemma db_change_user_by_id d d' x u :
  db_change d d' → query_user_by_id d x = Some u → query_user_by_id d' x = Some u.
Proof.
  intros Hc Hq. destruct Hc; try done.
  unfold query_user_by_id in *. simpl. by apply find_app_Some.
Qed.

Lemma db_change_user_by_username d d' x u :
  db_change d d' →
  query_user_by_username d x = Some u → query_user_by_username d' x = Some u.
Proof.
  intros Hc Hq. destruct Hc; try done.
  unfold query_user_by_username in *. simpl. by apply find_app_Some.
Qed.

Lemma db_changes_user_by_id d d' x u :
  rtc db_change d d' → query_user_by_id d x = Some u → query_user_by_id d' x = Some u.
Proof. induction 1; [done|]. intros. eauto using db_change_user_by_id. Qed.

Lemma db_changes_user_by_username d d' x u :
  rtc db_change d d' →
  query_user_by_username d x = Some u → query_user_by_username d' x = Some u.
Proof. induction 1; [done|]. intros. eauto using db_change_user_by_username. Qed.

Lemma db_change_ok d d' : db_change d d' → db_ok d → db_ok d'.
Proof.
  intros Hc Hok.
  destruct Hc as [u Hfresh Hact|m owner Hfresh Hin Hid Hrole
                 |item_id old new Hq Hid Hown|item_id
                 |o customer restaurant Hfresh Hc Hcid Hcrole Hr Hrid Hrole Hst Hag
                 |order_id order upd now Hq Hv Hfk
                 |o p Hq Ha Hfresh].
  - (* a user is added *)
    assert (∀ x v, query_user_by_id d x = Some v →
                   query_user_by_id (with_users d (users d ++ [u])) x = Some v) as Hkeep.
    { intros x v Hx. unfold query_user_by_id in *. simpl. by apply find_app_Some. }
    split; simpl; try apply Hok.
    + apply NoDup_fmap_snoc; [apply Hok|]. apply existsb_false_fmap.
      revert Hfresh. apply existsb_false_weaken. intros v ->. done.
    + apply NoDup_fmap_snoc; [apply Hok|]. apply existsb_false_fmap.
      revert Hfresh. apply existsb_false_weaken. intros v ->.
      by rewrite orb_true_r.
    + apply NoDup_fmap_snoc; [apply Hok|]. apply existsb_false_fmap.
      revert Hfresh. apply existsb_false_weaken. intros v ->.
      by rewrite orb_true_r.
    + intros m Hm. destruct (ok_menu_item_owner d Hok m Hm) as (owner & Ho & Hro).
      exists owner. split; [by apply Hkeep|done].
    + intros o Ho.
      destruct (ok_order_parties d Hok o Ho) as ((c & Hc & Hcr) & (r & Hr & Hro) & Hag).
      split_and!.
      * exists c. split; [by apply Hkeep|done].
      * exists r. split; [by apply Hkeep|done].
      * intros a Ha. destruct (Hag a Ha) as [v Hv]. exists v. by apply Hkeep.
    + intros v [Hv| ->%list_elem_of_singleton]%elem_of_app; [by apply Hok|done].
  - (* a menu item is added *)
    split; simpl; try apply Hok.
    + apply NoDup_fmap_snoc; [apply Hok|]. by apply existsb_false_fmap.
    + intros m0 [Hm| ->%list_elem_of_singleton]%elem_of_app;
        [by apply (ok_menu_item_owner d Hok)|].
      exists owner. split; [|done]. rewrite Hid. exact (db_ok_user_by_id d owner Hok Hin).
  - (* a menu item is updated *)
    apply find_elem_of in Hq as [Hold Hoid]. apply bool_decide_eq_true in Hoid.
    split; simpl; try apply Hok.
    + rewrite fmap_replace; [apply Hok|]. intros x. case_bool_decide; congruence.
    + intros m [Hm|(-> & _)]%elem_of_replace; [by apply (ok_menu_item_owner d Hok)|].
      rewrite Hown. by apply (ok_menu_item_owner d Hok).
  - (* a menu item is deleted *)
    split; simpl; try apply Hok.
    + apply NoDup_fmap_filter, Hok.
    + intros m [_ Hm]%list_elem_of_filter. by apply (ok_menu_item_owner d Hok).
  - (* an order is placed *)
    split; simpl; try apply Hok.
    + apply NoDup_fmap_snoc; [apply Hok|]. by apply existsb_false_fmap.
    + intros o0 [Ho| ->%list_elem_of_singleton]%elem_of_app;
        [by apply (ok_order_parties d Hok)|].
      split_and!.
      * exists customer. split; [|done]. rewrite Hcid.
        exact (db_ok_user_by_id d customer Hok Hc).
      * exists restaurant. split; [|done]. rewrite Hrid.
        exact (db_ok_user_by_id d restaurant Hok Hr).
      * intros a Ha. congruence.
  - (* an order is updated *)
    apply find_elem_of in Hq as [Hold Hoid]. apply bool_decide_eq_true in Hoid.
    split; simpl; try apply Hok.
    + rewrite fmap_replace; [apply Hok|]. intros x. case_bool_decide; simpl; congruence.
    + intros o [Ho|(-> & _)]%elem_of_replace; [by apply (ok_order_parties d Hok)|].
      destruct (ok_order_parties d Hok order Hold) as (Hc & Hr & Hag).
      split_and!; [done|done|]. simpl. intros a Ha.
      destruct (truthy (delivery_agent_id upd)) eqn:Ht; [|by apply Hag].
      specialize (Hfk eq_refl). rewrite Ha in Hfk. by apply has_user_query.
  - (* a payment is added *)
    split; simpl; try apply Hok.
    apply NoDup_fmap_snoc; [apply Hok|]. apply existsb_false_fmap.
    revert Hfresh. apply existsb_false_weaken. intros v ->. done.
Qed.

Lemma db_changes_ok d d' : rtc db_change d d' → db_ok d → db_ok d'.
Proof. induction 1; [done|]. intros. eauto using db_change_ok. Qed.

Lemma boot_db_ok t : db_ok (db (boot t)).
Proof.
  split; simpl; try apply NoDup_nil_2; intros x H; by apply elem_of_nil in H.
Qed.

Lemma run_db_ok t rs : db_ok (db (run (boot t) rs)).
Proof. eapply db_changes_ok; [apply run_db_changes|apply boot_db_ok]. Qed.

Lemma run_from_db_ok w rs : db_ok (db w) → db_ok (db (run w rs)).
Proof. apply db_changes_ok, run_db_changes. Qed.

End Schema.

(** ** Accounts *)

Section Accounts.

Implicit Types (d : DB) (w : World) (u : UserModel).

Lemma find_none_fmap {A} (f : A → string) (l : list A) x :
  find (λ v, bool_decide (f v = x)) l = None ↔ x ∉ f <$> l.
Proof.
  induction l as [|y l IH]; cbn [find].
  - split; [|done]. intros _ H. by apply elem_of_nil in H.
  - rewrite fmap_cons, not_elem_of_cons. case_bool_decide as Hy.
    + split; [done|]. by intros [? _].
    + rewrite IH. split; [by intros ?|by intros [_ ?]].
Qed.

Lemma users_fresh d i n e :
  existsb (λ v, bool_decide (u_id v = i) || bool_decide (u_username v = n)
                || bool_decide (u_email v = e)) (users d) = false
  ↔ query_user_by_id d i = None ∧ query_user_by_username d n = None
    ∧ e ∉ u_email <$> users d.
Proof.
  unfold query_user_by_id, query_user_by_username. rewrite !find_none_fmap.
  induction (users d) as [|y l IH]; cbn [existsb].
  - split; [|done]. intros _. split_and!; intros H; by apply elem_of_nil in H.
  - rewrite !fmap_cons, !not_elem_of_cons, !orb_false_iff, IH.
    rewrite !bool_decide_eq_false. intuition congruence.
Qed.

End Accounts.

(** X5.  [register_user] refuses a user name that is taken with 400
    and changes nothing.  It does not check the e-mail address: when the
    name is free but the address (or the generated id) is taken, the
    request ends in the [IntegrityError] of the commit, with nothing
    stored.  Otherwise it stores one enabled account with the role the
    request asked for, whatever that role is, and a lookup by name or by id
    then finds that account; the other tables, the registry and the sent
    events are as before. *)
Theorem X5_register_user_outcome (user : UserCreate) (user_id h : string)
    (w : World) :
  let r := register_user user user_id h w in
  let row := {| u_id := user_id; u_username := username user;
                u_email := email user; u_role := role user;
                u_hashed_password := h; u_disabled := false |} in
  (is_Some (query_user_by_username (db w) (username user)) →
     r = (inl (HTTPException 400 Username_already_registered), w))
  ∧ (query_user_by_username (db w) (username user) = None →
     is_Some (query_user_by_id (db w) user_id)
     ∨ email user ∈ u_email <$> users (db w) →
     r = (inl IntegrityError, w))
  ∧ (query_user_by_username (db w) (username user) = None →
     query_user_by_id (db w) user_id = None →
     email user ∉ u_email <$> users (db w) →
     r = (inr row, {| db := with_users (db w) (users (db w) ++ [row]);
                      manager := manager w; sent := sent w |})
     ∧ query_user_by_username (db r.2) (username user) = Some row
     ∧ query_user_by_id (db r.2) user_id = Some row).
Proof.
  intros r row. subst r. unfold register_user. munfold. fold row.
  split_and!.
  - by intros [v ->].
  - intros -> Htaken. rewrite add_user_spec. cbn [u_id u_username u_email row].
    destruct (existsb _ _) eqn:Hex; [done|]. exfalso.
    apply users_fresh in Hex as (Hi & _ & He).
    destruct Htaken as [[v Hv]|Hin]; [congruence|done].
  - intros Hn Hi He. rewrite Hn. rewrite add_user_spec.
    cbn [u_id u_username u_email row].
    rewrite (proj2 (users_fresh (db w) user_id (username user) (email user)))
      by done.
    cbn [fst snd db]. split_and!; [done|..].
    + unfold query_user_by_username in *. cbn [users with_users].
      rewrite find_app_None by done. simpl. by rewrite bool_decide_eq_true_2.
    + unfold query_user_by_id in *. cbn [users with_users].
      rewrite find_app_None by done. simpl. by rewrite bool_decide_eq_true_2.
Qed.

(** X6.  No request removes or alters an account: a lookup by name or by
    id that finds an account finds the same row, with the same role, after
    any run of requests. *)
Theorem X6_accounts_are_kept (w : World) (rs : list request) (u : UserModel) :
  (∀ n, query_user_by_username (db w) n = Some u →
        query_user_by_username (db (run w rs)) n = Some u)
  ∧ (∀ x, query_user_by_id (db w) x = Some u →
          query_user_by_id (db (run w rs)) x = Some u).
Proof.
  split; intros x Hx.
  - eapply db_changes_user_by_username; [apply run_db_changes|done].
  - eapply db_changes_user_by_id; [apply run_db_changes|done].
Qed.

(** X7.  No request disables an account: in every state the service can
    reach all accounts are enabled, so [get_current_active_user] answers
    as [get_current_user] does and never with 400 "Inactive user". *)
Theorem X7_no_account_is_ever_disabled (t : Z) (rs : list request) (tok : string) :
  let w := run (boot t) rs in
  (∀ u, u ∈ users (db w) → u_disabled u = false)
  ∧ get_current_active_user tok w = get_current_user tok w.
Proof.
  intros w. pose proof (run_db_ok t rs) as Hok. fold w in Hok.
  split; [apply Hok|].
  rewrite get_current_active_user_spec, get_current_user_spec.
  destruct (query_user_by_username (db w) tok) as [u|] eqn:Hq; [|done].
  apply find_elem_of in Hq as [Hin _]. by rewrite (ok_active _ Hok u Hin).
Qed.

(** X8.  In every state the service can reach, the keys are keys: no two
    accounts share an id, a user name or an e-mail address, no two menu
    items, orders or payments share an id; so the lookups by id and by name
    that the handlers use find every stored row. *)
Theorem X8_keys_are_unique (t : Z) (rs : list request) :
  let d := db (run (boot t) rs) in
  NoDup (u_id <$> users d) ∧ NoDup (u_username <$> users d)
  ∧ NoDup (u_email <$> users d) ∧ NoDup (mi_id <$> menu_items d)
  ∧ NoDup (o_id <$> orders d) ∧ NoDup (p_id <$> payments d)
  ∧ (∀ u, u ∈ users d →
          query_user_by_id d (u_id u) = Some u
          ∧ query_user_by_username d (u_username u) = Some u)
  ∧ (∀ m, m ∈ menu_items d → query_menu_item d (mi_id m) = Some m)
  ∧ (∀ o, o ∈ orders d → query_order d (o_id o) = Some o).
Proof.
  intros d. pose proof (run_db_ok t rs) as Hok. fold d in Hok.
  split_and!; try apply Hok.
  - intros u Hu. split; [by apply db_ok_user_by_id|by apply db_ok_user_by_username].
  - intros m Hm. by apply db_ok_menu_item_by_id.
  - intros o Ho. by apply db_ok_order_by_id.
Qed.

(** X9.  In every state the service can reach, the references resolve:
    the owner of every menu item is an account with the role restaurant or
    admin; the customer of every order is an account with the role
    customer or admin, its restaurant is an account with the role
    restaurant, and the delivery agent attached to it, if any, is an
    account. *)
Theorem X9_references_resolve (t : Z) (rs : list request) :
  let d := db (run (boot t) rs) in
  (∀ m, m ∈ menu_items d →
     ∃ owner, query_user_by_id d (mi_restaurant_id m) = Some owner
              ∧ (u_role owner = RESTAURANT ∨ u_role owner = ADMIN))
  ∧ (∀ o, o ∈ orders d →
       (∃ customer, query_user_by_id d (o_customer_id o) = Some customer
                    ∧ (u_role customer = CUSTOMER ∨ u_role customer = ADMIN))
       ∧ (∃ restaurant, query_user_by_id d (o_restaurant_id o) = Some restaurant
                        ∧ u_role restaurant = RESTAURANT)
       ∧ (∀ a, o_delivery_agent_id o = Some a → is_Some (query_user_by_id d a))).
Proof.
  intros d. pose proof (run_db_ok t rs) as Hok. fold d in Hok.
  split; apply Hok.
Qed.

(** ** The menu *)

Section Menu.

Implicit Types (d : DB) (w : World) (u : UserModel) (m : MenuItemModel).

Lemma find_key_replace_same {A} (f : A → string) (new : A) k (l : list A) old :
  f new = k →
  find (λ v, bool_decide (f v = k)) l = Some old →
  find (λ v, bool_decide (f v = k))
    (map (λ v, if bool_decide (f v = k) then new else v) l) = Some new.
Proof.
  intros Hk. induction l as [|y l IH]; simpl; [done|].
  destruct (bool_decide (f y = k)) eqn:Hy.
  - intros _. by rewrite bool_decide_eq_true_2.
  - rewrite Hy. apply IH.
Qed.

Lemma find_key_replace_other {A} (f : A → string) (new : A) k (l : list A) x :
  f new = k → x ≠ k →
  find (λ v, bool_decide (f v = x))
    (map (λ v, if bool_decide (f v = k) then new else v) l)
  = find (λ v, bool_decide (f v = x)) l.
Proof.
  intros Hk Hx. induction l as [|y l IH]; simpl; [done|].
  destruct (bool_decide (f y = k)) eqn:Hy.
  - apply bool_decide_eq_true in Hy.
    rewrite !bool_decide_eq_false_2 by congruence. apply IH.
  - destruct (bool_decide (f y = x)); [done|apply IH].
Qed.

Lemma find_key_filter_same {A} (f : A → string) k (l : list A) :
  find (λ v, bool_decide (f v = k)) (filter (λ v, f v ≠ k) l) = None.
Proof.
  apply find_none_fmap. intros (v & Hv & [Hne _]%list_elem_of_filter)%list_elem_of_fmap.
  done.
Qed.

Lemma find_key_filter_other {A} (f : A → string) k (l : list A) x :
  x ≠ k →
  find (λ v, bool_decide (f v = x)) (filter (λ v, f v ≠ k) l)
  = find (λ v, bool_decide (f v = x)) l.
Proof.
  intros Hx. induction l as [|y l IH]; [done|].
  destruct (decide (f y = k)) as [Hy|Hy].
  - rewrite filter_cons_False by (by intros ?). cbn [find].
    rewrite bool_decide_eq_false_2 by congruence. apply IH.
  - rewrite filter_cons_True by done. cbn [find]. by rewrite IH.
Qed.

Lemma check_role_has_user r tok w u :
  check_role r tok w = (inr u, w) → has_user (db w) (u_id u) = true.
Proof.
  intros (_ & Hau & _)%check_role_inr.
  apply get_current_active_user_inr in Hau as (_ & Hq & _).
  by eapply query_user_has_user.
Qed.

Lemma query_menu_item_existsb d x :
  existsb (λ v, bool_decide (mi_id v = x)) (menu_items d)
  = bool_decide (is_Some (query_menu_item d x)).
Proof.
  unfold query_menu_item. induction (menu_items d) as [|y l IH]; cbn [existsb find].
  - rewrite bool_decide_eq_false_2; [done|]. by intros [? ?].
  - destruct (bool_decide (mi_id y = x)); cbn [orb]; [|done].
    by rewrite bool_decide_eq_true_2.
Qed.

Lemma create_menu_item_eq tok menu_item item_id w u :
  check_role RESTAURANT tok w = (inr u, w) →
  create_menu_item tok menu_item item_id w =
    let row := {| mi_id := item_id; mi_restaurant_id := u_id u;
                  mi_name := name menu_item;
                  mi_description := description menu_item;
                  mi_price := price menu_item;
                  mi_is_available := is_available menu_item |} in
    if bool_decide (is_Some (query_menu_item (db w) item_id))
    then (inl IntegrityError, w)
    else (inr row, {| db := with_menu_items (db w) (menu_items (db w) ++ [row]);
                      manager := manager w; sent := sent w |}).
Proof.
  intros Hu. unfold create_menu_item. unfold mbind at 1, M_bind at 1.
  rewrite Hu. munfold. rewrite add_menu_item_spec.
  cbn [mi_id mi_restaurant_id]. rewrite (check_role_has_user _ _ _ _ Hu).
  rewrite query_menu_item_existsb, orb_false_r. by case_bool_decide.
Qed.

Lemma update_menu_item_eq tok item_id menu_item w u :
  check_role RESTAURANT tok w = (inr u, w) →
  update_menu_item tok item_id menu_item w =
    match query_menu_item (db w) item_id with
    | None => (inl (HTTPException 404 Menu_item_not_found), w)
    | Some old =>
        let row := {| mi_id := mi_id old; mi_restaurant_id := mi_restaurant_id old;
                      mi_name := name menu_item;
                      mi_description := description menu_item;
                      mi_price := price menu_item;
                      mi_is_available := is_available menu_item |} in
        if bool_decide (mi_restaurant_id old ≠ u_id u) && bool_decide (u_role u ≠ ADMIN)
        then (inl (HTTPException 403 Not_authorized_to_update_this_menu_item), w)
        else (inr row,
              {| db := with_menu_items (db w)
                         (map (λ m, if bool_decide (mi_id m = item_id) then row else m)
                              (menu_items (db w)));
                 manager := manager w; sent := sent w |})
    end.
Proof.
  intros Hu. unfold update_menu_item. unfold mbind at 1, M_bind at 1.
  rewrite Hu. munfold. destruct (query_menu_item _ _) as [old|]; [|done].
  by destruct (_ && _).
Qed.

Lemma delete_menu_item_eq tok item_id w u :
  check_role RESTAURANT tok w = (inr u, w) →
  delete_menu_item tok item_id w =
    match query_menu_item (db w) item_id with
    | None => (inl (HTTPException 404 Menu_item_not_found), w)
    | Some old =>
        if bool_decide (mi_restaurant_id old ≠ u_id u) && bool_decide (u_role u ≠ ADMIN)
        then (inl (HTTPException 403 Not_authorized_to_delete_this_menu_item), w)
        else (inr tt,
              {| db := with_menu_items (db w)
                         (filter (λ m, mi_id m ≠ item_id) (menu_items (db w)));
                 manager := manager w; sent := sent w |})
    end.
Proof.
  intros Hu. unfold delete_menu_item. unfold mbind at 1, M_bind at 1.
  rewrite Hu. munfold. destruct (query_menu_item _ _) as [old|]; [|done].
  by destruct (_ && _).
Qed.

Lemma owner_check u m :
  bool_decide (mi_restaurant_id m ≠ u_id u) && bool_decide (u_role u ≠ ADMIN)
  = negb (bool_decide (mi_restaurant_id m = u_id u ∨ u_role u = ADMIN)).
Proof.
  repeat case_bool_decide; simpl; try done; exfalso; tauto.
Qed.

End Menu.

(** X10.  [create_menu_item], for a caller that passed the role check:
    when the generated id is taken the commit raises [IntegrityError] and
    nothing is stored; otherwise the item is stored at the end of the menu
    with the caller as its owner, the lookup of its id finds it, and the
    listing of a restaurant (a non-empty id) gains it exactly when that
    restaurant is the caller, while the listing without a restaurant, or
    with an empty one, shows the whole menu. *)
Theorem X10_create_menu_item_outcome (tok : string) (menu_item : MenuItemBase)
    (item_id : string) (w : World) (u : UserModel) :
  check_role RESTAURANT tok w = (inr u, w) →
  let r := create_menu_item tok menu_item item_id w in
  let row := {| mi_id := item_id; mi_restaurant_id := u_id u;
                mi_name := name menu_item;
                mi_description := description menu_item;
                mi_price := price menu_item;
                mi_is_available := is_available menu_item |} in
  (is_Some (query_menu_item (db w) item_id) → r = (inl IntegrityError, w))
  ∧ (query_menu_item (db w) item_id = None →
     r = (inr row, {| db := with_menu_items (db w) (menu_items (db w) ++ [row]);
                      manager := manager w; sent := sent w |})
     ∧ query_menu_item (db r.2) item_id = Some row
     ∧ (∀ x, truthy (Some x) = true →
          get_menu_items (db r.2) (Some x)
          = get_menu_items (db w) (Some x)
            ++ (if decide (x = u_id u) then [row] else []))
     ∧ get_menu_items (db r.2) None = menu_items (db w) ++ [row]
     ∧ get_menu_items (db r.2) (Some EmptyString) = menu_items (db w) ++ [row]).
Proof.
  intros Hu r row. subst r. rewrite (create_menu_item_eq _ _ _ _ _ Hu).
  cbn zeta. fold row. split.
  - intros H. by rewrite bool_decide_eq_true_2.
  - intros Hq. rewrite bool_decide_eq_false_2 by (rewrite Hq; by intros [? ?]).
    cbn [fst snd db]. split_and!; try done.
    + unfold query_menu_item in *. cbn [menu_items with_menu_items].
      rewrite find_app_None by done. simpl. by rewrite bool_decide_eq_true_2.
    + intros x Hx. unfold get_menu_items. rewrite Hx.
      cbn [menu_items with_menu_items default]. rewrite filter_app. f_equal.
      destruct (decide (x = u_id u)) as [->|Hne].
      * by rewrite filter_cons_True.
      * rewrite filter_cons_False; [done|]. simpl. congruence.
Qed.

Lemma X10_witness :
  query_menu_item
    (db (create_menu_item "R" Examples.burger "m2" Examples.placed).2) "m2"
  = Some {| mi_id := "m2"; mi_restaurant_id := "r1"; mi_name := "Burger";
            mi_description := "beef"; mi_price := 10%float;
            mi_is_available := true |}.
Proof.
  apply (X10_create_menu_item_outcome "R" Examples.burger "m2" Examples.placed
           MoreExamples.restaurant_R).
  - vm_compute. reflexivity.
  - vm_compute. reflexivity.
Defined.

(** X11.  [update_menu_item], for a caller that passed the role check:
    404 when no item has the id, 403 when the item belongs to another
    account and the caller is not an admin, both without a change.
    Otherwise the four fields of the request replace those of the item,
    whose id and owner stay; the lookup of the id then finds the new row,
    the lookups of the other ids find what they found, and no item is
    added or removed. *)
Theorem X11_update_menu_item_outcome (tok item_id : string)
    (menu_item : MenuItemBase) (w : World) (u : UserModel) :
  check_role RESTAURANT tok w = (inr u, w) →
  let r := update_menu_item tok item_id menu_item w in
  match query_menu_item (db w) item_id with
  | None => r = (inl (HTTPException 404 Menu_item_not_found), w)
  | Some old =>
      if decide (mi_restaurant_id old = u_id u ∨ u_role u = ADMIN)
      then
        let row := {| mi_id := mi_id old; mi_restaurant_id := mi_restaurant_id old;
                      mi_name := name menu_item;
                      mi_description := description menu_item;
                      mi_price := price menu_item;
                      mi_is_available := is_available menu_item |} in
        r.1 = inr row
        ∧ query_menu_item (db r.2) item_id = Some row
        ∧ (∀ x, x ≠ item_id →
             query_menu_item (db r.2) x = query_menu_item (db w) x)
        ∧ mi_id <$> menu_items (db r.2) = mi_id <$> menu_items (db w)
        ∧ users (db r.2) = users (db w) ∧ orders (db r.2) = orders (db w)
        ∧ payments (db r.2) = payments (db w)
        ∧ manager r.2 = manager w ∧ sent r.2 = sent w
      else r = (inl (HTTPException 403 Not_authorized_to_update_this_menu_item), w)
  end.
Proof.
  intros Hu r. subst r. rewrite (update_menu_item_eq _ _ _ _ _ Hu).
  destruct (query_menu_item (db w) item_id) as [old|] eqn:Hq; [|done].
  cbn zeta. rewrite owner_check.
  destruct (decide (mi_restaurant_id old = u_id u ∨ u_role u = ADMIN)) as [H|H].
  - rewrite bool_decide_eq_true_2 by done. cbn [negb fst snd db manager sent].
    pose proof (find_elem_of _ _ _ Hq) as [_ Hid%bool_decide_eq_true].
    split_and!; try done.
    + unfold query_menu_item in *. cbn [menu_items with_menu_items].
      by eapply (find_key_replace_same mi_id).
    + intros x Hx. unfold query_menu_item. cbn [menu_items with_menu_items].
      by apply (find_key_replace_other mi_id).
    + cbn [menu_items with_menu_items]. apply fmap_replace.
      intros x. case_bool_decide; simpl; congruence.
  - by rewrite bool_decide_eq_false_2 by done.
Qed.

Lemma X11_witness :
  update_menu_item "C" "m1" Examples.burger Examples.placed
  = (inl (HTTPException 403 (Operation_requires_role RESTAURANT)), Examples.placed)
  ∧ (mi_price <$> query_menu_item
       (db (update_menu_item "R" "m1"
              {| name := "Burger"; description := "beef"; price := 12%float;
                 is_available := true |} Examples.placed).2) "m1")
    = Some 12%float.
Proof.
  split; [vm_compute; reflexivity|].
  pose proof (X11_update_menu_item_outcome "R" "m1"
    {| name := "Burger"; description := "beef"; price := 12%float;
       is_available := true |} Examples.placed MoreExamples.restaurant_R) as H.
  cbv zeta in H.
  assert (check_role RESTAURANT "R" Examples.placed
          = (inr MoreExamples.restaurant_R, Examples.placed)) as Hu
    by (vm_compute; reflexivity).
  specialize (H Hu).
  assert (query_menu_item (db Examples.placed) "m1" = Some MoreExamples.burger_row)
    as Hq by (vm_compute; reflexivity).
  rewrite Hq in H. rewrite decide_True in H by (left; reflexivity).
  destruct H as (_ & -> & _). reflexivity.
Defined.

(** X12.  [delete_menu_item], for a caller that passed the role check: 404
    when no item has the id, 403 when the item belongs to another account
    and the caller is not an admin, both without a change.  Otherwise the
    item is gone: the lookup of its id finds nothing, the lookups of the
    other ids find what they found, and the orders that name the item, like
    all orders and payments, stay as they are. *)
Theorem X12_delete_menu_item_outcome (tok item_id : string) (w : World)
    (u : UserModel) :
  check_role RESTAURANT tok w = (inr u, w) →
  let r := delete_menu_item tok item_id w in
  match query_menu_item (db w) item_id with
  | None => r = (inl (HTTPException 404 Menu_item_not_found), w)
  | Some old =>
      if decide (mi_restaurant_id old = u_id u ∨ u_role u = ADMIN)
      then
        r.1 = inr tt
        ∧ query_menu_item (db r.2) item_id = None
        ∧ (∀ x, x ≠ item_id →
             query_menu_item (db r.2) x = query_menu_item (db w) x)
        ∧ users (db r.2) = users (db w) ∧ orders (db r.2) = orders (db w)
        ∧ payments (db r.2) = payments (db w)
        ∧ manager r.2 = manager w ∧ sent r.2 = sent w
      else r = (inl (HTTPException 403 Not_authorized_to_delete_this_menu_item), w)
  end.
Proof.
  intros Hu r. subst r. rewrite (delete_menu_item_eq _ _ _ _ Hu).
  destruct (query_menu_item (db w) item_id) as [old|] eqn:Hq; [|done].
  rewrite owner_check.
  destruct (decide (mi_restaurant_id old = u_id u ∨ u_role u = ADMIN)) as [H|H].
  - rewrite bool_decide_eq_true_2 by done. cbn [negb fst snd db manager sent].
    split_and!; try done.
    + unfold query_menu_item. cbn [menu_items with_menu_items].
      apply (find_key_filter_same mi_id).
    + intros x Hx. unfold query_menu_item. cbn [menu_items with_menu_items].
      by apply (find_key_filter_other mi_id).
  - by rewrite bool_decide_eq_false_2 by done.
Qed.

Lemma X12_witness :
  query_menu_item (db (delete_menu_item "R" "m1" Examples.placed).2) "m1" = None
  ∧ orders (db (delete_menu_item "R" "m1" Examples.placed).2)
    = orders (db Examples.placed).
Proof.
  pose proof (X12_delete_menu_item_outcome "R" "m1" Examples.placed
                MoreExamples.restaurant_R) as H.
  cbv zeta in H.
  assert (check_role RESTAURANT "R" Examples.placed
          = (inr MoreExamples.restaurant_R, Examples.placed)) as Hu
    by (vm_compute; reflexivity).
  specialize (H Hu).
  assert (query_menu_item (db Examples.placed) "m1" = Some MoreExamples.burger_row)
    as Hq by (vm_compute; reflexivity).
  rewrite Hq in H. rewrite decide_True in H by (left; reflexivity).
  destruct H as (_ & H1 & _ & _ & H2 & _). split; [exact H1|exact H2].
Defined.

(** X13.  An account with the role restaurant cannot touch the menu of
    another account: whatever item it creates, updates or deletes, an item
    owned by someone else is found afterwards as it was. *)
Theorem X13_menu_of_others_is_untouched (tok : string) (w : World)
    (u : UserModel) (x : string) (m : MenuItemModel) :
  check_role RESTAURANT tok w = (inr u, w) →
  u_role u = RESTAURANT →
  query_menu_item (db w) x = Some m →
  mi_restaurant_id m ≠ u_id u →
  (∀ b i, query_menu_item (db (handle (Create_menu_item tok b i) w)) x = Some m)
  ∧ (∀ i b, query_menu_item (db (handle (Update_menu_item tok i b) w)) x = Some m)
  ∧ (∀ i, query_menu_item (db (handle (Delete_menu_item tok i) w)) x = Some m).
Proof.
  intros Hu Hrole Hq Hown. cbn [handle]. split_and!.
  - intros b i. rewrite (create_menu_item_eq _ _ _ _ _ Hu). cbn zeta.
    case_bool_decide; [done|]. cbn [snd db].
    unfold query_menu_item in *. cbn [menu_items with_menu_items].
    by apply find_app_Some.
  - intros i b. rewrite (update_menu_item_eq _ _ _ _ _ Hu).
    destruct (query_menu_item (db w) i) as [old|] eqn:Hi; [|done].
    cbn zeta. rewrite owner_check.
    case_bool_decide as Hc; cbn [negb]; [|done]. cbn [snd db].
    destruct Hc as [Hc|Hc]; [|congruence].
    assert (x ≠ i) as Hne by (intros ->; congruence).
    pose proof (find_elem_of _ _ _ Hi) as [_ Hid%bool_decide_eq_true].
    unfold query_menu_item in *. cbn [menu_items with_menu_items].
    by rewrite (find_key_replace_other mi_id).
  - intros i. rewrite (delete_menu_item_eq _ _ _ _ Hu).
    destruct (query_menu_item (db w) i) as [old|] eqn:Hi; [|done].
    rewrite owner_check.
    case_bool_decide as Hc; cbn [negb]; [|done]. cbn [snd db].
    destruct Hc as [Hc|Hc]; [|congruence].
    assert (x ≠ i) as Hne by (intros ->; congruence).
    unfold query_menu_item in *. cbn [menu_items with_menu_items].
    by rewrite (find_key_filter_other mi_id).
Qed.

Lemma X13_witness :
  query_menu_item
    (db (handle (Delete_menu_item "S" "m1") MoreExamples.two_restaurants)) "m1"
  = Some MoreExamples.burger_row.
Proof.
  refine (proj2 (proj2 (X13_menu_of_others_is_untouched "S"
            MoreExamples.two_restaurants MoreExamples.restaurant_S "m1"
            MoreExamples.burger_row _ _ _ _)) "m1").
  - vm_compute. reflexivity.
  - reflexivity.
  - vm_compute. reflexivity.
  - vm_compute. discriminate.
Defined.

(** ** Placing an order *)

Section Placing.

Implicit Types (d : DB) (w : World) (u : UserModel) (o : OrderModel).
Implicit Types (l : list OrderItemDict).

Lemma existsb_find_none {A} (f : A → bool) (l : list A) :
  find f l = None → existsb f l = false.
Proof.
  induction l as [|y l IH]; simpl; [done|]. destruct (f y); [done|apply IH].
Qed.

Lemma validate_items_ok d R l w :
  Forall (line_of d R) l → validate_items d R l w = (inr tt, w).
Proof.
  induction 1 as [|item l (m & Hm & Hown) _ IH]; cbn [validate_items]; [done|].
  rewrite Hm. by rewrite bool_decide_eq_false_2 by (by intros ?).
Qed.

Lemma validate_items_first_bad d R l1 item l2 w :
  Forall (line_of d R) l1 →
  validate_items d R (l1 ++ item :: l2) w =
    match query_menu_item d (item_id item) with
    | None => (inl (HTTPException 404 (Menu_item_id_not_found (item_id item))), w)
    | Some m =>
        if bool_decide (mi_restaurant_id m ≠ R)
        then (inl (HTTPException 400 (Menu_item_does_not_belong (item_id item))), w)
        else validate_items d R l2 w
    end.
Proof.
  induction 1 as [|item' l (m & Hm & Hown) _ IH]; cbn [validate_items app].
  - destruct (query_menu_item _ _); [|done]. by destruct (bool_decide _).
  - rewrite Hm. by rewrite bool_decide_eq_false_2 by (by intros ?).
Qed.

Lemma query_restaurant_has_user d x restaurant :
  query_restaurant d x = Some restaurant → has_user d x = true.
Proof.
  intros [Hin [Hid _]%andb_true_iff]%find_some.
  apply existsb_exists. by exists restaurant.
Qed.

(** [create_order] up to the commit of the order, for a caller that passed
    the role check. *)
Lemma create_order_eq tok order order_id payment_id now w u :
  check_role CUSTOMER tok w = (inr u, w) →
  create_order tok order order_id payment_id now w =
    match query_restaurant (db w) (restaurant_id order) with
    | None => (inl (HTTPException 404 Restaurant_not_found), w)
    | Some _ =>
        match validate_items (db w) (restaurant_id order) (items order) w with
        | (inl e, _) => (inl e, w)
        | (inr _, _) =>
            match calculate_order_total (db w) (items order) with
            | inl e => (inl e, w)
            | inr total_amount =>
                let o := new_order u order order_id total_amount now in
                if bool_decide (is_Some (query_order (db w) order_id))
                then (inl IntegrityError, w)
                else
                  let w1 := {| db := with_orders (db w) (orders (db w) ++ [o]);
                               manager := manager w; sent := sent w |} in
                  match process_payment order_id total_amount payment_id w1 with
                  | (inl e, w2) => (inl e, w2)
                  | (inr _, w2) =>
                      (inr o,
                       {| db := db w2; manager := manager w2;
                          sent := sent w2
                                  ++ send_to (registered (manager w2)
                                                (restaurant_id order) "all")
                                       (New_order order_id (u_id u) total_amount now) |})
                  end
            end
        end
    end.
Proof.
  intros Hu. unfold create_order. unfold mbind at 1, M_bind at 1. rewrite Hu.
  unfold mbind at 1, M_bind at 1, get_db at 1. cbn beta iota.
  fold (query_restaurant (db w) (restaurant_id order)).
  destruct (query_restaurant _ _) as [restaurant|] eqn:Hr; [|done].
  unfold mbind at 1, M_bind at 1.
  pose proof (validate_items_world (db w) (restaurant_id order) (items order) w) as Hw.
  destruct (validate_items _ _ _ w) as [[e|[]] w0]; simpl in Hw; subst w0; [done|].
  destruct (calculate_order_total _ _) as [e|total_amount]; [done|].
  fold (new_order u order order_id total_amount now).
  unfold mbind at 1, M_bind at 1. rewrite add_order_spec.
  cbn [o_id o_customer_id o_restaurant_id o_delivery_agent_id new_order
       fk_user_or_null negb].
  rewrite (check_role_has_user _ _ _ _ Hu).
  rewrite (query_restaurant_has_user _ _ _ Hr). cbn [negb]. rewrite !orb_false_r.
  assert (existsb (λ v, bool_decide (o_id v = order_id)) (orders (db w))
          = bool_decide (is_Some (query_order (db w) order_id))) as ->.
  { unfold query_order. induction (orders (db w)) as [|y l IH]; cbn [existsb find].
    - rewrite bool_decide_eq_false_2; [done|]. by intros [? ?].
    - destruct (bool_decide (o_id y = order_id)); cbn [orb]; [|done].
      by rewrite bool_decide_eq_true_2. }
  case_bool_decide; [done|]. cbn zeta.
  unfold mbind at 1, M_bind at 1.
  destruct (process_payment _ _ _ _) as [[e|p] w2]; [done|].
  munfold. cbn [db manager sent]. do 2 f_equal.
  unfold broadcast_to_restaurant, registered, scope_entry. cbn [o_restaurant_id
    o_id o_customer_id o_total_amount o_created_at new_order].
  destruct (manager w2 !! restaurant_id order) as [by_user|]; simpl; [|done].
  by destruct (by_user !! "all").
Qed.

Lemma create_order_accepted tok order order_id payment_id now w u restaurant total :
  check_role CUSTOMER tok w = (inr u, w) →
  query_restaurant (db w) (restaurant_id order) = Some restaurant →
  Forall (line_of (db w) (restaurant_id order)) (items order) →
  calculate_order_total (db w) (items order) = inr total →
  query_order (db w) order_id = None →
  query_payment_by_order (db w) order_id = None →
  payment_id ∉ p_id <$> payments (db w) →
  let o := new_order u order order_id total now in
  let p := new_payment (db w) order_id total payment_id in
  create_order tok order order_id payment_id now w =
    (inr o,
     {| db := with_payments (with_orders (db w) (orders (db w) ++ [o]))
                (payments (db w) ++ [p]);
        manager := manager w;
        sent := sent w
                ++ send_to (registered (manager w) (restaurant_id order) "all")
                     (New_order order_id (u_id u) total now) |}).
Proof.
  intros Hu Hr Hall Ht Hfresh Hpay Hpid o p.
  rewrite (create_order_eq _ _ _ _ _ _ _ Hu), Hr, (validate_items_ok _ _ _ _ Hall), Ht.
  rewrite bool_decide_eq_false_2 by (rewrite Hfresh; by intros [? ?]).
  cbn zeta. rewrite process_payment_spec. cbn zeta. cbn [db orders payments with_orders].
  assert (existsb (λ v, bool_decide (p_id v = payment_id)
                        || bool_decide (p_order_id v = order_id)) (payments (db w))
          = false) as ->.
  { apply not_true_is_false. intros (v & Hv & Hc)%existsb_exists.
    apply list_elem_of_In in Hv.
    apply orb_true_iff in Hc as [Hc|Hc]; apply bool_decide_eq_true in Hc.
    - apply Hpid. rewrite <- Hc. by apply list_elem_of_fmap_2.
    - unfold query_payment_by_order in Hpay.
      pose proof (find_none _ _ Hpay v) as Hn. cbv beta in Hn.
      rewrite bool_decide_eq_true_2 in Hn by done.
      specialize (Hn (proj1 (list_elem_of_In _ _) Hv)). discriminate Hn. }
  rewrite existsb_app. simpl. rewrite bool_decide_eq_true_2 by done.
  rewrite orb_true_r. reflexivity.
Qed.

End Placing.

(** X14.  [create_order], for a caller that passed the role check, refuses
    without storing or sending anything: with 404 "Restaurant not found"
    when no account has the id of the request together with the role
    restaurant; else, at the first line that is not a line of that
    restaurant's menu, with 404 when no menu item has its id and with 400
    when the item belongs to another account; else with [OverflowError]
    when a quantity is too large for a float. *)
Theorem X14_create_order_refusals (tok : string) (order : OrderCreate)
    (order_id payment_id : string) (now : Z) (w : World) (u : UserModel) :
  check_role CUSTOMER tok w = (inr u, w) →
  let r := create_order tok order order_id payment_id now w in
  (query_restaurant (db w) (restaurant_id order) = None →
     r = (inl (HTTPException 404 Restaurant_not_found), w))
  ∧ (is_Some (query_restaurant (db w) (restaurant_id order)) →
     ∀ l1 item l2,
       items order = l1 ++ item :: l2 →
       Forall (line_of (db w) (restaurant_id order)) l1 →
       (query_menu_item (db w) (item_id item) = None →
          r = (inl (HTTPException 404 (Menu_item_id_not_found (item_id item))), w))
       ∧ (∀ m, query_menu_item (db w) (item_id item) = Some m →
               mi_restaurant_id m ≠ restaurant_id order →
               r = (inl (HTTPException 400
                           (Menu_item_does_not_belong (item_id item))), w)))
  ∧ (is_Some (query_restaurant (db w) (restaurant_id order)) →
     Forall (line_of (db w) (restaurant_id order)) (items order) →
     (∃ item, item ∈ items order
              ∧ float_of_int (quantity item) = inl OverflowError) →
     r = (inl OverflowError, w)).
Proof.
  intros Hu r. subst r. rewrite (create_order_eq _ _ _ _ _ _ _ Hu). split_and!.
  - by intros ->.
  - intros [restaurant ->] l1 item l2 -> Hall.
    rewrite (validate_items_first_bad _ _ _ _ _ _ Hall). split.
    + by intros ->.
    + intros m -> Hown. by rewrite bool_decide_eq_true_2.
  - intros [restaurant ->] Hall (item & Hin & Hq).
    rewrite (validate_items_ok _ _ _ _ Hall).
    assert (calculate_order_total (db w) (items order) = inl OverflowError) as ->;
      [|done].
    apply calculate_order_total_from_inl. split; [done|].
    exists item. split; [|done]. unfold known_items.
    apply list_elem_of_filter. split; [|done].
    rewrite Forall_forall in Hall. destruct (Hall item Hin) as (m & Hm & _).
    by rewrite Hm.
Qed.

Lemma X14_witness :
  create_order "C"
    {| restaurant_id := "r1";
       items := [ {| item_id := "m1"; quantity := 1 |};
                  {| item_id := "m7"; quantity := 1 |} ] |}
    "o2" "p2" 105 Examples.placed
  = (inl (HTTPException 404 (Menu_item_id_not_found "m7")), Examples.placed).
Proof.
  refine (proj1 (proj1 (proj2 (X14_create_order_refusals "C"
            {| restaurant_id := "r1";
               items := [ {| item_id := "m1"; quantity := 1 |};
                          {| item_id := "m7"; quantity := 1 |} ] |}
            "o2" "p2" 105 Examples.placed Examples.customer_C _)) _
            [ {| item_id := "m1"; quantity := 1 |} ]
            {| item_id := "m7"; quantity := 1 |} [] _ _) _).
  - vm_compute. reflexivity.
  - vm_compute. by eexists.
  - reflexivity.
  - apply Forall_singleton. exists MoreExamples.burger_row.
    split; vm_compute; reflexivity.
  - vm_compute. reflexivity.
Defined.

(** X15.  [create_order], for a caller that passed the role check, goes
    through when the restaurant exists, every line names an item of its
    menu (available or not, whatever the sign of the quantity), the total
    does not overflow, and the two generated ids are new.  It then stores
    the order as placed, with the caller as its customer and no delivery
    agent, stores the payment of the total, and sends one "new order"
    event to every socket the restaurant has under "all", and to no other
    socket. *)
Theorem X15_create_order_outcome (tok : string) (order : OrderCreate)
    (order_id payment_id : string) (now : Z) (w : World)
    (u restaurant : UserModel) (total : float) :
  check_role CUSTOMER tok w = (inr u, w) →
  query_restaurant (db w) (restaurant_id order) = Some restaurant →
  Forall (line_of (db w) (restaurant_id order)) (items order) →
  calculate_order_total (db w) (items order) = inr total →
  query_order (db w) order_id = None →
  query_payment_by_order (db w) order_id = None →
  payment_id ∉ p_id <$> payments (db w) →
  let o := new_order u order order_id total now in
  let p := new_payment (db w) order_id total payment_id in
  create_order tok order order_id payment_id now w =
    (inr o,
     {| db := with_payments (with_orders (db w) (orders (db w) ++ [o]))
                (payments (db w) ++ [p]);
        manager := manager w;
        sent := sent w
                ++ send_to (registered (manager w) (restaurant_id order) "all")
                     (New_order order_id (u_id u) total now) |}).
Proof. apply create_order_accepted. Qed.

Lemma X15_witness :
  create_order "C" Examples.two_burgers "o1" "p1" 100 MoreExamples.menu_ready
  = (inr (new_order Examples.customer_C Examples.two_burgers "o1" 20%float 100),
     {| db := with_payments
                (with_orders (db MoreExamples.menu_ready)
                   [new_order Examples.customer_C Examples.two_burgers "o1"
                      20%float 100])
                [new_payment (db MoreExamples.menu_ready) "o1" 20%float "p1"];
        manager := ∅;
        sent := [] |}).
Proof.
  apply (X15_create_order_outcome "C" Examples.two_burgers "o1" "p1" 100
           MoreExamples.menu_ready Examples.customer_C MoreExamples.restaurant_R
           20%float).
  - vm_compute. reflexivity.
  - vm_compute. reflexivity.
  - apply Forall_singleton. exists MoreExamples.burger_row.
    split; vm_compute; reflexivity.
  - vm_compute. reflexivity.
  - vm_compute. reflexivity.
  - vm_compute. reflexivity.
  - vm_compute. intros H. by apply elem_of_nil in H.
Defined.

(** X16.  An order without lines is not refused: for a caller that passed
    the role check and an existing restaurant, [create_order] stores an
    order of total zero and a payment of zero with both shares zero. *)
Theorem X16_empty_order_is_accepted (tok : string) (order : OrderCreate)
    (order_id payment_id : string) (now : Z) (w : World)
    (u restaurant : UserModel) :
  check_role CUSTOMER tok w = (inr u, w) →
  query_restaurant (db w) (restaurant_id order) = Some restaurant →
  items order = [] →
  query_order (db w) order_id = None →
  query_payment_by_order (db w) order_id = None →
  payment_id ∉ p_id <$> payments (db w) →
  let r := create_order tok order order_id payment_id now w in
  r.1 = inr (new_order u order order_id 0%float now)
  ∧ query_order (db r.2) order_id = Some (new_order u order order_id 0%float now)
  ∧ query_payment_by_order (db r.2) order_id
    = Some {| p_id := payment_id; p_order_id := order_id; p_amount := 0%float;
              p_restaurant_share := 0%float; p_delivery_fee := 0%float;
              p_status := "completed"; p_created_at := import_time (db w) |}.
Proof.
  intros Hu Hr Hitems Hfresh Hpay Hpid r. subst r.
  rewrite (create_order_accepted tok order order_id payment_id now w u restaurant
             0%float); try done.
  - cbn [fst snd db]. split_and!; [done|..].
    + apply (query_order_placed (db w) (new_order u order order_id 0%float now)).
      cbn [o_id new_order]. apply existsb_find_none, Hfresh.
    + unfold query_payment_by_order in *. cbn [payments with_payments with_orders].
      rewrite find_app_None by done. simpl. by rewrite bool_decide_eq_true_2.
  - rewrite Hitems. constructor.
  - by rewrite Hitems.
Qed.

Lemma X16_witness :
  (create_order "C" {| restaurant_id := "r1"; items := [] |} "o2" "p2" 105
     Examples.placed).1
  = inr (new_order Examples.customer_C {| restaurant_id := "r1"; items := [] |}
           "o2" 0%float 105).
Proof.
  apply (X16_empty_order_is_accepted "C" {| restaurant_id := "r1"; items := [] |}
           "o2" "p2" 105 Examples.placed Examples.customer_C
           MoreExamples.restaurant_R).
  - vm_compute. reflexivity.
  - vm_compute. reflexivity.
  - reflexivity.
  - vm_compute. reflexivity.
  - vm_compute. reflexivity.
  - vm_compute. intros H.
    apply list_elem_of_singleton in H. discriminate H.
Defined.

(** ** The life of an order *)

Section Life.

Implicit Types (d : DB) (w : World) (u : UserModel) (o : OrderModel).
Implicit Types (tok : string) (rs : list request).

Lemma kept_refl o : kept o o.
Proof. split_and!; [apply evolves_refl|by left|done]. Qed.

Lemma kept_trans o1 o2 o3 : kept o1 o2 → kept o2 o3 → kept o1 o3.
Proof.
  intros (He1 & Hs1 & Ha1) (He2 & Hs2 & Ha2). split_and!.
  - by eapply evolves_trans.
  - destruct Hs1 as [->|Hs1]; [done|]. destruct Hs2 as [->|Hs2]; [by right|].
    right. lia.
  - auto.
Qed.

Lemma updated_order_kept o order_update now :
  status order_update ∈ valid_transitions (o_status o) →
  kept o (updated_order o order_update now).
Proof.
  intros Hv. split_and!.
  - by apply updated_order_evolves.
  - right. apply valid_transitions_rank in Hv. simpl. lia.
  - simpl. intros Ha.
    by destruct (truthy (delivery_agent_id order_update)) eqn:Ht.
Qed.

Lemma db_step_order_kept d d' x o :
  db_step d d' → query_order d x = Some o →
  ∃ o', query_order d' x = Some o' ∧ kept o o'.
Proof.
  intros Hstep Hq. destruct Hstep as [l|l|o1 Hfresh|y order upd now Hy Hv|o1 p].
  - exists o. split; [done|apply kept_refl].
  - exists o. split; [done|apply kept_refl].
  - exists o. split; [|apply kept_refl].
    unfold query_order in *. simpl. by apply find_app_Some.
  - destruct (decide (x = y)) as [->|Hne].
    + rewrite Hy in Hq. injection Hq as ->.
      exists (updated_order o upd now). split.
      * unfold query_order in *. simpl. eapply find_replace_same; [|done].
        simpl. by eapply query_order_id.
      * by apply updated_order_kept.
    + exists o. split; [|apply kept_refl].
      unfold query_order in *. simpl. rewrite find_replace_other; try done.
      simpl. by eapply (query_order_id d).
  - exists o. split; [done|apply kept_refl].
Qed.

Lemma db_steps_order_kept d d' x o :
  rtc db_step d d' → query_order d x = Some o →
  ∃ o', query_order d' x = Some o' ∧ kept o o'.
Proof.
  intros Hsteps. revert o. induction Hsteps as [d|d d1 d2 H1 _ IH]; intros o Hq.
  - exists o. split; [done|apply kept_refl].
  - destruct (db_step_order_kept _ _ _ _ H1 Hq) as (o1 & Hq1 & Hk1).
    destruct (IH o1 Hq1) as (o2 & Hq2 & Hk2).
    exists o2. split; [done|]. by eapply kept_trans.
Qed.

Lemma get_current_active_user_cases tok w :
  (∃ c dt, get_current_active_user tok w = (inl (HTTPException c dt), w))
  ∨ (∃ u, get_current_active_user tok w = (inr u, w)).
Proof.
  rewrite get_current_active_user_spec.
  destruct (query_user_by_username _ _) as [u|]; [|left; by eexists _, _].
  destruct (u_disabled u); [left; by eexists _, _|right; by eexists].
Qed.

Lemma update_order_status_no_order tok order_id order_update now w :
  query_order (db w) order_id = None →
  ∃ c dt, update_order_status tok order_id order_update now w
          = (inl (HTTPException c dt), w).
Proof.
  intros Hq. unfold update_order_status. unfold mbind at 1, M_bind at 1.
  destruct (get_current_active_user_cases tok w) as [(c & dt & ->)|(u & ->)];
    [by eexists _, _|].
  munfold. rewrite Hq. by eexists _, _.
Qed.

Lemma update_order_status_no_user tok order_id order_update now w c dt :
  get_current_active_user tok w = (inl (HTTPException c dt), w) →
  update_order_status tok order_id order_update now w = (inl (HTTPException c dt), w).
Proof.
  intros Hu. unfold update_order_status. unfold mbind at 1, M_bind at 1.
  by rewrite Hu.
Qed.

(** The notifications of a committed update: the parties are told, the
    broadcast sends nothing and raises when anyone is connected. *)
Lemma notifications_eq (conns : registry) o :
  notifications conns o =
    (party_sends conns o,
     if bool_decide (o_status o = ASSIGNED) && negb (truthy (o_delivery_agent_id o))
        && negb (bool_decide (conns = ∅))
     then Some AttributeError else None).
Proof.
  unfold notifications, party_sends.
  destruct (bool_decide (o_status o = ASSIGNED) && negb (truthy _)); [|done].
  cbn [andb]. case_bool_decide as Hc; cbn [negb].
  - subst conns. unfold broadcast_to_delivery_agents. rewrite map_to_list_empty.
    cbn. by rewrite app_nil_r.
  - rewrite broadcast_to_delivery_agents_raises by done. by rewrite app_nil_r.
Qed.

Lemma party_sends_deliveries (conns : registry) o (C : WebSocket) :
  deliveries C (party_sends conns o) =
    (occurrences C (registered conns (o_customer_id o) (o_id o))
     + occurrences C (registered conns (o_customer_id o) "all")
     + (occurrences C (registered conns (o_restaurant_id o) (o_id o))
        + occurrences C (registered conns (o_restaurant_id o) "all"))
     + (if truthy (o_delivery_agent_id o)
        then occurrences C (registered conns
                              (default EmptyString (o_delivery_agent_id o)) (o_id o))
             + occurrences C (registered conns
                                (default EmptyString (o_delivery_agent_id o)) "all")
        else 0))%nat.
Proof.
  unfold party_sends. rewrite !deliveries_app, !send_order_update_deliveries.
  destruct (truthy _); rewrite ?send_order_update_deliveries.
  - lia.
  - change (deliveries C []) with 0%nat. lia.
Qed.

Lemma party_sends_message (conns : registry) o :
  Forall (λ s : send, s.2 = Order_update (o_id o) (o_status o) (o_updated_at o))
    (party_sends conns o).
Proof.
  unfold party_sends. rewrite !Forall_app. split_and!;
    try apply send_order_update_message.
  destruct (truthy _); [apply send_order_update_message|constructor].
Qed.

End Life.

(** X17.  A delivered order is final: whatever requests follow, the lookup
    of its id finds the very same row. *)
Theorem X17_delivered_order_is_final (w : World) (rs : list request)
    (x : string) (o : OrderModel) :
  query_order (db w) x = Some o →
  o_status o = DELIVERED →
  query_order (db (run w rs)) x = Some o.
Proof.
  intros Hq Hs.
  destruct (db_steps_order_kept _ _ _ _ (run_db_steps w rs) Hq)
    as (o' & Hq' & _ & [->|Hlt] & _); [done|].
  rewrite Hs in Hlt. destruct (o_status o'); simpl in Hlt; lia.
Qed.

Lemma X17_witness :
  query_order
    (db (run MoreExamples.delivered
           [ Update_order_status "R" "o1" (Examples.to_status ACCEPTED) 105;
             Delete_menu_item "R" "m1" ])) "o1"
  = Some MoreExamples.order_delivered.
Proof.
  apply (X17_delivered_order_is_final MoreExamples.delivered
           [ Update_order_status "R" "o1" (Examples.to_status ACCEPTED) 105;
             Delete_menu_item "R" "m1" ] "o1" MoreExamples.order_delivered).
  - vm_compute. reflexivity.
  - reflexivity.
Defined.

(** X18.  No request removes an order or rewrites it: after any run of
    requests the order is found under its id with the same customer,
    restaurant, lines and creation time, it is the same row unless its
    status has advanced, and a delivery agent once attached is never
    detached. *)
Theorem X18_order_is_kept (w : World) (rs : list request) (x : string)
    (o : OrderModel) :
  query_order (db w) x = Some o →
  ∃ o', query_order (db (run w rs)) x = Some o'
        ∧ o_id o' = x
        ∧ o_customer_id o' = o_customer_id o
        ∧ o_restaurant_id o' = o_restaurant_id o
        ∧ o_items o' = o_items o
        ∧ o_created_at o' = o_created_at o
        ∧ (o' = o ∨ (rank (o_status o) < rank (o_status o'))%nat)
        ∧ (truthy (o_delivery_agent_id o) = true →
           truthy (o_delivery_agent_id o') = true).
Proof.
  intros Hq.
  destruct (db_steps_order_kept _ _ _ _ (run_db_steps w rs) Hq)
    as (o' & Hq' & (Hid & Hc & Hr & Hi & _ & Hcr & _) & Hs & Ha).
  exists o'. split_and!; try done. by eapply query_order_id.
Qed.

Lemma X18_witness :
  ∃ o', query_order (db MoreExamples.delivered) "o1" = Some o'
        ∧ o_customer_id o' = "c1" ∧ o_restaurant_id o' = "r1".
Proof.
  destruct (X18_order_is_kept Examples.assigned_to_A
              [ Update_order_status "A" "o1" (Examples.to_status PICKED_UP) 103;
                Update_order_status "A" "o1" (Examples.to_status DELIVERED) 104 ]
              "o1" Examples.order_of_A)
    as (o' & Hq & _ & Hc & Hr & _).
  - vm_compute. reflexivity.
  - exists o'. split_and!; [exact Hq|exact Hc|exact Hr].
Defined.

(** X19.  Who may ask for a status update of an existing order: a
    customer never (403, nothing changes); a restaurant only for its own
    orders and only towards accepted or assigned_to_delivery (403
    otherwise); an admin always.  Restaurants and admins pass the request
    body on as it is, the delivery agent named in it included. *)
Theorem X19_who_may_update (tok x : string) (order_update : OrderUpdate)
    (now : Z) (w : World) (u : UserModel) (o : OrderModel) :
  get_current_active_user tok w = (inr u, w) →
  query_order (db w) x = Some o →
  let r := update_order_status tok x order_update now w in
  let refused :=
    (inl (HTTPException 403 Not_authorized_to_update_this_order_status), w) in
  (u_role u = CUSTOMER → r = refused)
  ∧ (u_role u = RESTAURANT →
     o_restaurant_id o ≠ u_id u ∨ status order_update ∉ [ACCEPTED; ASSIGNED] →
     r = refused)
  ∧ (u_role u = RESTAURANT →
     o_restaurant_id o = u_id u → status order_update ∈ [ACCEPTED; ASSIGNED] →
     authorize u o order_update = (true, order_update))
  ∧ (u_role u = ADMIN → authorize u o order_update = (true, order_update)).
Proof.
  intros Hu Hq r refused. subst r refused.
  rewrite (update_order_status_eq _ _ _ _ _ _ _ Hu Hq). split_and!.
  - intros Hrole. unfold authorize. rewrite Hrole. done.
  - intros Hrole Hno. unfold authorize. rewrite Hrole. cbn [andb bool_decide].
    rewrite (bool_decide_eq_true_2 (RESTAURANT = RESTAURANT)) by done.
    rewrite (bool_decide_eq_false_2 (RESTAURANT = ADMIN)) by done.
    rewrite (bool_decide_eq_false_2 (RESTAURANT = DELIVERY_AGENT)) by done.
    cbn [andb]. destruct Hno as [Hno|Hno].
    + by rewrite (bool_decide_eq_false_2 (o_restaurant_id o = u_id u)) by done.
    + rewrite (bool_decide_eq_false_2 (status order_update ∈ _)) by done.
      by case_bool_decide.
  - intros Hrole Hown Hst. unfold authorize. rewrite Hrole.
    rewrite (bool_decide_eq_true_2 (RESTAURANT = RESTAURANT)) by done.
    rewrite (bool_decide_eq_false_2 (RESTAURANT = ADMIN)) by done.
    rewrite (bool_decide_eq_true_2 (o_restaurant_id o = u_id u)) by done.
    by rewrite (bool_decide_eq_true_2 (status order_update ∈ _)) by done.
  - intros Hrole. unfold authorize. rewrite Hrole. done.
Qed.

Lemma X19_witness :
  update_order_status "C" "o1" (Examples.to_status ACCEPTED) 101 Examples.placed
  = (inl (HTTPException 403 Not_authorized_to_update_this_order_status),
     Examples.placed).
Proof.
  refine (proj1 (X19_who_may_update "C" "o1" (Examples.to_status ACCEPTED) 101
                   Examples.placed Examples.customer_C
                   (new_order Examples.customer_C Examples.two_burgers "o1"
                      20%float 100) _ _) _).
  - vm_compute. reflexivity.
  - vm_compute. reflexivity.
  - reflexivity.
Defined.

(** An authorized update along the chain: what is stored, what is sent,
    and how the request ends. *)
Lemma update_order_status_committed (tok x : string)
    (order_update : OrderUpdate) (now : Z) (w : World) (u : UserModel)
    (o : OrderModel) :
  get_current_active_user tok w = (inr u, w) →
  query_order (db w) x = Some o →
  (authorize u o order_update).1 = true →
  status order_update ∈ valid_transitions (o_status o) →
  (truthy (delivery_agent_id (authorize u o order_update).2) = true →
   fk_user_or_null (db w) (delivery_agent_id (authorize u o order_update).2) = true) →
  let r := update_order_status tok x order_update now w in
  let o' := updated_order o (authorize u o order_update).2 now in
  query_order (db r.2) x = Some o'
  ∧ manager r.2 = manager w
  ∧ sent r.2 = sent w ++ party_sends (manager w) o'
  ∧ Forall (λ s : send, s.2 = Order_update x (status order_update) now)
      (party_sends (manager w) o')
  ∧ (∀ C, deliveries C (party_sends (manager w) o') =
       (occurrences C (registered (manager w) (o_customer_id o) x)
        + occurrences C (registered (manager w) (o_customer_id o) "all")
        + (occurrences C (registered (manager w) (o_restaurant_id o) x)
           + occurrences C (registered (manager w) (o_restaurant_id o) "all"))
        + (if truthy (o_delivery_agent_id o')
           then occurrences C
                  (registered (manager w)
                     (default EmptyString (o_delivery_agent_id o')) x)
                + occurrences C
                    (registered (manager w)
                       (default EmptyString (o_delivery_agent_id o')) "all")
           else 0))%nat)
  ∧ r.1 = (if decide (status order_update = ASSIGNED
                      ∧ truthy (o_delivery_agent_id o') = false
                      ∧ manager w ≠ ∅)
           then inl AttributeError else inr o').
Proof.
  intros Hu Hq Hauth Hv Hfk r o'. subst r.
  rewrite (update_order_status_eq _ _ _ _ _ _ _ Hu Hq).
  pose proof (authorize_status u o order_update) as Hs.
  pose proof (query_order_id _ _ _ Hq) as Hid.
  destruct (authorize u o order_update) as [authorized upd'] eqn:Ha.
  cbn [fst snd] in *. subst authorized. cbn [negb].
  rewrite bool_decide_eq_false_2 by (by intros ?).
  assert (negb (truthy (delivery_agent_id upd'))
          || fk_user_or_null (db w) (delivery_agent_id upd') = true) as ->.
  { destruct (truthy (delivery_agent_id upd')); [by apply Hfk|done]. }
  cbn zeta. fold o'. rewrite notifications_eq.
  assert (o_id o' = x ∧ o_status o' = status order_update ∧ o_updated_at o' = now
          ∧ o_customer_id o' = o_customer_id o
          ∧ o_restaurant_id o' = o_restaurant_id o) as (Hid' & Hst' & Hup' & Hc' & Hr').
  { subst o'. by split_and!. }
  cbn [fst snd db manager sent]. split_and!; try done.
  - unfold query_order in *. cbn [orders with_orders].
    by eapply find_replace_same.
  - pose proof (party_sends_message (manager w) o') as H.
    by rewrite Hid', Hst', Hup' in H.
  - intros C. rewrite party_sends_deliveries. by rewrite Hid', Hc', Hr'.
  - rewrite Hst'.
    destruct (decide (status order_update = ASSIGNED
                      ∧ truthy (o_delivery_agent_id o') = false
                      ∧ manager w ≠ ∅)) as [(H1 & H2 & H3)|Hno].
    + rewrite H2. rewrite !bool_decide_eq_true_2 by done.
      by rewrite bool_decide_eq_false_2 by done.
    + destruct (bool_decide (status order_update = ASSIGNED)) eqn:H1; [|done].
      apply bool_decide_eq_true in H1.
      destruct (truthy (o_delivery_agent_id o')) eqn:H2; [done|].
      case_bool_decide as H3; [done|]. exfalso. by apply Hno.
Qed.

(** X20.  An authorized status update to the next status on the chain,
    whose delivery agent (if one is named) is an account, is committed and
    told to the parties: every socket of the customer, of the restaurant
    and of the attached agent, under the order and under "all", receives
    the "order update" event once per registration, and nothing else is
    sent, no "order available" event in particular.  The request then ends
    in [AttributeError] exactly when the order has become
    assigned_to_delivery with no agent attached while the registry is not
    empty; otherwise it returns the updated order. *)
Theorem X20_update_order_status_outcome (tok x : string)
    (order_update : OrderUpdate) (now : Z) (w : World) (u : UserModel)
    (o : OrderModel) :
  get_current_active_user tok w = (inr u, w) →
  query_order (db w) x = Some o →
  (authorize u o order_update).1 = true →
  status order_update ∈ valid_transitions (o_status o) →
  (truthy (delivery_agent_id (authorize u o order_update).2) = true →
   fk_user_or_null (db w) (delivery_agent_id (authorize u o order_update).2) = true) →
  let r := update_order_status tok x order_update now w in
  let o' := updated_order o (authorize u o order_update).2 now in
  query_order (db r.2) x = Some o'
  ∧ manager r.2 = manager w
  ∧ sent r.2 = sent w ++ party_sends (manager w) o'
  ∧ Forall (λ s : send, s.2 = Order_update x (status order_update) now)
      (party_sends (manager w) o')
  ∧ (∀ C, deliveries C (party_sends (manager w) o') =
       (occurrences C (registered (manager w) (o_customer_id o) x)
        + occurrences C (registered (manager w) (o_customer_id o) "all")
        + (occurrences C (registered (manager w) (o_restaurant_id o) x)
           + occurrences C (registered (manager w) (o_restaurant_id o) "all"))
        + (if truthy (o_delivery_agent_id o')
           then occurrences C
                  (registered (manager w)
                     (default EmptyString (o_delivery_agent_id o')) x)
                + occurrences C
                    (registered (manager w)
                       (default EmptyString (o_delivery_agent_id o')) "all")
           else 0))%nat)
  ∧ r.1 = (if decide (status order_update = ASSIGNED
                      ∧ truthy (o_delivery_agent_id o') = false
                      ∧ manager w ≠ ∅)
           then inl AttributeError else inr o').
Proof. apply update_order_status_committed. Qed.

Lemma X20_witness :
  (update_order_status "R" "o1" (Examples.to_status ASSIGNED) 102
     Examples.accepted).1 = inl AttributeError
  ∧ sent (update_order_status "R" "o1" (Examples.to_status ASSIGNED) 102
            Examples.accepted).2
    = sent Examples.accepted
      ++ party_sends (manager Examples.accepted)
           (updated_order MoreExamples.order_accepted
              (Examples.to_status ASSIGNED) 102).
Proof.
  pose proof (X20_update_order_status_outcome "R" "o1" (Examples.to_status ASSIGNED)
                102 Examples.accepted MoreExamples.restaurant_R
                MoreExamples.order_accepted) as H.
  assert (get_current_active_user "R" Examples.accepted
          = (inr MoreExamples.restaurant_R, Examples.accepted)) as Hu
    by (vm_compute; reflexivity).
  assert (query_order (db Examples.accepted) "o1" = Some MoreExamples.order_accepted)
    as Hq by (vm_compute; reflexivity).
  specialize (H Hu Hq eq_refl).
  assert (ASSIGNED ∈ valid_transitions ACCEPTED) as Hv by apply list_elem_of_here.
  specialize (H Hv).
  assert (truthy (delivery_agent_id
            (authorize MoreExamples.restaurant_R MoreExamples.order_accepted
               (Examples.to_status ASSIGNED)).2) = true →
          fk_user_or_null (db Examples.accepted)
            (delivery_agent_id
               (authorize MoreExamples.restaurant_R MoreExamples.order_accepted
                  (Examples.to_status ASSIGNED)).2) = true) as Hfk
    by (intros _; vm_compute; reflexivity).
  specialize (H Hfk). cbv zeta in H.
  destruct H as (_ & _ & Hsent & _ & _ & Hres). split; [|exact Hsent].
  rewrite Hres. apply decide_True. split_and!; [reflexivity|reflexivity|].
  intros Hempty. apply (f_equal (λ m : registry, m !! "a1")) in Hempty.
  vm_compute in Hempty. discriminate Hempty.
Defined.

(** X21.  A status update that raises anything but the [AttributeError] of
    the broadcast has changed nothing, neither in the tables nor in the
    registry nor in what was sent; it raises neither [ValueError] nor
    [OverflowError].  In particular an authorized update along the chain
    that names a delivery agent who is not an account ends in the
    [IntegrityError] of the commit, with the order as it was. *)
Theorem X21_failed_update_changes_nothing (tok x : string)
    (order_update : OrderUpdate) (now : Z) (w : World) :
  let r := update_order_status tok x order_update now w in
  (∀ e, r.1 = inl e → e ≠ AttributeError →
        r.2 = w ∧ e ≠ ValueError ∧ e ≠ OverflowError)
  ∧ (∀ u o a,
       get_current_active_user tok w = (inr u, w) →
       query_order (db w) x = Some o →
       (authorize u o order_update).1 = true →
       status order_update ∈ valid_transitions (o_status o) →
       delivery_agent_id (authorize u o order_update).2 = Some a →
       truthy (Some a) = true →
       query_user_by_id (db w) a = None →
       r = (inl IntegrityError, w)).
Proof.
  intros r. subst r. split.
  - intros e He Hne.
    destruct (get_current_active_user_cases tok w) as [(c & dt & Hu)|(u & Hu)].
    { rewrite (update_order_status_no_user _ _ _ _ _ _ _ Hu) in He |- *.
      injection He as <-. by split_and!. }
    destruct (query_order (db w) x) as [o|] eqn:Hq.
    2: { destruct (update_order_status_no_order tok x order_update now w Hq)
           as (c & dt & Hr). rewrite Hr in He |- *. injection He as <-.
         by split_and!. }
    rewrite (update_order_status_eq _ _ _ _ _ _ _ Hu Hq) in He |- *.
    destruct (authorize u o order_update) as [[] upd']; cbn [negb] in *;
      [|injection He as <-; by split_and!].
    case_bool_decide; [injection He as <-; by split_and!|].
    destruct (negb _ || _); [|injection He as <-; by split_and!].
    cbn zeta in *. rewrite notifications_eq in He |- *.
    destruct (_ && _ && _); cbn [fst] in He; [|done]. injection He as <-. done.
  - intros u o a Hu Hq Hauth Hv Ha Ht Hnone.
    rewrite (update_order_status_eq _ _ _ _ _ _ _ Hu Hq).
    destruct (authorize u o order_update) as [authorized upd'].
    cbn [fst snd] in *. subst authorized. cbn [negb].
    rewrite bool_decide_eq_false_2 by (by intros ?).
    rewrite Ha, Ht. cbn [negb orb fk_user_or_null].
    assert (has_user (db w) a = false) as ->; [|done].
    apply existsb_find_none, Hnone.
Qed.

(** ** Reading orders, paying, and the websocket endpoints *)

Ltac destruct_ex_and H :=
  repeat match type of H with
         | ∃ _, _ => let x := fresh in destruct H as [x H]
         | _ ∧ _ => let H1 := fresh in destruct H as [H1 H]
         end.

Section Reading.

Implicit Types (d : DB) (w : World) (u : UserModel) (o : OrderModel).

Lemma get_orders_elem_of d u o :
  o ∈ get_orders d u ↔
    o ∈ orders d
    ∧ match u_role u with
      | ADMIN => True
      | CUSTOMER => o_customer_id o = u_id u
      | RESTAURANT => o_restaurant_id o = u_id u
      | DELIVERY_AGENT => o_delivery_agent_id o = Some (u_id u)
      end.
Proof.
  unfold get_orders. destruct (u_role u); rewrite ?list_elem_of_filter; tauto.
Qed.

Lemma get_current_active_user_db tok w w' u :
  db w' = db w →
  get_current_active_user tok w = (inr u, w) →
  get_current_active_user tok w' = (inr u, w').
Proof.
  intros Hdb. rewrite !get_current_active_user_spec, Hdb.
  destruct (query_user_by_username (db w) tok) as [v|]; [|done].
  destruct (u_disabled v); [done|]. by intros [= ->].
Qed.

Lemma process_payment_eq order_id total_amount payment_id w :
  process_payment order_id total_amount payment_id w =
    if existsb (λ v, bool_decide (p_id v = payment_id)
                     || bool_decide (p_order_id v = order_id)) (payments (db w))
       || negb (existsb (λ o, bool_decide (o_id o = order_id)) (orders (db w)))
    then (inl IntegrityError, w)
    else (inr (new_payment (db w) order_id total_amount payment_id),
          {| db := with_payments (db w)
                     (payments (db w)
                      ++ [new_payment (db w) order_id total_amount payment_id]);
             manager := manager w; sent := sent w |}).
Proof. apply process_payment_spec. Qed.

Lemma create_payment_eq tok order_id payment_id w u :
  check_role CUSTOMER tok w = (inr u, w) →
  create_payment tok order_id payment_id w =
    match query_order (db w) order_id with
    | None => (inl (HTTPException 404 Order_not_found), w)
    | Some o =>
        if bool_decide (o_customer_id o ≠ u_id u)
        then (inl (HTTPException 403 Not_authorized_to_process_payment), w)
        else match query_payment_by_order (db w) order_id with
             | Some p => (inr p, w)
             | None => process_payment order_id (o_total_amount o) payment_id w
             end
    end.
Proof.
  intros Hu. unfold create_payment. unfold mbind at 1, M_bind at 1. rewrite Hu.
  unfold mbind at 1, M_bind at 1, get_db at 1. cbn beta iota.
  destruct (query_order _ _) as [o|]; [|done].
  destruct (bool_decide _); [done|]. by destruct (query_payment_by_order _ _).
Qed.

End Reading.

(** X22.  In every state the service can reach, the detail of a stored
    order is shown to a user exactly when the order is in the user's own
    listing, or the user is a delivery agent and the order is in
    assigned_to_delivery, to whomever it is assigned; otherwise the answer
    is 403.  An id that no order has gives 404. *)
Theorem X22_order_detail_and_listing (t : Z) (rs : list request)
    (u : UserModel) (o : OrderModel) :
  let d := db (run (boot t) rs) in
  o ∈ orders d →
  (get_order d (o_id o) u = inr o ↔
     o ∈ get_orders d u ∨ (u_role u = DELIVERY_AGENT ∧ o_status o = ASSIGNED))
  ∧ (get_order d (o_id o) u = inr o ∨ get_order d (o_id o) u = inl Get_order_403)
  ∧ (∀ x, query_order d x = None → get_order d x u = inl Get_order_404).
Proof.
  intros d Hin. pose proof (run_db_ok t rs) as Hok. fold d in Hok.
  assert (get_order d (o_id o) u =
            if match u_role u with
               | ADMIN => true
               | CUSTOMER => bool_decide (o_customer_id o = u_id u)
               | RESTAURANT => bool_decide (o_restaurant_id o = u_id u)
               | DELIVERY_AGENT =>
                   bool_decide (o_delivery_agent_id o = Some (u_id u))
                   || bool_decide (o_status o = ASSIGNED)
               end
            then inr o else inl Get_order_403) as Heq.
  { unfold get_order. rewrite (db_ok_order_by_id d o Hok Hin). cbn zeta.
    destruct (u_role u) eqn:Hrole; cbn [bool_decide andb orb];
      repeat case_bool_decide; simpl; try done; exfalso; intuition congruence. }
  split_and!.
  - rewrite Heq, get_orders_elem_of.
    destruct (u_role u) eqn:Hrole; repeat case_bool_decide; simpl;
      split; try done; try tauto; intuition congruence.
  - rewrite Heq. destruct (match u_role u with ADMIN => _ | _ => _ end);
      [by left|by right].
  - intros x Hx. unfold get_order. by rewrite Hx.
Qed.

Lemma X22_witness :
  get_order (db Examples.assigned_to_A) "o1" Examples.agent_B
  = inr Examples.order_of_A
  ∧ Examples.order_of_A ∉ get_orders (db Examples.assigned_to_A) Examples.agent_B.
Proof.
  pose proof (X22_order_detail_and_listing 0
    (Examples.requests_until_placed
     ++ [ Websocket_connected 5%nat "c1" (Some "o1");
          Websocket_connected 7%nat "a1" None;
          Update_order_status "R" "o1" (Examples.to_status ACCEPTED) 101;
          Update_order_status "R" "o1"
            {| status := ASSIGNED; delivery_agent_id := Some "a1" |} 102 ])
    Examples.agent_B Examples.order_of_A) as H.
  cbv zeta in H.
  assert (Examples.order_of_A
          ∈ orders (db (run (boot 0)
              (Examples.requests_until_placed
               ++ [ Websocket_connected 5%nat "c1" (Some "o1");
                    Websocket_connected 7%nat "a1" None;
                    Update_order_status "R" "o1" (Examples.to_status ACCEPTED) 101;
                    Update_order_status "R" "o1"
                      {| status := ASSIGNED; delivery_agent_id := Some "a1" |}
                      102 ])))) as Hin
    by (vm_compute; apply list_elem_of_here).
  destruct (H Hin) as [Hget _]. split.
  - apply Hget. right. split; reflexivity.
  - vm_compute. intros Hn. by apply elem_of_nil in Hn.
Defined.

(** X23.  [create_payment], for a caller that passed the role check: 404
    when no order has the id; 403 when the caller is not the customer of
    the order, an admin included; the stored payment, untouched, when the
    order has one.  Otherwise a payment of the total of the order is
    stored and returned, and the lookup by order then finds it; only a
    payment id that is already taken makes the commit fail, with
    [IntegrityError] and nothing stored. *)
Theorem X23_create_payment_outcome (tok x payment_id : string) (w : World)
    (u : UserModel) :
  check_role CUSTOMER tok w = (inr u, w) →
  let r := create_payment tok x payment_id w in
  match query_order (db w) x with
  | None => r = (inl (HTTPException 404 Order_not_found), w)
  | Some o =>
      if decide (o_customer_id o = u_id u)
      then
        match query_payment_by_order (db w) x with
        | Some p => r = (inr p, w)
        | None =>
            if decide (payment_id ∈ p_id <$> payments (db w))
            then r = (inl IntegrityError, w)
            else
              let p := new_payment (db w) x (o_total_amount o) payment_id in
              r = (inr p, {| db := with_payments (db w) (payments (db w) ++ [p]);
                             manager := manager w; sent := sent w |})
              ∧ query_payment_by_order (db r.2) x = Some p
        end
      else r = (inl (HTTPException 403 Not_authorized_to_process_payment), w)
  end.
Proof.
  intros Hu r. subst r. rewrite (create_payment_eq _ _ _ _ _ Hu).
  destruct (query_order (db w) x) as [o|] eqn:Hq; [|done].
  destruct (decide (o_customer_id o = u_id u)) as [Hown|Hown].
  2: { by rewrite bool_decide_eq_true_2. }
  rewrite bool_decide_eq_false_2 by (by intros ?).
  destruct (query_payment_by_order (db w) x) as [p|] eqn:Hp; [done|].
  rewrite process_payment_eq.
  assert (existsb (λ o0, bool_decide (o_id o0 = x)) (orders (db w)) = true) as ->.
  { apply find_elem_of in Hq as [Hin Hid]. apply existsb_exists.
    exists o. split; [by apply list_elem_of_In|done]. }
  cbn [negb]. rewrite orb_false_r.
  destruct (decide (payment_id ∈ p_id <$> payments (db w))) as [Hin|Hnew].
  - assert (existsb (λ v, bool_decide (p_id v = payment_id)
                          || bool_decide (p_order_id v = x)) (payments (db w))
            = true) as ->; [|done].
    apply list_elem_of_fmap in Hin as (v & -> & Hv). apply existsb_exists.
    exists v. split; [by apply list_elem_of_In|].
    by rewrite bool_decide_eq_true_2.
  - assert (existsb (λ v, bool_decide (p_id v = payment_id)
                          || bool_decide (p_order_id v = x)) (payments (db w))
            = false) as ->.
    { apply not_true_is_false. intros (v & Hv & Hc)%existsb_exists.
      apply list_elem_of_In in Hv.
      apply orb_true_iff in Hc as [Hc|Hc]; apply bool_decide_eq_true in Hc.
      - apply Hnew. rewrite <- Hc. by apply list_elem_of_fmap_2.
      - pose proof (find_none _ _ Hp v) as Hn. cbv beta in Hn.
        rewrite bool_decide_eq_true_2 in Hn by done.
        specialize (Hn (proj1 (list_elem_of_In _ _) Hv)). discriminate Hn. }
    cbn zeta. split; [done|]. cbn [snd db].
    unfold query_payment_by_order in *. cbn [payments with_payments].
    rewrite find_app_None by done. simpl. by rewrite bool_decide_eq_true_2.
Qed.

Lemma X23_witness :
  create_payment "admin" "o1" "p2"
    (run Examples.placed [ Startup "ad" "h0" ])
  = (inl (HTTPException 403 Not_authorized_to_process_payment),
     run Examples.placed [ Startup "ad" "h0" ]).
Proof.
  pose proof (X23_create_payment_outcome "admin" "o1" "p2"
    (run Examples.placed [ Startup "ad" "h0" ])
    {| u_id := "ad"; u_username := "admin"; u_email := "admin@fooddelivery.com";
       u_role := ADMIN; u_hashed_password := "h0"; u_disabled := false |}) as H.
  cbv zeta in H.
  assert (check_role CUSTOMER "admin" (run Examples.placed [ Startup "ad" "h0" ])
          = (inr {| u_id := "ad"; u_username := "admin";
                    u_email := "admin@fooddelivery.com"; u_role := ADMIN;
                    u_hashed_password := "h0"; u_disabled := false |},
             run Examples.placed [ Startup "ad" "h0" ])) as Hu
    by (vm_compute; reflexivity).
  specialize (H Hu).
  assert (query_order (db (run Examples.placed [ Startup "ad" "h0" ])) "o1"
          = Some (new_order Examples.customer_C Examples.two_burgers "o1"
                    20%float 100)) as Hq by (vm_compute; reflexivity).
  rewrite Hq in H. rewrite decide_False in H by (cbn; discriminate).
  exact H.
Defined.

(** X24.  The websocket endpoint asks for no token: a client that gives
    none is registered under whatever user id it puts in the path, and
    from then on receives the status updates of that user's orders.  Here
    for the customer of an order: after the registration an authorized
    update along the chain sends its event to that socket. *)
Theorem X24_socket_without_token_is_served (ws : WebSocket) (w : World)
    (tok x : string) (order_update : OrderUpdate) (now : Z) (u : UserModel)
    (o : OrderModel) :
  get_current_active_user tok w = (inr u, w) →
  query_order (db w) x = Some o →
  (authorize u o order_update).1 = true →
  status order_update ∈ valid_transitions (o_status o) →
  (truthy (delivery_agent_id (authorize u o order_update).2) = true →
   fk_user_or_null (db w) (delivery_agent_id (authorize u o order_update).2) = true) →
  let r := websocket_endpoint ws (o_customer_id o) None w in
  r = (inr Registered,
       {| db := db w; manager := connect (manager w) ws (o_customer_id o) None;
          sent := sent w |})
  ∧ (ws, Order_update x (status order_update) now)
    ∈ sent (update_order_status tok x order_update now r.2).2.
Proof.
  intros Hu Hq Hauth Hv Hfk r. subst r. split; [done|].
  set (w1 := (websocket_endpoint ws (o_customer_id o) None w).2).
  assert (db w1 = db w) as Hdb by done.
  assert (manager w1 = connect (manager w) ws (o_customer_id o) None) as Hm by done.
  pose proof (get_current_active_user_db tok w w1 u Hdb Hu) as Hu1.
  assert (query_order (db w1) x = Some o) as Hq1 by (by rewrite Hdb).
  rewrite <- Hdb in Hfk.
  destruct (update_order_status_committed tok x order_update now w1 u o
              Hu1 Hq1 Hauth Hv Hfk) as (_ & _ & -> & _ & _).
  apply elem_of_app. right. unfold party_sends.
  apply elem_of_app. left. cbn [o_customer_id o_id o_status o_updated_at updated_order].
  rewrite authorize_status, send_order_update_eq, Hm.
  rewrite (query_order_id _ _ _ Hq).
  apply elem_of_app. right. apply elem_of_send_to.
  rewrite registered_connect, decide_True by done.
  apply elem_of_app. right. apply list_elem_of_here.
Qed.

Lemma X24_witness :
  (9%nat, Order_update "o1" ACCEPTED 101)
  ∈ sent (update_order_status "R" "o1" (Examples.to_status ACCEPTED) 101
            (websocket_endpoint 9%nat "c1" None Examples.placed).2).2.
Proof.
  refine (proj2 (X24_socket_without_token_is_served 9%nat Examples.placed "R" "o1"
                   (Examples.to_status ACCEPTED) 101 MoreExamples.restaurant_R
                   (new_order Examples.customer_C Examples.two_burgers "o1"
                      20%float 100) _ _ _ _ _)).
  - vm_compute. reflexivity.
  - vm_compute. reflexivity.
  - reflexivity.
  - apply list_elem_of_here.
  - intros _. vm_compute. reflexivity.
Defined.

(** X25.  With a token, the websocket endpoints register the socket only
    for the account the token names: the subject must be the name of an
    account whose id is the user id of the path, and for the endpoint of
    one order the order must exist and, when the account is a customer,
    be an order of that customer; an account with another role may follow
    any existing order.  Otherwise the socket is closed with code 1008
    and the registry is as before. *)
Theorem X25_socket_with_token (ws : WebSocket) (U O : string)
    (sub : option string) (w : World) :
  let all := websocket_endpoint ws U (Some sub) w in
  let one := websocket_specific_order ws U O (Some sub) w in
  (all.1 = inr Registered ↔
     ∃ user, sub ≫= query_user_by_username (db w) = Some user ∧ u_id user = U)
  ∧ (one.1 = inr Registered ↔
       ∃ user o, sub ≫= query_user_by_username (db w) = Some user
                 ∧ u_id user = U
                 ∧ query_order (db w) O = Some o
                 ∧ (u_role user = CUSTOMER → o_customer_id o = U))
  ∧ (all.1 = inr Registered → manager all.2 = connect (manager w) ws U None)
  ∧ (one.1 = inr Registered → manager one.2 = connect (manager w) ws U (Some O))
  ∧ (all.1 ≠ inr Registered → all = (inr Closed_1008, w))
  ∧ (one.1 ≠ inr Registered → one = (inr Closed_1008, w)).
Proof.
  intros all one. subst all one.
  unfold websocket_endpoint, websocket_specific_order. munfold.
  destruct (option_bind _ _ (query_user_by_username (db w)) sub) as [user|];
    cbn beta iota.
  2: { split_and!; try done; split; try done; intros H; by destruct_ex_and H. }
  destruct (decide (u_id user = U)) as [HU|HU].
  2: { rewrite !(bool_decide_eq_true_2 (u_id user ≠ U)) by done. cbn.
       split_and!; try done; split; try done; intros H; destruct_ex_and H;
         congruence. }
  rewrite !(bool_decide_eq_false_2 (u_id user ≠ U)) by (by intros ?).
  cbn [orb]. destruct (query_order (db w) O) as [o|] eqn:Ho.
  2: { cbn. split_and!; try done; split; try done; intros H;
         try (by destruct_ex_and H); by exists user. }
  destruct (decide (u_role user = CUSTOMER)) as [Hr|Hr].
  - rewrite (bool_decide_eq_true_2 (u_role user = CUSTOMER)) by done. cbn [andb].
    destruct (decide (o_customer_id o = U)) as [Hc|Hc].
    + rewrite (bool_decide_eq_false_2 (o_customer_id o ≠ U)) by (by intros ?).
      cbn. split_and!; try done; split; try done; intros _;
        [by exists user|by exists user, o].
    + rewrite (bool_decide_eq_true_2 (o_customer_id o ≠ U)) by done.
      cbn. split_and!; try done; split; try done.
      * intros _. by exists user.
      * intros H. destruct_ex_and H. simplify_eq. exfalso. auto.
  - rewrite (bool_decide_eq_false_2 (u_role user = CUSTOMER)) by done. cbn.
    split_and!; try done; split; try done; intros _;
      [by exists user|by exists user, o].
Qed.

(** X26.  A process that runs [startup_event] on an empty database has the
    admin account from then on, whatever requests follow: the lookup of
    the name "admin" finds it with the role admin, it passes every role
    check, and nobody can register under that name. *)
Theorem X26_admin_account_after_startup (t : Z) (a h : string)
    (rs : list request) :
  let w := run (boot t) (Startup a h :: rs) in
  let admin := {| u_id := a; u_username := "admin";
                  u_email := "admin@fooddelivery.com"; u_role := ADMIN;
                  u_hashed_password := h; u_disabled := false |} in
  query_user_by_username (db w) "admin" = Some admin
  ∧ (∀ required_role, check_role required_role "admin" w = (inr admin, w))
  ∧ (∀ user i h', username user = "admin" →
       register_user user i h' w
       = (inl (HTTPException 400 Username_already_registered), w))
  ∧ (∀ a' h', startup_event a' h' w = (inr tt, w)).
Proof.
  intros w admin.
  assert (query_user_by_username (db w) "admin" = Some admin) as Hq.
  { subst w. cbn [run]. eapply db_changes_user_by_username; [apply run_db_changes|].
    reflexivity. }
  split_and!; [done|..].
  - intros r. unfold check_role. unfold mbind at 1, M_bind at 1.
    rewrite get_current_active_user_spec, Hq. cbn. munfold.
    by rewrite (bool_decide_eq_false_2 (ADMIN ≠ ADMIN)), andb_false_r
      by (by intros ?).
  - intros user i h' Hn. unfold register_user. munfold. by rewrite Hn, Hq.
  - intros a' h'. unfold startup_event. munfold. by rewrite Hq.
Qed.

Lemma db_change_payment (d d' : DB) (x : string) (p : PaymentModel) :
  db_change d d' →
  query_payment_by_order d x = Some p → query_payment_by_order d' x = Some p.
Proof.
  intros Hc Hq. destruct Hc; try done.
  unfold query_payment_by_order in *. simpl. by apply find_app_Some.
Qed.

Lemma db_changes_payment (d d' : DB) (x : string) (p : PaymentModel) :
  rtc db_change d d' →
  query_payment_by_order d x = Some p → query_payment_by_order d' x = Some p.
Proof. induction 1; [done|]. intros. eauto using db_change_payment. Qed.

(** X27.  No request removes or alters a payment: the payment found for
    an order is found for it, the same row, after any run of requests. *)
Theorem X27_payments_are_kept (w : World) (rs : list request) (x : string)
    (p : PaymentModel) :
  query_payment_by_order (db w) x = Some p →
  query_payment_by_order (db (run w rs)) x = Some p.
Proof. apply db_changes_payment, run_db_changes. Qed.

Lemma X27_witness :
  query_payment_by_order
    (db (run Examples.placed
           [ Create_payment "C" "o1" "p2";
             Update_order_status "R" "o1" (Examples.to_status ACCEPTED) 101 ]))
    "o1"
  = Some Examples.payment_p1.
Proof.
  apply (X27_payments_are_kept Examples.placed
           [ Create_payment "C" "o1" "p2";
             Update_order_status "R" "o1" (Examples.to_status ACCEPTED) 101 ]
           "o1" Examples.payment_p1).
  vm_compute. reflexivity.
Defined.

(** ** The registries the service builds *)

Section Served.

Implicit Types (conns : registry) (s : Service) (rs : list request).
Implicit Types (C ws : WebSocket) (U V O k : string).

Lemma NoDup_occurrences C (l : list WebSocket) :
  NoDup l → C ∈ l → occurrences C l = 1%nat.
Proof.
  induction 1 as [|x l Hx Hnd IH]; [by intros ?%elem_of_nil|].
  intros [->|Hin]%elem_of_cons.
  - rewrite occurrences_cons_eq. f_equal. by apply occurrences_zero.
  - assert (x ≠ C) as Hne by (intros ->; done).
    unfold occurrences in *. rewrite filter_cons_False by done. by apply IH.
Qed.

Lemma list_remove_sublist ws (l l' : list WebSocket) :
  list_remove ws l = Some l' → l' `sublist_of` l.
Proof.
  intros (l1 & l2 & -> & -> & _)%list_remove_split.
  apply sublist_app; [done|]. by apply sublist_cons.
Qed.

(** [disconnect] only takes sockets out. *)
Lemma disconnect_sublist conns ws U order_id conns' V k :
  disconnect conns ws U order_id = inr conns' →
  registered conns' V k `sublist_of` registered conns V k.
Proof.
  destruct (conns !! U) as [by_user|] eqn:HU.
  2: { rewrite disconnect_unknown_user by done. by intros [= <-]. }
  rewrite (disconnect_known_user _ _ _ _ _ HU).
  assert (∀ by_user',
            (∀ k0, default [] (by_user' !! k0) `sublist_of` default [] (by_user !! k0)) →
            registered (pruned_registry U by_user' conns) V k
              `sublist_of` registered conns V k) as Hpruned.
  { intros by_user' Hsub. unfold registered at 1, scope_entry.
    rewrite pruned_registry_lookup. destruct (decide (U = V)) as [<-|HV]; [|done].
    rewrite (registered_lookup _ _ _ _ HU).
    case_bool_decide; simpl; [apply sublist_nil_l|apply Hsub]. }
  destruct (selected_key by_user order_id) as [k0|].
  - destruct (list_remove ws _) as [l'|] eqn:Hl; [|done]. intros [= <-].
    apply Hpruned. intros k1. rewrite pruned_scopes_lookup.
    destruct (decide (k0 = k1)) as [<-|Hk]; [|done].
    apply list_remove_sublist in Hl. by destruct l'; simpl; [apply sublist_nil_l|].
  - intros [= <-]. by apply Hpruned.
Qed.

Lemma served_ok_manager s (w : World) :
  served_ok s → manager w = manager (world s) →
  served_ok {| world := w; accepted := accepted s |}.
Proof. intros Hok Hm. unfold served_ok. cbn [world accepted]. by rewrite Hm. Qed.

Lemma served_ok_connect s ws U order_id (w : World) :
  served_ok s → ws ∉ accepted s →
  manager w = connect (manager (world s)) ws U order_id →
  served_ok {| world := w; accepted := {[ ws ]} ∪ accepted s |}.
Proof.
  intros [[Hnd Hone] Hacc] Hnew Hm.
  assert (∀ V k, ws ∉ registered (manager (world s)) V k) as Hfresh.
  { intros V k Hin. apply Hnew. by eapply Hacc. }
  unfold served_ok, filed_once. cbn [world accepted]. rewrite Hm.
  split_and!.
  - intros V k. rewrite registered_connect. case_decide; [|apply Hnd].
    apply NoDup_app. split_and!; [apply Hnd| |apply NoDup_singleton].
    intros x Hx ->%list_elem_of_singleton. by apply (Hfresh U k).
  - intros C U1 k1 V k'. rewrite !registered_connect.
    destruct (decide (U = U1 ∧ connect_key order_id = k1)) as [[<- <-]|H1];
      destruct (decide (U = V ∧ connect_key order_id = k')) as [[<- <-]|H2];
      try done.
    + intros [Hin| ->%list_elem_of_singleton]%elem_of_app Hin2.
      * exfalso. apply H2. by apply (Hone C).
      * exfalso. by apply (Hfresh V k').
    + intros Hin1 [Hin| ->%list_elem_of_singleton]%elem_of_app.
      * exfalso. apply H1. by apply (Hone C).
      * exfalso. by apply (Hfresh U1 k1).
    + apply Hone.
  - intros C V k. rewrite registered_connect. rewrite elem_of_union.
    case_decide.
    + intros [Hin| ->%list_elem_of_singleton]%elem_of_app.
      * right. by eapply Hacc.
      * left. by apply elem_of_singleton.
    + intros Hin. right. by eapply Hacc.
Qed.

Lemma served_ok_sublist s (w : World) :
  served_ok s →
  (∀ V k, registered (manager w) V k
            `sublist_of` registered (manager (world s)) V k) →
  served_ok {| world := w; accepted := accepted s |}.
Proof.
  intros [[Hnd Hone] Hacc] Hsub. unfold served_ok, filed_once.
  cbn [world accepted]. split_and!.
  - intros V k. eapply sublist_NoDup; [apply Hnd|apply Hsub].
  - intros C U1 k1 V k' H1 H2.
    apply (Hone C);
      [exact (elem_of_sublist _ _ _ H1 (Hsub U1 k1))
      |exact (elem_of_sublist _ _ _ H2 (Hsub V k'))].
  - intros C V k Hin. apply (Hacc C V k).
    exact (elem_of_sublist _ _ _ Hin (Hsub V k)).
Qed.

Lemma serve_request_ok r s : served_ok s → served_ok (serve_request r s).
Proof.
  intros Hok. destruct r; cbn [serve_request handle].
  - apply served_ok_manager; [done|apply startup_event_effect].
  - apply served_ok_manager; [done|apply register_user_effect].
  - apply served_ok_manager; [done|apply create_menu_item_effect].
  - apply served_ok_manager; [done|apply update_menu_item_effect].
  - apply served_ok_manager; [done|apply delete_menu_item_effect].
  - apply served_ok_manager; [done|apply create_order_effect].
  - apply served_ok_manager; [done|apply update_order_status_effect].
  - apply served_ok_manager; [done|apply create_payment_effect].
  - unfold accept. case_bool_decide as Hnew; [done|].
    eapply served_ok_connect; [done|done|].
    apply websocket_connected_effect.
  - apply served_ok_sublist; [done|]. intros V k.
    rewrite (proj2 (websocket_disconnected_effect _ _ _ _)).
    destruct (disconnect _ _ _ _) as [e|conns'] eqn:Hd; [done|].
    by eapply disconnect_sublist.
Qed.

Lemma start_ok t : served_ok (start t).
Proof.
  assert (∀ U k, registered (manager (world (start t))) U k = []) as Hnil.
  { intros U k. unfold registered, scope_entry. cbn.
    unfold ConnectionManager.init. by rewrite lookup_empty. }
  unfold served_ok, filed_once. split_and!.
  - intros U k. rewrite Hnil. constructor.
  - intros C U k V k'. rewrite Hnil. by intros ?%elem_of_nil.
  - intros C U k. rewrite Hnil. by intros ?%elem_of_nil.
Qed.

Lemma serve_ok s rs : served_ok s → served_ok (serve s rs).
Proof.
  revert s. induction rs as [|r rs IH]; intros s Hok; [done|].
  cbn [serve]. by apply IH, serve_request_ok.
Qed.

(** What the service reaches, the handlers reach: a refused handshake
    leaves the request out. *)
Lemma serve_run s rs : ∃ rs', world (serve s rs) = run (world s) rs'.
Proof.
  revert s. induction rs as [|r rs IH]; intros s; [by exists []|].
  cbn [serve].
  assert (serve_request r s = s
          ∨ world (serve_request r s) = handle r (world s)) as [Hs|Hs].
  { destruct r; cbn [serve_request]; try (by right).
    destruct (accept _ _); [by right|by left]. }
  - rewrite Hs. apply IH.
  - destruct (IH (serve_request r s)) as [rs' Hrs]. exists (r :: rs').
    cbn [run]. by rewrite <- Hs.
Qed.

Lemma served_filed_once t rs : filed_once (manager (world (serve (start t) rs))).
Proof. apply serve_ok, start_ok. Qed.

End Served.

(** C7.  In every registry the service builds, where each socket went
    through its handshake and is filed once, a socket C filed under
    (U, O) receives an event addressed to (U, O) exactly once; an event
    addressed to another order O2 of U is not delivered to C, which is not
    filed under (U, "all"); and for every order both the sockets of the
    order scope and those of the "all" scope of U receive the event, once
    each, and nothing but that event is sent.  The id of an order is the
    text of a UUID (main.py 163), so no order has the scope key "all" for
    its id. *)
Theorem C7_notify_user_deliveries (t : Z) (rs : list request) (U O : string)
    (C : WebSocket) (E : message) :
  let conns := manager (world (serve (start t) rs)) in
  C ∈ registered conns U O →
  O ≠ "all" →
  deliveries C (send_order_update conns U O E) = 1%nat
  ∧ (∀ O2, O2 ≠ O →
       (C ∉ registered conns U "all")
       ∧ deliveries C (send_order_update conns U O2 E) = 0%nat)
  ∧ (∀ O2 C', O2 ≠ "all" →
       C' ∈ registered conns U O2 ∨ C' ∈ registered conns U "all" →
       deliveries C' (send_order_update conns U O2 E) = 1%nat)
  ∧ (∀ O2, Forall (λ s : send, s.2 = E) (send_order_update conns U O2 E)).
Proof.
  intros conns HC HO.
  destruct (served_filed_once t rs) as [Hnd Hone]. fold conns in Hnd, Hone.
  assert (∀ O2 C', O2 ≠ "all" →
            C' ∈ registered conns U O2 ∨ C' ∈ registered conns U "all" →
            deliveries C' (send_order_update conns U O2 E) = 1%nat) as Hboth.
  { intros O2 C' HO2 [Hin|Hin]; rewrite send_order_update_deliveries.
    - rewrite (NoDup_occurrences C' _ (Hnd U O2) Hin).
      assert (occurrences C' (registered conns U "all") = 0%nat) as ->; [|done].
      apply occurrences_zero. intros Hall.
      by destruct (Hone C' U O2 U "all" Hin Hall) as [_ ?].
    - rewrite (NoDup_occurrences C' _ (Hnd U "all") Hin).
      assert (occurrences C' (registered conns U O2) = 0%nat) as ->; [|done].
      apply occurrences_zero. intros Hord.
      by destruct (Hone C' U O2 U "all" Hord Hin) as [_ ?]. }
  split_and!.
  - apply Hboth; [done|by left].
  - intros O2 HO2.
    assert (C ∉ registered conns U "all") as Hall.
    { intros Hall. by destruct (Hone C U O U "all" HC Hall) as [_ ?]. }
    split; [done|]. rewrite send_order_update_deliveries.
    assert (occurrences C (registered conns U O2) = 0%nat) as ->.
    { apply occurrences_zero. intros Hin.
      destruct (Hone C U O U O2 HC Hin) as [_ ?]. congruence. }
    by apply occurrences_zero in Hall as ->.
  - exact Hboth.
  - intros O2. apply send_order_update_message.
Qed.

Lemma C7_witness :
  deliveries 5%nat
    (send_order_update
       (manager (world (serve (start 0) MoreExamples.requests_until_accepted)))
       "c1" "o1" Examples.some_event)
  = 1%nat.
Proof.
  refine (proj1 (C7_notify_user_deliveries 0 MoreExamples.requests_until_accepted
                   "c1" "o1" 5%nat Examples.some_event _ _)).
  - vm_compute. apply list_elem_of_here.
  - discriminate.
Defined.
